(** * Court-Status backend: the booking grid and the slot reconciler

    A shallow embedding of [booking/models.py] and [booking/views.py]:
    the four model tables, the ORM calls the views make on them, the
    read path [court_status_api] and the write path [update_booking_api],
    followed by the properties of the grid and of the booking store.

    How the framework is read:
    - a table is the list of its rows in storage order, and the store
      hands out fresh object ids from a counter;
    - the ORM calls follow Django's description of them: [first()] on an
      unordered query sorts on the primary key; [get] raises
      [DoesNotExist] or [MultipleObjectsReturned]; [get_or_create] and
      [update_or_create] build the row they have to create from the
      lookup keywords that have no [__] in their name, and the defaults;
      a lookup through a foreign key ([court___id], [court__sport__id])
      compares the stored key and joins the row it names;
    - the constraints the models declare ([unique=True] on the hour, the
      [UniqueConstraint] on court, time slot and date) are unique indexes
      of the store (djongo on MongoDB): a write that breaks one is
      refused, and the refusal reaches the code as a [DatabaseError]
      (not as the [IntegrityError] that [get_or_create] looks for);
      the store has no NOT NULL check ([ENFORCE_SCHEMA] is off), so a
      row can be written with its date or its user unset;
    - a computation keeps the store it has reached when it raises: every
      one below raises before its write or after its only write, so a
      transaction would have nothing to roll back;
    - a request reads the clock once; of JSON, floats, arrays and objects
      are left out. *)

From stdpp Require Import base strings pretty list gmap sorting.
From Stdlib Require Import ZArith Ascii.

Set Default Proof Using "Type".
#[local] Set Warnings "-clear-no-such-hyp".

(** ** Python values and built-ins *)

Module Py.

(** Exceptions the views can meet. *)
Inductive exn :=
  | ValueError
  | TypeError
  | IndexError
  | InvalidId
  | DoesNotExist
  | MultipleObjectsReturned
  | RelatedObjectDoesNotExist
  | IntegrityError
  | DatabaseError.

(** A value of the parsed JSON body ([request.data.get(key)] gives [JNone]
    for a key that is not there).  Floats, lists and objects are left out. *)
Inductive jvalue :=
  | JNone
  | JBool (b : bool)
  | JInt (z : Z)
  | JStr (s : string).

(** Truth value, as [all([...])] and [not x] test it. *)
Definition truthy (v : jvalue) : bool :=
  match v with
  | JNone => false
  | JBool b => b
  | JInt z => negb (z =? 0)%Z
  | JStr s => negb (bool_decide (s = ""))
  end.

(** [str(i)] of an integer. *)
Definition str_nat (i : nat) : string := pretty i.
Definition str_Z (z : Z) : string := pretty z.

(** *** [int] on a string

    A string is its UTF-8 text, one [ascii] per byte.  [int(s)] first
    rewrites a string that is not pure ASCII
    ([_PyUnicode_TransformDecimalAndSpaceToASCII]): a character below 127
    stays, a Unicode white space becomes a blank, a Unicode decimal digit
    becomes its ASCII digit, and anything else ends the text with a [?];
    [PyLong_FromString] then reads the ASCII text in base 10.  The two
    tables are those of Unicode 13.0 (CPython 3.9 and 3.10). *)

(** [Py_ISSPACE]: the white space [PyLong_FromString] skips on both
    sides. *)
Definition is_space (c : ascii) : bool :=
  let n := nat_of_ascii c in
  ((9 <=? n) && (n <=? 13)) || (n =? 32).

Fixpoint lstrip (s : string) : string :=
  match s with
  | String c r => if is_space c then lstrip r else s
  | EmptyString => EmptyString
  end.

Definition strip (s : string) : string :=
  String.rev (lstrip (String.rev (lstrip s))).

(** An ASCII digit. *)
Definition digit_of (c : ascii) : option Z :=
  let n := nat_of_ascii c in
  if (48 <=? n) && (n <=? 57) then Some (Z.of_nat (n - 48)) else None.

(** Decimal digits, with single underscores allowed between digits. *)
Fixpoint digits_val (acc : Z) (after_digit : bool) (s : string) : option Z :=
  match s with
  | EmptyString => if after_digit then Some acc else None
  | String c r =>
      if bool_decide (c = "_"%char)
      then (if after_digit then digits_val acc false r else None)
      else match digit_of c with
           | Some d => digits_val (10 * acc + d) true r
           | None => None
           end
  end.

(** [PyLong_FromString] in base 10. *)
Definition long_from_string (s : string) : option Z :=
  match strip s with
  | String "+" r => digits_val 0 false r
  | String "-" r => Z.opp <$> digits_val 0 false r
  | t => digits_val 0 false t
  end.

(** [Py_UNICODE_ISSPACE] from 128 on. *)
Definition unicode_space (cp : N) : bool :=
  bool_decide (cp ∈ [0x85; 0xA0; 0x1680; 0x2028; 0x2029; 0x202F; 0x205F; 0x3000]%N)
  || ((0x2000 <=? cp) && (cp <=? 0x200A))%N.

(** The digit zero of every run of ten decimal digits (category Nd). *)
Definition decimal_zeros : list N :=
  [0x0030; 0x0660; 0x06F0; 0x07C0; 0x0966; 0x09E6; 0x0A66; 0x0AE6; 0x0B66; 0x0BE6;
   0x0C66; 0x0CE6; 0x0D66; 0x0DE6; 0x0E50; 0x0ED0; 0x0F20; 0x1040; 0x1090; 0x17E0;
   0x1810; 0x1946; 0x19D0; 0x1A80; 0x1A90; 0x1B50; 0x1BB0; 0x1C40; 0x1C50; 0xA620;
   0xA8D0; 0xA900; 0xA9D0; 0xA9F0; 0xAA50; 0xABF0; 0xFF10; 0x104A0; 0x10D30;
   0x11066; 0x110F0; 0x11136; 0x111D0; 0x112F0; 0x11450; 0x114D0; 0x11650;
   0x116C0; 0x11730; 0x118E0; 0x11950; 0x11C50; 0x11D50; 0x11DA0; 0x16A60;
   0x16B50; 0x1D7CE; 0x1D7D8; 0x1D7E2; 0x1D7EC; 0x1D7F6; 0x1E140; 0x1E2F0;
   0x1E950; 0x1FBF0]%N.

(** [Py_UNICODE_TODECIMAL]. *)
Definition unicode_decimal (cp : N) : option N :=
  (λ z, cp - z)%N
    <$> head (filter (λ z, (z ≤ cp)%N ∧ (cp < z + 10)%N) decimal_zeros).

(** The six low bits of a continuation byte of UTF-8. *)
Definition continuation (c : ascii) : option N :=
  let n := N_of_ascii c in
  if ((128 <=? n) && (n <? 192))%N then Some (n - 128)%N else None.

(** What the rewriting puts for the character [cp], in front of [rest]. *)
Definition transformed (cp : N) (rest : string) : string :=
  if unicode_space cp then String " " rest
  else match unicode_decimal cp with
       | Some d => String (ascii_of_N (48 + d)) rest
       | None => "?"
       end.

(** The rewriting, character by character of the UTF-8 text; bytes that
    are no UTF-8 encode no string and read as an invalid character. *)
Fixpoint to_ascii_decimal (s : string) : string :=
  match s with
  | EmptyString => EmptyString
  | String c1 r1 =>
      let b1 := N_of_ascii c1 in
      if (b1 <? 127)%N then String c1 (to_ascii_decimal r1)
      else
        match r1 with
        | String c2 r2 =>
            match continuation c2 with
            | Some x2 =>
                if ((194 <=? b1) && (b1 <? 224))%N
                then transformed ((b1 - 192) * 64 + x2)%N (to_ascii_decimal r2)
                else
                  match r2 with
                  | String c3 r3 =>
                      match continuation c3 with
                      | Some x3 =>
                          if ((224 <=? b1) && (b1 <? 240))%N
                          then transformed (((b1 - 224) * 64 + x2) * 64 + x3)%N
                                 (to_ascii_decimal r3)
                          else
                            match r3 with
                            | String c4 r4 =>
                                match continuation c4 with
                                | Some x4 =>
                                    if ((240 <=? b1) && (b1 <? 245))%N
                                    then transformed
                                           ((((b1 - 240) * 64 + x2) * 64 + x3) * 64
                                            + x4)%N
                                           (to_ascii_decimal r4)
                                    else "?"
                                | None => "?"
                                end
                            | EmptyString => "?"
                            end
                      | None => "?"
                      end
                  | EmptyString => "?"
                  end
            | None => "?"
            end
        | EmptyString => "?"
        end
  end.

Fixpoint is_ascii_text (s : string) : bool :=
  match s with
  | EmptyString => true
  | String c r => (N_of_ascii c <? 128)%N && is_ascii_text r
  end.

(** [int(s)] on a string: [None] stands for [ValueError]. *)
Definition int_of_str (s : string) : option Z :=
  long_from_string (if is_ascii_text s then s else to_ascii_decimal s).

(** [int(v)]: [ValueError] on a string that is no integer literal,
    [TypeError] on [None]. *)
Definition int (v : jvalue) : exn + Z :=
  match v with
  | JNone => inl TypeError
  | JBool b => inr (if b then 1 else 0)%Z
  | JInt z => inr z
  | JStr s => match int_of_str s with Some z => inr z | None => inl ValueError end
  end.

(** [l[k]] on a list: a negative [k] counts from the end, and only an index
    outside [-len(l) .. len(l)-1] raises [IndexError]. *)
Definition index {A} (l : list A) (k : Z) : exn + A :=
  let j := if (0 <=? k)%Z then k else (Z.of_nat (length l) + k)%Z in
  if (0 <=? j)%Z
  then match l !! Z.to_nat j with Some x => inr x | None => inl IndexError end
  else inl IndexError.

(** [enumerate(l, start)]. *)
Fixpoint enumerate {A} (start : nat) (l : list A) : list (nat * A) :=
  match l with
  | [] => []
  | x :: r => (start, x) :: enumerate (S start) r
  end.

(** [range(lo, lo + n)]. *)
Fixpoint range (lo : Z) (n : nat) : list Z :=
  match n with
  | O => []
  | S n' => lo :: range (lo + 1) n'
  end.

(** Zero-padded decimal, as ["%02d"] and ["%04d"] print a natural number. *)
Definition zfill (width : nat) (z : Z) : string :=
  let s := str_Z z in
  String.concat "" (replicate (width - String.length s) "0") +:+ s.

(** [datetime.date]. *)
Record date := Date { year : Z; month : Z; day : Z }.

(** A reading of [timezone.now()]. *)
Record datetime := DateTime {
  dt_date : date; dt_hour : Z; dt_minute : Z; dt_second : Z }.

Definition is_leap (y : Z) : bool :=
  ((y mod 4 =? 0) && (negb (y mod 100 =? 0) || (y mod 400 =? 0)))%Z.

Definition days_in_month (y m : Z) : Z :=
  if (m =? 2)%Z then (if is_leap y then 29 else 28)
  else if ((m =? 4) || (m =? 6) || (m =? 9) || (m =? 11))%Z then 30 else 31.

Definition valid_date (y m d : Z) : bool :=
  ((1 <=? y) && (y <=? 9999) && (1 <=? m) && (m <=? 12)
   && (1 <=? d) && (d <=? days_in_month y m))%Z.

(** Exactly [n] decimal digits. *)
Fixpoint fixed_digits (n : nat) (acc : Z) (s : string) : option (Z * string) :=
  match n with
  | O => Some (acc, s)
  | S n' =>
      match s with
      | String c r =>
          match digit_of c with
          | Some d => fixed_digits n' (10 * acc + d) r
          | None => None
          end
      | EmptyString => None
      end
  end.

(** [datetime.date.fromisoformat] on the calendar form [YYYY-MM-DD] (the
    only form before Python 3.11); [None] stands for [ValueError]. *)
Definition fromisoformat (s : string) : option date :=
  match fixed_digits 4 0 s with
  | Some (y, String "-" s1) =>
      match fixed_digits 2 0 s1 with
      | Some (m, String "-" s2) =>
          match fixed_digits 2 0 s2 with
          | Some (d, EmptyString) =>
              if valid_date y m d then Some (Date y m d) else None
          | _ => None
          end
      | _ => None
      end
  | _ => None
  end.

Definition isoformat (d : date) : string :=
  zfill 4 (year d) +:+ "-" +:+ zfill 2 (month d) +:+ "-" +:+ zfill 2 (day d).

(** [strftime('%I:%M %p')]. *)
Definition strftime_IMp (t : datetime) : string :=
  let h12 := (if (dt_hour t mod 12 =? 0) then 12 else dt_hour t mod 12)%Z in
  zfill 2 h12 +:+ ":" +:+ zfill 2 (dt_minute t) +:+ " "
    +:+ (if (dt_hour t <? 12)%Z then "AM" else "PM").

Global Instance date_eq_dec : EqDecision date.
Proof. solve_decision. Defined.
Global Instance datetime_eq_dec : EqDecision datetime.
Proof. solve_decision. Defined.

End Py.

Export Py.

(** A BSON object id: 12 bytes, read as a number; [ObjectId(s)] takes the
    24 hexadecimal digits of it and [str] prints them back in lower case. *)
Module Bson.

Abbreviation ObjectId := N (only parsing).

Definition hex_of (c : ascii) : option N :=
  let n := N_of_ascii c in
  if ((48 <=? n) && (n <=? 57))%N then Some (n - 48)%N
  else if ((97 <=? n) && (n <=? 102))%N then Some (n - 87)%N
  else if ((65 <=? n) && (n <=? 70))%N then Some (n - 55)%N
  else None.

Fixpoint hex_val (acc : N) (s : string) : option N :=
  match s with
  | EmptyString => Some acc
  | String c r =>
      match hex_of c with
      | Some d => hex_val (16 * acc + d) r
      | None => None
      end
  end.

(** [ObjectId(v)]: [InvalidId] unless the string has 24 hexadecimal digits,
    [TypeError] on a value that is no string. *)
Definition ObjectId_of (v : jvalue) : exn + ObjectId :=
  match v with
  | JStr s =>
      if bool_decide (String.length s = 24)
      then match hex_val 0 s with Some x => inr x | None => inl InvalidId end
      else inl InvalidId
  | _ => inl TypeError
  end.

Definition hex_char (d : N) : ascii :=
  if (d <? 10)%N then ascii_of_N (48 + d) else ascii_of_N (87 + d).

Fixpoint hex_digits (n : nat) (x : N) (acc : string) : string :=
  match n with
  | O => acc
  | S n' => hex_digits n' (x / 16)%N (String (hex_char (x mod 16)%N) acc)
  end.

Definition str_oid (x : ObjectId) : string := hex_digits 24 x "".

End Bson.

Export Bson.


(** ** The models of [booking/models.py] and the store behind them *)

Record Sport := mkSport { sp_id : string; sp_name : string }.

Record TimeSlot := mkTimeSlot { ts_id : ObjectId; hour : Z }.

Record Court := mkCourt { c_id : ObjectId; c_sport : string; c_name : string }.

Record User := mkUser { user_pk : Z; username : string }.

(** A stored booking; [court], [time_slot] and [user] hold the key of the
    row they refer to.  The store checks no column for NULL, so the date
    and the user of a row can be unset ([None]); court and time slot
    never are, since [Booking.save] reads both before it writes. *)
Record Booking := mkBooking {
  booking_id : ObjectId;
  court : ObjectId;
  time_slot : ObjectId;
  on_date : option date;
  user : option Z;
  status : string;
  created_at : datetime;
  updated_at : datetime }.

(** The four collections, in storage order, and the next object id the
    store hands out. *)
Record DB := mkDB {
  sports : list Sport;
  time_slots : list TimeSlot;
  courts : list Court;
  bookings : list Booking;
  next_id : ObjectId }.

Global Instance Booking_eq_dec : EqDecision Booking.
Proof. solve_decision. Defined.
Global Instance TimeSlot_eq_dec : EqDecision TimeSlot.
Proof. solve_decision. Defined.

Definition set_time_slots (l : list TimeSlot) (n : ObjectId) (db : DB) : DB :=
  mkDB (sports db) l (courts db) (bookings db) n.

Definition set_bookings (l : list Booking) (n : ObjectId) (db : DB) : DB :=
  mkDB (sports db) (time_slots db) (courts db) l n.

(** [BookingStatus.choices]. *)
Definition valid_statuses : list string :=
  ["available"; "booked"; "maintenance"; "reserved"].

(** [TimeSlot.formatted_slot] (models.py, lines 24-30). *)
Definition formatted_slot (t : TimeSlot) : string :=
  let hour_12 := (hour t mod 12)%Z in
  let hour_12 := if (hour_12 =? 0)%Z then 12%Z else hour_12 in
  let am_pm := if (hour t <? 12)%Z then "AM" else "PM" in
  str_Z hour_12 +:+ ":00 " +:+ am_pm.

(** ** Store computations: a state that survives an exception *)

Definition M (A : Type) : Type := DB → DB * (exn + A).

Definition ret {A} (a : A) : M A := λ db, (db, inr a).
Definition raise {A} (e : exn) : M A := λ db, (db, inl e).
Definition bind {A B} (m : M A) (k : A → M B) : M B :=
  λ db, match m db with
        | (db', inr a) => k a db'
        | (db', inl e) => (db', inl e)
        end.
Definition try_except {A} (m : M A) (h : exn → M A) : M A :=
  λ db, match m db with
        | (db', inl e) => h e db'
        | r => r
        end.
Definition lift {A} (r : exn + A) : M A := λ db, (db, r).
Definition query {A} (f : DB → A) : M A := λ db, (db, inr (f db)).

Notation "'let!' x ':=' m 'in' k" := (bind m (λ x, k))
  (at level 10, x binder, m at level 100, k at level 200).
Notation "m '>>' k" := (bind m (λ _, k))
  (at level 100, k at level 200, right associativity).

(** ** The ORM calls the code makes *)

Module Orm.

(** [order_by('hour')]: a stable insertion sort on the hour. *)
Fixpoint insert_by_hour (t : TimeSlot) (l : list TimeSlot) : list TimeSlot :=
  match l with
  | [] => [t]
  | x :: r => if (hour t <=? hour x)%Z then t :: l else x :: insert_by_hour t r
  end.

Definition order_by_hour (l : list TimeSlot) : list TimeSlot :=
  foldr insert_by_hour [] l.

(** [first()] on a query without ordering sorts on the primary key. *)
Definition first_by {A} (lt : A → A → bool) (l : list A) : option A :=
  foldl (λ acc x, match acc with
                  | Some m => if lt x m then Some x else Some m
                  | None => Some x
                  end) None l.

(** [get(...)] on the rows a lookup selects. *)
Definition get {A} (sel : list A) : exn + A :=
  match sel with
  | [] => inl DoesNotExist
  | [x] => inr x
  | _ => inl MultipleObjectsReturned
  end.

(** Keyword arguments of a lookup or of a constructor. *)
Inductive arg :=
  | AOid (o : ObjectId)
  | ADate (d : date)
  | AStr (s : string)
  | AUser (u : User).

Definition kwargs := list (string * arg).

(** A keyword with [__] in it is a lookup path, not a field name. *)
Fixpoint has_lookup_sep (k : string) : bool :=
  match k with
  | String "_" (String "_" _) => true
  | String _ r => has_lookup_sep r
  | EmptyString => false
  end.

(** [QuerySet._extract_model_params]: the constructor of a row that
    [get_or_create] / [update_or_create] has to create receives the lookup
    keywords that have no [__] in their name, and then the defaults. *)
Definition extract_model_params (defaults kw : kwargs) : kwargs :=
  List.filter (λ p, negb (has_lookup_sep p.1)) kw ++ defaults.

End Orm.

Export Orm.

(** *** TimeSlot *)

(** An insert into [timeslots]; [hour] is declared [unique=True]. *)
Definition TimeSlot_create (h : Z) : M TimeSlot := λ db,
  if bool_decide (h ∈ hour <$> time_slots db)
  then (db, inl DatabaseError)
  else let t := mkTimeSlot (next_id db) h in
       (set_time_slots (time_slots db ++ [t]) (next_id db + 1)%N db, inr t).

Definition TimeSlot_get (h : Z) : M TimeSlot :=
  let! rows := query time_slots in
  lift (get (filter (λ t, hour t = h) rows)).

(** [TimeSlot.objects.get_or_create(hour=h)]. *)
Definition TimeSlot_get_or_create (h : Z) : M (TimeSlot * bool) :=
  try_except
    (let! t := TimeSlot_get h in ret (t, false))
    (λ e, match e with
          | DoesNotExist =>
              try_except
                (let! t := TimeSlot_create h in ret (t, true))
                (λ e', match e' with
                       | IntegrityError =>
                           try_except
                             (let! t := TimeSlot_get h in ret (t, false))
                             (λ e'', match e'' with
                                     | DoesNotExist => raise IntegrityError
                                     | _ => raise e''
                                     end)
                       | _ => raise e'
                       end)
          | _ => raise e
          end).

Definition for_each {A} (l : list A) (body : A → M unit) : M unit :=
  foldr (λ x k, body x >> k) (ret tt) l.

(** [TimeSlot.create_default_slots] (models.py, lines 39-42). *)
Definition create_default_slots : M unit :=
  for_each (range 7 16) (λ hour, TimeSlot_get_or_create hour >> ret tt).

(** *** Booking *)

Definition triple (b : Booking) : ObjectId * ObjectId * option date :=
  (court b, time_slot b, on_date b).

(** One keyword of a lookup on [Booking]: [court___id] and
    [time_slot___id] follow the foreign key to the key of the row. *)
Definition field_lookup (k : string) (v : arg) (b : Booking) : bool :=
  if bool_decide (k = "court___id") || bool_decide (k = "court")
  then match v with AOid o => bool_decide (court b = o) | _ => false end
  else if bool_decide (k = "time_slot___id") || bool_decide (k = "time_slot")
  then match v with AOid o => bool_decide (time_slot b = o) | _ => false end
  else if bool_decide (k = "date")
  then match v with ADate d => bool_decide (on_date b = Some d) | _ => false end
  else false.

Definition Booking_matches (kw : kwargs) (b : Booking) : Prop :=
  forallb (λ p, field_lookup p.1 p.2 b) kw = true.

Global Instance Booking_matches_dec kw b : Decision (Booking_matches kw b).
Proof. unfold Booking_matches. apply _. Defined.

(** A [Booking(...)] that has not been saved: no key yet, and the fields
    the constructor was not given are unset. *)
Record NewBooking := mkNew {
  n_court : option ObjectId;
  n_time_slot : option ObjectId;
  n_date : option date;
  n_user : option Z;
  n_status : string }.

Definition setattr_new (i : NewBooking) (p : string * arg) : NewBooking :=
  match p.2 with
  | AOid o =>
      if decide (p.1 = "court")
      then mkNew (Some o) (n_time_slot i) (n_date i) (n_user i) (n_status i)
      else if decide (p.1 = "time_slot")
      then mkNew (n_court i) (Some o) (n_date i) (n_user i) (n_status i)
      else i
  | ADate d =>
      if decide (p.1 = "date")
      then mkNew (n_court i) (n_time_slot i) (Some d) (n_user i) (n_status i)
      else i
  | AUser u =>
      if decide (p.1 = "user")
      then mkNew (n_court i) (n_time_slot i) (n_date i) (Some (user_pk u)) (n_status i)
      else i
  | AStr s =>
      if decide (p.1 = "status")
      then mkNew (n_court i) (n_time_slot i) (n_date i) (n_user i) s
      else i
  end.

(** The constructor [Booking] on keyword arguments; [status] defaults to
    [BookingStatus.BOOKED]. *)
Definition Booking_init (params : kwargs) : NewBooking :=
  foldl setattr_new (mkNew None None None None "booked") params.

Definition setattr_row (b : Booking) (p : string * arg) : Booking :=
  match p.2 with
  | AStr s =>
      if decide (p.1 = "status")
      then mkBooking (booking_id b) (court b) (time_slot b) (on_date b) (user b) s
             (created_at b) (updated_at b)
      else b
  | AUser u =>
      if decide (p.1 = "user")
      then mkBooking (booking_id b) (court b) (time_slot b) (on_date b)
             (Some (user_pk u)) (status b) (created_at b) (updated_at b)
      else b
  | _ => b
  end.

(** The constraint [unique_booking_per_court_time_date]: a write of [r] is
    refused when another row has its (court, time_slot, date). *)
Definition breaks_unique (r : Booking) (rows : list Booking) : Prop :=
  Exists (λ x, triple x = triple r ∧ booking_id x ≠ booking_id r) rows.

Definition touch (now : datetime) (r : Booking) : Booking :=
  mkBooking (booking_id r) (court r) (time_slot r) (on_date r) (user r)
    (status r) (created_at r) now.

(** [Model.save] of an instance that has a key: an UPDATE of the row with
    that key, an INSERT under that key when no row has it; [auto_now]
    refreshes [updated_at]. *)
Definition Model_save (now : datetime) (r : Booking) : M Booking := λ db,
  if decide (breaks_unique r (bookings db)) then (db, inl DatabaseError)
  else if decide (booking_id r ∈ booking_id <$> bookings db)
  then let r' := touch now r in
       (set_bookings
          ((λ x, if decide (booking_id x = booking_id r) then r' else x)
             <$> bookings db) (next_id db) db, inr r')
  else let r' := mkBooking (booking_id r) (court r) (time_slot r) (on_date r)
                   (user r) (status r) now now in
       (set_bookings (bookings db ++ [r']) (next_id db) db, inr r').

(** [Model.save] of an instance without a key, whose court [c] and time
    slot [t] have been read: an INSERT under a fresh key, with the date
    and the user as they are, set or not; [auto_now_add] sets
    [created_at]. *)
Definition Model_insert (now : datetime) (c t : ObjectId) (i : NewBooking)
  : M Booking := λ db,
  let r := mkBooking (next_id db) c t (n_date i) (n_user i) (n_status i) now now in
  if decide (breaks_unique r (bookings db)) then (db, inl DatabaseError)
  else (set_bookings (bookings db ++ [r]) (next_id db + 1)%N db, inr r).

(** A model instance handed to [save]. *)
Inductive instance :=
  | New (i : NewBooking)
  | Loaded (r : Booking).

(** Reading a foreign key that was never set. *)
Definition related {A} (o : option A) : M A :=
  match o with
  | Some x => ret x
  | None => raise RelatedObjectDoesNotExist
  end.

(** [Booking.save] (models.py, lines 95-116). *)
Definition Booking_save (now : datetime) (self : instance) : M Booking :=
  match self with
  | New i =>
      let! c := related (n_court i) in
      let! t := related (n_time_slot i) in
      let! rows := query bookings in
      let existing :=
        first_by (λ x y, (booking_id x <? booking_id y)%N)
          (filter (λ b, court b = c ∧ time_slot b = t ∧ on_date b = n_date i)
             rows) in
      match existing with
      | Some existing =>
          let! u := related (n_user i) in
          let existing :=
            mkBooking (booking_id existing) (court existing)
              (time_slot existing) (on_date existing) (Some u) (n_status i)
              (created_at existing) now in
          Model_save now existing
      | None => Model_insert now c t i
      end
  | Loaded r => Model_save now r
  end.

(** [Booking.objects.filter(...).delete()[0]] on the lookup [kw]. *)
Definition Booking_delete (kw : kwargs) : M nat := λ db,
  (set_bookings (filter (λ b, ¬ Booking_matches kw b) (bookings db))
     (next_id db) db,
   inr (length (filter (Booking_matches kw) (bookings db)))).

(** [Booking.objects.update_or_create] with [defaults] and the lookup
    [kw]: [get_or_create] first (the row the lookup finds, or else a row
    built from [extract_model_params] and saved; a refused insert looks
    once more), then the defaults are set on a row that was found and it
    is saved. *)
Definition Booking_update_or_create (now : datetime) (defaults kw : kwargs)
  : M (Booking * bool) :=
  let find :=
    let! rows := query bookings in
    lift (get (filter (Booking_matches kw) rows)) in
  let! found :=
    try_except
      (let! obj := find in ret (obj, false))
      (λ e, match e with
            | DoesNotExist =>
                let params := extract_model_params defaults kw in
                try_except
                  (let! obj := Booking_save now (New (Booking_init params)) in
                   ret (obj, true))
                  (λ e', match e' with
                         | IntegrityError =>
                             try_except
                               (let! obj := find in ret (obj, false))
                               (λ e'', match e'' with
                                       | DoesNotExist => raise IntegrityError
                                       | _ => raise e''
                                       end)
                         | _ => raise e'
                         end)
            | _ => raise e
            end) in
  if found.2 then ret found
  else
    let! obj := Booking_save now (Loaded (foldl setattr_row found.1 defaults)) in
    ret (obj, false).

(** ** The views of [booking/views.py] *)

(** What a view answers: a payload, an error body with its HTTP status, an
    exception no handler of the view catches, or the refusal of the
    [IsAuthenticated] permission. *)
Inductive error :=
  | InvalidDateFormat
  | NoSportsAvailable
  | MissingRequiredFields
  | InvalidStatus
  | InvalidCourtOrTimeSlot (e : exn)
  | FailedToUpdateBooking (e : exn).

Inductive response (A : Type) :=
  | Ok (a : A)
  | Err (code : Z) (e : error)
  | Unhandled (e : exn)
  | NotAuthenticated.

Arguments Ok {A} a.
Arguments Err {A} code e.
Arguments Unhandled {A} e.
Arguments NotAuthenticated {A}.

(** *** court_status_api *)

Record get_request := mkGet { q_sport : option string; q_date : option string }.

Record slot_entry := mkSlot { s_id : string; s_time : string; s_status : string }.

Record court_info := mkCourtInfo {
  ci_id : string; ci_name : string; ci_slots : gmap string slot_entry }.

Record status_grid := mkGrid {
  g_date : string;
  g_currentTime : string;
  g_sports : list Sport;
  g_selectedSport : string;
  g_timeSlots : list (nat * string);
  g_courts : list court_info }.

(** [Court.objects.filter(sport__id=sport_id)]. *)
Definition courts_of_sport (sport_id : string) (db : DB) : list Court :=
  filter (λ c, c_sport c = sport_id) (courts db).

(** [Booking.objects.filter(court__sport__id=sport_id, date=booking_date)
    .select_related('court', 'time_slot')]: the joins keep the bookings
    whose court row and time-slot row exist. *)
Definition bookings_of_sport (sport_id : string) (booking_date : date) (db : DB)
  : list Booking :=
  filter (λ b, Exists (λ c, c_id c = court b ∧ c_sport c = sport_id)
                 (courts db)
               ∧ on_date b = Some booking_date
               ∧ Exists (λ t, ts_id t = time_slot b) (time_slots db))
    (bookings db).

(** Lines 58-63: one ['available'] entry per time slot, keyed by [str(i)]. *)
Definition init_slots (time_slots : list TimeSlot) : gmap string slot_entry :=
  foldl (λ slots p,
           <[str_nat p.1 := mkSlot (str_nat p.1) (formatted_slot p.2) "available"]>
             slots)
    ∅ (enumerate 1 time_slots).

(** Lines 69-74: the first slot with the key of the booking's time slot. *)
Fixpoint find_slot (tid : ObjectId) (l : list (nat * TimeSlot)) : option nat :=
  match l with
  | [] => None
  | (i, slot) :: r => if decide (ts_id slot = tid) then Some i else find_slot tid r
  end.

Definition mark_booking (time_slots : list TimeSlot)
    (slots : gmap string slot_entry) (booking : Booking) : gmap string slot_entry :=
  match find_slot (time_slot booking) (enumerate 1 time_slots) with
  | Some i =>
      let slot_id := str_nat i in
      match slots !! slot_id with
      | Some e => <[slot_id := mkSlot (s_id e) (s_time e) (status booking)]> slots
      | None => slots
      end
  | None => slots
  end.

(** Lines 50-76: the body of the loop over the courts. *)
Definition build_court_info (time_slots : list TimeSlot) (bookings : list Booking)
    (c : Court) : court_info :=
  let court_bookings := filter (λ b, court b = c_id c) bookings in
  mkCourtInfo (str_oid (c_id c)) (c_name c)
    (foldl (mark_booking time_slots) (init_slots time_slots) court_bookings).

(** Lines 33-35 (and 199-200): seed the default slots when there is none. *)
Definition ensure_time_slots : M unit := λ db,
  if decide (time_slots db = []) then create_default_slots db else ret tt db.

Definition falsy (s : option string) : bool :=
  match s with
  | None => true
  | Some s => bool_decide (s = "")
  end.

(** Lines 25-31: the sport of the request, or else the first one. *)
Definition default_sport (sport_id : option string) (db : DB) : option string :=
  if falsy sport_id
  then sp_id <$> first_by (λ x y, String.ltb (sp_id x) (sp_id y)) (sports db)
  else sport_id.

Definition court_status_api (now : datetime) (request : get_request)
  : DB → DB * response status_grid := λ db,
  let sport_id := q_sport request in
  let date_str := default (isoformat (dt_date now)) (q_date request) in
  match fromisoformat date_str with
  | None => (db, Err 400 InvalidDateFormat)
  | Some booking_date =>
      match default_sport sport_id db with
      | None => (db, Err 404 NoSportsAvailable)
      | Some sport_id =>
          match ensure_time_slots db with
          | (db, inl e) => (db, Unhandled e)
          | (db, inr _) =>
              let time_slots := order_by_hour (time_slots db) in
              let courts := courts_of_sport sport_id db in
              let bookings := bookings_of_sport sport_id booking_date db in
              (db, Ok (mkGrid date_str (strftime_IMp now) (sports db) sport_id
                         ((λ p, (p.1, formatted_slot p.2)) <$> enumerate 1 time_slots)
                         (build_court_info time_slots bookings <$> courts)))
          end
      end
  end.

(** *** time_slots_api *)

Record slot_view := mkSlotView { v_id : string; v_hour : Z; v_formatted : string }.

Definition time_slots_api : DB → DB * response (list slot_view) := λ db,
  match ensure_time_slots db with
  | (db, inl e) => (db, Unhandled e)
  | (db, inr _) =>
      (db, Ok ((λ t, mkSlotView (str_oid (ts_id t)) (hour t) (formatted_slot t))
                 <$> order_by_hour (time_slots db)))
  end.

(** *** update_booking_api *)

Record post_request := mkPost {
  p_user : option User;
  p_courtId : jvalue;
  p_timeSlotId : jvalue;
  p_status : jvalue;
  p_date : option jvalue }.

Record booking_summary := mkSummary {
  r_id : option string;
  r_court : string;
  r_time_slot : string;
  r_date : string;
  r_status : string;
  r_user : string;
  r_action : string }.

(** Lines 124-130, the body of the first [try]. *)
Definition resolve (court_id time_slot_id : jvalue) : M (TimeSlot * ObjectId * Court) :=
  let! frontend_slot_id := lift (int time_slot_id) in
  let! time_slots := query (λ db, order_by_hour (time_slots db)) in
  let! time_slot := lift (index time_slots (frontend_slot_id - 1)) in
  let! court_object_id := lift (ObjectId_of court_id) in
  let! rows := query courts in
  let! court := lift (get (filter (λ c, c_id c = court_object_id) rows)) in
  ret (time_slot, court_object_id, court).

Definition triple_lookup (c t : ObjectId) (d : date) : kwargs :=
  [("court___id", AOid c); ("time_slot___id", AOid t); ("date", ADate d)].

(** Lines 135-171, the body of the second [try]. *)
Definition reconcile (now : datetime) (u : User) (new_status : string)
    (booking_date : date) (time_slot : TimeSlot) (court_object_id : ObjectId)
    (court : Court) : M booking_summary :=
  if decide (new_status = "available")
  then
    let! deleted_count :=
      Booking_delete (triple_lookup court_object_id (ts_id time_slot) booking_date) in
    ret (mkSummary None (c_name court) (formatted_slot time_slot)
           (isoformat booking_date) new_status (username u)
           (if (0 <? deleted_count)%nat then "deleted" else "no_change"))
  else
    let! res :=
      Booking_update_or_create now
        [("status", AStr new_status); ("user", AUser u)]
        (triple_lookup court_object_id (ts_id time_slot) booking_date) in
    ret (mkSummary (Some (str_oid (booking_id res.1))) (c_name court)
           (formatted_slot time_slot) (isoformat booking_date) new_status
           (username u) (if res.2 then "created" else "updated")).

Definition update_booking_api (now : datetime) (request : post_request)
  : DB → DB * response booking_summary := λ db,
  match p_user request with
  | None => (db, NotAuthenticated)
  | Some u =>
      let court_id := p_courtId request in
      let time_slot_id := p_timeSlotId request in
      let new_status := p_status request in
      let date_str := default (JStr (isoformat (dt_date now))) (p_date request) in
      if negb (truthy court_id && truthy time_slot_id && truthy new_status)
      then (db, Err 400 MissingRequiredFields)
      else
        match new_status with
        | JStr new_status =>
            if decide (new_status ∈ valid_statuses)
            then
              match date_str with
              | JStr date_str =>
                  match fromisoformat date_str with
                  | None => (db, Err 400 InvalidDateFormat)
                  | Some booking_date =>
                      match resolve court_id time_slot_id db with
                      | (db, inl e) => (db, Err 400 (InvalidCourtOrTimeSlot e))
                      | (db, inr (time_slot, court_object_id, court)) =>
                          match reconcile now u new_status booking_date time_slot
                                  court_object_id court db with
                          | (db, inl e) => (db, Err 500 (FailedToUpdateBooking e))
                          | (db, inr summary) => (db, Ok summary)
                          end
                      end
                  end
              | _ => (db, Unhandled TypeError)
              end
            else (db, Err 400 InvalidStatus)
        | _ => (db, Err 400 InvalidStatus)
        end
  end.

(** *** sports_list_api, debug_data_api *)

Definition sports_list_api : DB → DB * response (list Sport) := λ db,
  (db, Ok (sports db)).

Record debug_data := mkDebug {
  sports_count : nat;
  courts_count : nat;
  time_slots_count : nat;
  bookings_count : nat;
  dumped_slots : list slot_view }.

Definition debug_data_api : DB → DB * response debug_data := λ db,
  (db, Ok (mkDebug (length (sports db)) (length (courts db))
             (length (time_slots db)) (length (bookings db))
             ((λ t, mkSlotView (str_oid (ts_id t)) (hour t) (formatted_slot t))
                <$> order_by_hour (time_slots db)))).

(** *** create_sample_data *)

(** [get_or_create] on a lookup [find] and an insert [create]. *)
Definition get_or_create {A} (find create : M A) : M (A * bool) :=
  try_except
    (let! x := find in ret (x, false))
    (λ e, match e with
          | DoesNotExist =>
              try_except
                (let! x := create in ret (x, true))
                (λ e', match e' with
                       | IntegrityError =>
                           try_except
                             (let! x := find in ret (x, false))
                             (λ e'', match e'' with
                                     | DoesNotExist => raise IntegrityError
                                     | _ => raise e''
                                     end)
                       | _ => raise e'
                       end)
          | _ => raise e
          end).

Definition set_sports (l : list Sport) (db : DB) : DB :=
  mkDB l (time_slots db) (courts db) (bookings db) (next_id db).

Definition set_courts (l : list Court) (n : ObjectId) (db : DB) : DB :=
  mkDB (sports db) (time_slots db) l (bookings db) n.

(** [Sport.objects.get(id=...)]. *)
Definition Sport_get (id : string) : M Sport :=
  let! rows := query sports in
  lift (get (filter (λ s, sp_id s = id) rows)).

(** An insert into [sports]; [id] is the primary key. *)
Definition Sport_create (id name : string) : M Sport := λ db,
  if decide (id ∈ sp_id <$> sports db)
  then (db, inl DatabaseError)
  else (set_sports (sports db ++ [mkSport id name]) db, inr (mkSport id name)).

(** [Court.objects.get(sport=sport, name=name)]. *)
Definition Court_get (sport : Sport) (name : string) : M Court :=
  let! rows := query courts in
  lift (get (filter (λ c, c_sport c = sp_id sport ∧ c_name c = name) rows)).

(** An insert into [courts], under a fresh key. *)
Definition Court_create (sport : Sport) (name : string) : M Court := λ db,
  let c := mkCourt (next_id db) (sp_id sport) name in
  (set_courts (courts db ++ [c]) (next_id db + 1)%N db, inr c).

(** Lines 225-232. *)
Definition sports_data : list (string * string) :=
  [("badminton", "Badminton"); ("volleyball", "Volleyball");
   ("basketball", "Basketball"); ("squash", "Squash");
   ("table-tennis", "Table Tennis"); ("cricket", "Cricket")].

(** Line 250: the name of the [i]-th court of a sport. *)
Definition court_label (sport : Sport) (i : Z) : string :=
  if decide (sp_name sport ≠ "Cricket")
  then sp_name sport +:+ " Court " +:+ str_Z i
  else "Pitch-" +:+ str_Z i.

(** Lines 234-253. *)
Definition sample_data : M unit :=
  for_each sports_data
    (λ sport_data,
       get_or_create (Sport_get sport_data.1)
         (Sport_create sport_data.1 sport_data.2) >> ret tt) >>
  create_default_slots >>
  for_each sports_data
    (λ sport_data,
       try_except
         (let! sport := Sport_get sport_data.1 in
          for_each (range 1 4)
            (λ i, get_or_create (Court_get sport (court_label sport i))
                    (Court_create sport (court_label sport i)) >> ret tt))
         (λ e, match e with
               | DoesNotExist => ret tt
               | _ => raise e
               end)).

Definition create_sample_data (user : option User) : DB → DB * response unit := λ db,
  match user with
  | None => (db, NotAuthenticated)
  | Some _ =>
      match sample_data db with
      | (db, inl e) => (db, Unhandled e)
      | (db, inr _) => (db, Ok tt)
      end
  end.

(** ** The admin of [booking/admin.py] *)

(** [queryset.update(status=...)] on the bookings with the keys [selected]:
    one UPDATE of the column, no [save], so [updated_at] stays. *)
Definition Booking_queryset_update (selected : list ObjectId) (st : string) : M nat :=
  λ db,
  (set_bookings
     ((λ b, if decide (booking_id b ∈ selected)
            then mkBooking (booking_id b) (court b) (time_slot b) (on_date b) (user b)
                   st (created_at b) (updated_at b)
            else b) <$> bookings db) (next_id db) db,
   inr (length (filter (λ b, booking_id b ∈ selected) (bookings db)))).

(** Lines 190-200: the count that [update] returns is dropped, the
    actions return [None]. *)
Definition mark_as_available (queryset : list ObjectId) : M unit :=
  Booking_queryset_update queryset "available" >> ret tt.

Definition mark_as_booked (queryset : list ObjectId) : M unit :=
  Booking_queryset_update queryset "booked" >> ret tt.

Definition mark_as_maintenance (queryset : list ObjectId) : M unit :=
  Booking_queryset_update queryset "maintenance" >> ret tt.

(** [has_delete_permission] of the three admins (lines 89-93, 110-114,
    128-132); [super] is what the permissions of the user give. *)
Definition SportAdmin_has_delete_permission (super : bool) (obj : option Sport)
    (db : DB) : bool :=
  match obj with
  | Some s =>
      if decide (filter (λ c, c_sport c = sp_id s) (courts db) = []) then super
      else false
  | None => super
  end.

Definition TimeSlotAdmin_has_delete_permission (super : bool) (obj : option TimeSlot)
    (db : DB) : bool :=
  match obj with
  | Some t =>
      if decide (filter (λ b, time_slot b = ts_id t) (bookings db) = []) then super
      else false
  | None => super
  end.

Definition CourtAdmin_has_delete_permission (super : bool) (obj : option Court)
    (db : DB) : bool :=
  match obj with
  | Some c =>
      if decide (filter (λ b, court b = c_id c) (bookings db) = []) then super
      else false
  | None => super
  end.

(** [delete()] of a row: the foreign keys are [on_delete=CASCADE]
    (models.py, lines 46, 67, 68), so the rows that refer to it go too. *)
Definition Sport_delete (s : Sport) : DB → DB := λ db,
  let gone := c_id <$> filter (λ c, c_sport c = sp_id s) (courts db) in
  mkDB (filter (λ x, sp_id x ≠ sp_id s) (sports db)) (time_slots db)
    (filter (λ c, c_sport c ≠ sp_id s) (courts db))
    (filter (λ b, court b ∉ gone) (bookings db)) (next_id db).

Definition Court_delete (c : Court) : DB → DB := λ db,
  mkDB (sports db) (time_slots db) (filter (λ x, c_id x ≠ c_id c) (courts db))
    (filter (λ b, court b ≠ c_id c) (bookings db)) (next_id db).

Definition TimeSlot_delete (t : TimeSlot) : DB → DB := λ db,
  mkDB (sports db) (filter (λ x, ts_id x ≠ ts_id t) (time_slots db)) (courts db)
    (filter (λ b, time_slot b ≠ ts_id t) (bookings db)) (next_id db).

(** [BookingAdmin.save_model] (lines 175-182): the exception of a save
    becomes a message. *)
Definition BookingAdmin_save_model (now : datetime) (obj : instance)
  : DB → DB * option exn := λ db,
  match Booking_save now obj db with
  | (db, inl e) => (db, Some e)
  | (db, inr _) => (db, None)
  end.

(** ** Vocabulary of the properties *)

(** The hour [h] of a 24-hour day on the 12-hour clock, as the data model
    words it: midnight and noon read 12, the other hours count from 1. *)
Definition twelve_hour (h : Z) : Z :=
  if decide (h = 0 ∨ h = 12)%Z then 12%Z
  else if decide (h < 12)%Z then h else (h - 12)%Z.

Definition meridiem (h : Z) : string :=
  if decide (h < 12)%Z then "AM" else "PM".

(** The entry line 59 writes for slot [t] at index [i], and the step of
    that loop. *)
Definition fresh_entry (i : nat) (t : TimeSlot) : slot_entry :=
  mkSlot (str_nat i) (formatted_slot t) "available".

Definition add_entry (m : gmap string slot_entry) (p : nat * TimeSlot)
  : gmap string slot_entry :=
  <[str_nat p.1 := fresh_entry p.1 p.2]> m.

(** The key a booking writes to, if any: the [str(i)] of the first slot
    that has the key of its time slot. *)
Definition hit (slots : list TimeSlot) (b : Booking) : option string :=
  str_nat <$> find_slot (time_slot b) (enumerate 1 slots).

Definition restamp (b : Booking) (e : slot_entry) : slot_entry :=
  mkSlot (s_id e) (s_time e) (status b).

(** Rows with the hours [hs] under consecutive fresh keys. *)
Fixpoint new_rows (n : ObjectId) (hs : list Z) : list TimeSlot :=
  match hs with
  | [] => []
  | h :: r => mkTimeSlot n h :: new_rows (n + 1)%N r
  end.

Definition missing (hs present : list Z) : list Z :=
  filter (λ h, h ∉ present) hs.

(** The row [update_or_create] writes over [b]. *)
Definition updated_row (now : datetime) (u : User) (st : string) (b : Booking)
  : Booking :=
  mkBooking (booking_id b) (court b) (time_slot b) (on_date b)
    (Some (user_pk u)) st (created_at b) now.

(** From a store in [P], [m] ends in [Q] with its value or in [E] with
    its exception. *)
Definition hoare {A} (P : DB → Prop) (m : M A) (Q : A → DB → Prop)
    (E : exn → DB → Prop) : Prop :=
  ∀ db, P db → match m db with
               | (db', inr a) => Q a db'
               | (db', inl e) => E e db'
               end.

(** *** The booking store and its invariant *)

(** A well-formed booking collection: distinct keys, all of them handed
    out by the store, and at most one row per (court, time_slot, date). *)
Record store_ok (db : DB) : Prop := mkStoreOk {
  ok_keys : NoDup (booking_id <$> bookings db);
  ok_issued : ∀ b, b ∈ bookings db → (booking_id b < next_id db)%N;
  ok_unique : NoDup (triple <$> bookings db) }.

(** The key of an instance with a key was handed out by the store. *)
Definition issued (self : instance) (db : DB) : Prop :=
  match self with
  | New _ => True
  | Loaded r => (booking_id r < next_id db)%N
  end.

(** The states the operations lead to, from a store without bookings. *)
Inductive reachable : DB → Prop :=
  | reach_init db : bookings db = [] → reachable db
  | reach_status now request db :
      reachable db → reachable (court_status_api now request db).1
  | reach_slots db :
      reachable db → reachable (time_slots_api db).1
  | reach_update now request db :
      reachable db → reachable (update_booking_api now request db).1
  | reach_save now self db :
      reachable db → issued self db → reachable (Booking_save now self db).1.

(** *** Further vocabulary *)

(** Decimal digits only. *)
Fixpoint all_digits (s : string) : bool :=
  match s with
  | EmptyString => true
  | String c r => match digit_of c with Some _ => all_digits r | None => false end
  end.

(** The order of [order_by('hour')]. *)
Definition by_hour (x y : TimeSlot) : Prop := (hour x ≤ hour y)%Z.

(** [sorted] is the [table] of time slots in hour order: the same rows,
    with the hours ascending along the positions. *)
Definition hour_order (table sorted : list TimeSlot) : Prop :=
  sorted ≡ₚ table
  ∧ ∀ k k' x y, sorted !! k = Some x → sorted !! k' = Some y → k < k' →
                (hour x ≤ hour y)%Z.

(** The zero-padded print of [y] on [w] digits reads back as [y]. *)
Definition zfill_parses (w : nat) (y : Z) : bool :=
  bool_decide (fixed_digits w 0 (zfill w y) = Some (y, "")).

(** What an admin action that sets the status [st] does to a well-formed
    store: it returns nothing, leaves the other tables and the key
    counter, keeps the rows in their places, and changes of a row the
    status alone, when the row is selected. *)
Definition sets_status (action : list ObjectId → M unit) (st : string) : Prop :=
  ∀ sel db,
    store_ok db →
    ∃ db',
      action sel db = (db', inr tt)
      ∧ store_ok db'
      ∧ sports db' = sports db ∧ time_slots db' = time_slots db
      ∧ courts db' = courts db ∧ next_id db' = next_id db
      ∧ length (bookings db') = length (bookings db)
      ∧ ∀ i b, bookings db !! i = Some b →
               ∃ b', bookings db' !! i = Some b'
                     ∧ booking_id b' = booking_id b
                     ∧ court b' = court b ∧ time_slot b' = time_slot b
                     ∧ on_date b' = on_date b ∧ user b' = user b
                     ∧ created_at b' = created_at b ∧ updated_at b' = updated_at b
                     ∧ status b' = (if decide (booking_id b ∈ sel) then st
                                    else status b).

(** Every foreign key of the store names a row that is there. *)
Definition refs_ok (db : DB) : Prop :=
  (∀ c, c ∈ courts db → c_sport c ∈ sp_id <$> sports db)
  ∧ (∀ b, b ∈ bookings db →
          court b ∈ c_id <$> courts db ∧ time_slot b ∈ ts_id <$> time_slots db).

(** The unique keys the schema declares: the primary key of a sport and
    the hour of a time slot. *)
Definition keys_ok (db : DB) : Prop :=
  NoDup (sp_id <$> sports db) ∧ NoDup (hour <$> time_slots db).

(** The pair [get_or_create] looks a court up by; the schema does not
    make it unique. *)
Definition court_pair (c : Court) : string * string := (c_sport c, c_name c).

Definition courts_ok (db : DB) : Prop := NoDup (court_pair <$> courts db).

(** Nothing is removed or changed: each table keeps its rows in front of
    the new ones, and the bookings are the same. *)
Definition grows (db db' : DB) : Prop :=
  bookings db' = bookings db
  ∧ sports db `prefix_of` sports db'
  ∧ time_slots db `prefix_of` time_slots db'
  ∧ courts db `prefix_of` courts db'
  ∧ (next_id db ≤ next_id db')%N.

(** Only courts are added. *)
Definition adds_courts (db db' : DB) : Prop :=
  sports db' = sports db ∧ time_slots db' = time_slots db
  ∧ bookings db' = bookings db
  ∧ courts db `prefix_of` courts db'
  ∧ (next_id db ≤ next_id db')%N
  ∧ (courts_ok db → courts_ok db').

(** The sample sport [sport_data] is there with its four courts. *)
Definition has_courts (sport_data : string * string) (db : DB) : Prop :=
  ∃ s, s ∈ sports db ∧ sp_id s = sport_data.1
       ∧ ∀ i, i ∈ range 1 4 → (sp_id s, court_label s i) ∈ court_pair <$> courts db.

(** The store holds all of the sample data. *)
Definition sample_complete (db : DB) : Prop :=
  (∀ sport_data, sport_data ∈ sports_data → has_courts sport_data db)
  ∧ (∀ h, h ∈ range 7 16 → h ∈ hour <$> time_slots db).

(** *** A store to run the views on *)

Module Demo.

Definition now : datetime := DateTime (Date 2024 1 1) 15 5 0.

Definition alice : User := mkUser 5 "alice".

(** Two badminton courts, nothing else. *)
Definition empty_db : DB :=
  mkDB [mkSport "badminton" "Badminton"] []
    [mkCourt 17 "badminton" "Court 1"; mkCourt 18 "badminton" "Court 2"] [] 100.

(** The same after the first read: the sixteen slots under the keys
    100..115. *)
Definition seeded_db : DB :=
  mkDB [mkSport "badminton" "Badminton"] (new_rows 100 (range 7 16))
    [mkCourt 17 "badminton" "Court 1"; mkCourt 18 "badminton" "Court 2"] [] 116.

Definition booking (key court slot : ObjectId) (st : string) : Booking :=
  mkBooking key court slot (Some (Date 2024 1 1)) (Some 5%Z) st now now.

(** Court 1 is booked at 7:00 AM and reserved at 10:00 PM. *)
Definition booked_db : DB :=
  set_bookings [booking 116 17 100 "booked"; booking 117 17 115 "reserved"] 118
    seeded_db.

Definition court1 : string := "000000000000000000000011".

Definition get_2024_01_01 : get_request := mkGet (Some "badminton") (Some "2024-01-01").

Definition post (slot : jvalue) (st : string) : post_request :=
  mkPost (Some alice) (JStr court1) slot (JStr st) (Some (JStr "2024-01-01")).

(** A store whose time slots are not stored in hour order: 10 PM, 7 AM,
    3 PM; court 1 is reserved at 10 PM. *)
Definition shuffled_db : DB :=
  mkDB [mkSport "badminton" "Badminton"]
    [mkTimeSlot 1 22; mkTimeSlot 2 7; mkTimeSlot 3 15]
    [mkCourt 17 "badminton" "Court 1"; mkCourt 18 "badminton" "Court 2"]
    [booking 4 17 1 "reserved"] 5.

Definition shuffled_grid : status_grid :=
  mkGrid "2024-01-01" (strftime_IMp now) (sports shuffled_db) "badminton"
    ((λ p, (p.1, formatted_slot p.2))
       <$> enumerate 1 (order_by_hour (time_slots shuffled_db)))
    (build_court_info (order_by_hour (time_slots shuffled_db))
       (bookings_of_sport "badminton" (Date 2024 1 1) shuffled_db)
     <$> courts_of_sport "badminton" shuffled_db).

(** What [court_status_api] answers on it for badminton on that day. *)
Definition grid : status_grid :=
  mkGrid "2024-01-01" (strftime_IMp now) (sports booked_db) "badminton"
    ((λ p, (p.1, formatted_slot p.2))
       <$> enumerate 1 (order_by_hour (time_slots booked_db)))
    (build_court_info (order_by_hour (time_slots booked_db))
       (bookings_of_sport "badminton" (Date 2024 1 1) booked_db)
     <$> courts_of_sport "badminton" booked_db).

End Demo.

(** ** Time slots on the 12-hour clock *)

(** C6: for an hour in 0..23, [formatted_slot] is the hour on the 12-hour
    clock (0 and 12 read 12), then ":00", then "AM" exactly when the hour
    is below 12 and "PM" otherwise; hour 7 reads "7:00 AM" and hour 22
    reads "10:00 PM". *)
Theorem formatted_slot_twelve_hour (t : TimeSlot) :
  (0 ≤ hour t ≤ 23)%Z →
  formatted_slot t = str_Z (twelve_hour (hour t)) +:+ ":00 " +:+ meridiem (hour t)
  ∧ (hour t = 0 ∨ hour t = 12 → twelve_hour (hour t) = 12)%Z
  ∧ (meridiem (hour t) = "AM" ↔ (hour t < 12)%Z)
  ∧ (meridiem (hour t) = "PM" ↔ (12 ≤ hour t)%Z)
  ∧ (hour t = 7%Z → formatted_slot t = "7:00 AM")
  ∧ (hour t = 22%Z → formatted_slot t = "10:00 PM").
Proof.
  destruct t as [i h]; simpl; intros Hh.
  repeat split.
  - unfold formatted_slot, twelve_hour, meridiem; simpl.
    destruct (decide (h < 12)%Z) as [Hlt|Hge].
    + rewrite (proj2 (Z.ltb_lt _ _) Hlt), Z.mod_small by lia.
      destruct (decide (h = 0 ∨ h = 12)%Z) as [[->| ->]|Hn]; [done|lia|].
      rewrite (proj2 (Z.eqb_neq h 0)) by lia. done.
    + rewrite (proj2 (Z.ltb_ge _ _)) by lia.
      assert (h mod 12 = h - 12)%Z as ->.
      { symmetry. apply (Z.mod_unique_pos h 12 1). lia. lia. }
      destruct (decide (h = 0 ∨ h = 12)%Z) as [[->| ->]|Hn]; [lia|done|].
      rewrite (proj2 (Z.eqb_neq (h - 12) 0)) by lia. done.
  - unfold twelve_hour. intros Hc. by rewrite decide_True.
  - unfold meridiem. by destruct (decide (h < 12)%Z).
  - unfold meridiem. intros. by rewrite decide_True.
  - unfold meridiem. destruct (decide (h < 12)%Z); [done|lia].
  - unfold meridiem. intros. rewrite decide_False by lia. done.
  - intros ->. reflexivity.
  - intros ->. reflexivity.
Qed.

Lemma formatted_slot_twelve_hour_witness :
  formatted_slot (mkTimeSlot 100 22) = str_Z (twelve_hour 22) +:+ ":00 " +:+ meridiem 22
  ∧ formatted_slot (mkTimeSlot 100 22) = "10:00 PM".
Proof.
  pose proof (formatted_slot_twelve_hour (mkTimeSlot 100 22)) as H.
  simpl in H. destruct H as (H1 & _ & _ & _ & _ & H6); [lia|].
  split; [exact H1|apply H6; reflexivity].
Defined.

(** ** The slot map of a court *)

Section SlotMap.

Implicit Types (l slots : list TimeSlot) (m : gmap string slot_entry)
  (b : Booking) (bs : list Booking) (k : string) (e : slot_entry).

Global Instance str_nat_Inj : Inj (=) (=) str_nat.
Proof. unfold str_nat. apply _. Qed.

Lemma str_nat_inj i j : str_nat i = str_nat j → i = j.
Proof. apply (inj str_nat). Qed.

Lemma enumerate_lookup {A} (l : list A) s i :
  enumerate s l !! i = (λ x, (s + i, x)) <$> l !! i.
Proof.
  revert s i. induction l as [|x r IH]; intros s [|i]; simpl; try done.
  - by rewrite Nat.add_0_r.
  - rewrite IH. by rewrite Nat.add_succ_r.
Qed.

Lemma enumerate_length {A} (l : list A) s : length (enumerate s l) = length l.
Proof. revert s. induction l; intros; simpl; auto. Qed.

Lemma init_slots_unfold l : init_slots l = foldl add_entry ∅ (enumerate 1 l).
Proof. reflexivity. Qed.

Lemma add_entries_other l s m k :
  (∀ i, i < length l → k ≠ str_nat (s + i)) →
  foldl add_entry m (enumerate s l) !! k = m !! k.
Proof.
  revert s m. induction l as [|x r IH]; intros s m Hk; simpl; [done|].
  rewrite IH.
  - unfold add_entry; simpl. rewrite lookup_insert_ne; [done|].
    intros Heq. apply (Hk 0); simpl; [lia|]. by rewrite Nat.add_0_r.
  - intros i Hi. rewrite Nat.add_succ_l, <- Nat.add_succ_r. apply Hk. simpl; lia.
Qed.

Lemma add_entries_at l s m i t :
  l !! i = Some t →
  foldl add_entry m (enumerate s l) !! str_nat (s + i) = Some (fresh_entry (s + i) t).
Proof.
  revert s m i. induction l as [|x r IH]; intros s m [|i] Hi; simpl in *; try done.
  - injection Hi as ->. rewrite add_entries_other.
    + unfold add_entry; simpl. rewrite Nat.add_0_r. by rewrite lookup_insert_eq.
    + intros j _ Heq. apply str_nat_inj in Heq. lia.
  - rewrite <- Nat.add_succ_comm. by apply IH.
Qed.

Lemma init_slots_at slots i t :
  slots !! i = Some t → init_slots slots !! str_nat (S i) = Some (fresh_entry (S i) t).
Proof. intros. rewrite init_slots_unfold. by apply (add_entries_at slots 1). Qed.

Lemma init_slots_inv slots k e :
  init_slots slots !! k = Some e → ∃ i, i < length slots ∧ k = str_nat (S i).
Proof.
  intros Hk.
  destruct (decide (Exists (λ i, k = str_nat (S i)) (seq 0 (length slots))))
    as [Hex|Hno].
  - apply Exists_exists in Hex as (i & Hi & ->). apply elem_of_seq in Hi.
    exists i. split; [lia|done].
  - rewrite init_slots_unfold, add_entries_other in Hk; [done|].
    intros i Hi ->. apply Hno, Exists_exists. exists i.
    split; [apply elem_of_seq; lia|done].
Qed.

Lemma mark_booking_lookup slots m b k :
  mark_booking slots m b !! k
  = (λ e, if decide (hit slots b = Some k) then restamp b e else e) <$> m !! k.
Proof.
  unfold mark_booking, hit.
  destruct (find_slot _ _) as [i|]; cbn [fmap option_fmap option_map].
  - destruct (decide (str_nat i = k)) as [<-|Hne].
    + destruct (m !! str_nat i) as [e0|] eqn:Hi.
      * rewrite lookup_insert_eq. cbn. by rewrite decide_True.
      * by rewrite Hi.
    + assert (m !! k = (λ e, if decide (Some (str_nat i) = Some k)
                             then restamp b e else e) <$> m !! k) as Hid.
      { destruct (m !! k); cbn; [|done]. rewrite decide_False; [done|congruence]. }
      destruct (m !! str_nat i); [|done].
      by rewrite lookup_insert_ne.
  - destruct (m !! k); cbn; [|done]. by rewrite decide_False.
Qed.

Lemma marks_None slots bs m k :
  m !! k = None → foldl (mark_booking slots) m bs !! k = None.
Proof.
  revert m. induction bs as [|b bs IH]; intros m Hk; simpl; [done|].
  apply IH. by rewrite mark_booking_lookup, Hk.
Qed.

(** What the bookings leave of an entry: its [id] and [time], and either
    its status, when no booking writes to the key, or the status of a
    booking that does. *)
Lemma marks_Some slots bs m k e :
  m !! k = Some e →
  ∃ e', foldl (mark_booking slots) m bs !! k = Some e'
        ∧ s_id e' = s_id e ∧ s_time e' = s_time e
        ∧ ((s_status e' = s_status e ∧ ∀ b, b ∈ bs → hit slots b ≠ Some k)
           ∨ (∃ b, b ∈ bs ∧ hit slots b = Some k ∧ s_status e' = status b)).
Proof.
  revert m e. induction bs as [|b bs IH]; intros m e Hk; simpl.
  - exists e. repeat split; try done. left. split; [done|]. intros b Hb.
    by apply elem_of_nil in Hb.
  - pose proof (mark_booking_lookup slots m b k) as Hm. rewrite Hk in Hm; simpl in Hm.
    destruct (IH _ _ Hm) as (e' & He' & Hid & Htime & Hst).
    exists e'. split; [done|].
    destruct (decide (hit slots b = Some k)) as [Hhit|Hmiss]; simpl in *.
    + repeat split; try done.
      right. destruct Hst as [[Hs _]|(b' & Hb' & Hh & Hs)].
      * exists b. split; [left|done].
      * exists b'. split; [by right|done].
    + repeat split; try done.
      destruct Hst as [[Hs Hall]|(b' & Hb' & Hh & Hs)].
      * left. split; [done|]. intros b' Hb'.
        apply elem_of_cons in Hb' as [->|Hb']; [done|by apply Hall].
      * right. exists b'. split; [by right|done].
Qed.

Lemma marks_dom slots bs m :
  dom (foldl (mark_booking slots) m bs) = dom m.
Proof.
  apply set_eq. intros k. rewrite !elem_of_dom.
  destruct (m !! k) as [e|] eqn:Hk.
  - destruct (marks_Some slots bs m k e Hk) as (e' & -> & _). split; by eauto.
  - rewrite marks_None by done. done.
Qed.

Lemma add_entries_dom l s m :
  dom (foldl add_entry m (enumerate s l))
  = dom m ∪ list_to_set (str_nat <$> seq s (length l)).
Proof.
  revert s m. induction l as [|x r IH]; intros s m; simpl.
  - set_solver.
  - rewrite IH. unfold add_entry; simpl. rewrite dom_insert_L. set_solver.
Qed.

Lemma init_slots_size slots : size (init_slots slots) = length slots.
Proof.
  rewrite <- size_dom, init_slots_unfold, add_entries_dom, dom_empty_L.
  rewrite (left_id_L ∅ (∪)), size_list_to_set.
  - by rewrite length_fmap, length_seq.
  - apply (NoDup_fmap_2 str_nat), NoDup_seq.
Qed.

(** [find_slot] gives the first position that carries the key. *)
Lemma find_slot_Some tid l s n :
  find_slot tid (enumerate s l) = Some n →
  ∃ i t, n = s + i ∧ l !! i = Some t ∧ ts_id t = tid.
Proof.
  revert s. induction l as [|x r IH]; intros s; simpl; [done|].
  destruct (decide (ts_id x = tid)) as [Hx|Hx].
  - intros [= <-]. exists 0, x. by rewrite Nat.add_0_r.
  - intros (i & t & -> & Hi & Ht)%IH. exists (S i), t.
    split; [lia|done].
Qed.

Lemma find_slot_NoDup tid l s i t :
  NoDup (ts_id <$> l) → l !! i = Some t → ts_id t = tid →
  find_slot tid (enumerate s l) = Some (s + i).
Proof.
  revert s i. induction l as [|x r IH]; intros s [|i] Hnd Hi Ht; simpl in *; try done.
  - injection Hi as ->. rewrite decide_True by done. by rewrite Nat.add_0_r.
  - apply NoDup_cons in Hnd as [Hx Hnd].
    rewrite decide_False.
    + rewrite <- Nat.add_succ_comm. by apply IH.
    + intros Heq. apply Hx. rewrite Heq, <- Ht.
      apply list_elem_of_fmap. exists t. split; [done|].
      by eapply list_elem_of_lookup_2.
Qed.

End SlotMap.

(** ** Generic list facts used below *)

Section ListFacts.

Context {A B : Type} `{EqDecision B}.

Lemma NoDup_fmap_eq (f : A → B) (l : list A) x y :
  NoDup (f <$> l) → x ∈ l → y ∈ l → f x = f y → x = y.
Proof.
  induction l as [|a l IH]; simpl; intros Hnd Hx Hy Hf.
  - by apply elem_of_nil in Hx.
  - apply NoDup_cons in Hnd as [Ha Hnd].
    apply elem_of_cons in Hx as [->|Hx]; apply elem_of_cons in Hy as [->|Hy].
    + done.
    + exfalso. apply Ha. rewrite Hf. apply list_elem_of_fmap. by exists y.
    + exfalso. apply Ha. rewrite <- Hf. apply list_elem_of_fmap. by exists x.
    + by apply IH.
Qed.

Lemma filter_key_absent (f : A → B) (l : list A) k :
  k ∉ f <$> l → filter (λ y, f y = k) l = [].
Proof.
  induction l as [|a l IH]; simpl; intros Hk; [done|].
  rewrite filter_cons. apply not_elem_of_cons in Hk as [Hne Hk].
  rewrite decide_False by done. by apply IH.
Qed.

Lemma filter_key_present (f : A → B) (l : list A) k :
  NoDup (f <$> l) → k ∈ f <$> l → ∃ x, x ∈ l ∧ f x = k ∧ filter (λ y, f y = k) l = [x].
Proof.
  induction l as [|a l IH]; simpl; intros Hnd Hk.
  - by apply elem_of_nil in Hk.
  - apply NoDup_cons in Hnd as [Ha Hnd]. rewrite filter_cons.
    destruct (decide (f a = k)) as [Hak|Hak].
    + exists a. split; [left|]. split; [done|].
      rewrite filter_key_absent; [done|]. by rewrite <- Hak.
    + apply elem_of_cons in Hk as [->|Hk]; [done|].
      destruct (IH Hnd Hk) as (x & Hx & Hfx & Hfil).
      exists x. split; [by right|done].
Qed.

Lemma first_by_elem (lt : A → A → bool) (l : list A) x :
  first_by lt l = Some x → x ∈ l.
Proof.
  unfold first_by.
  assert (∀ acc, foldl (λ acc x, match acc with
                                 | Some m => if lt x m then Some x else Some m
                                 | None => Some x
                                 end) acc l = Some x →
                 acc = Some x ∨ x ∈ l) as Hgen.
  { induction l as [|a l IH]; simpl; intros acc Hacc; [by left|].
    destruct (IH _ Hacc) as [Hs|Hin]; [|right; by right].
    destruct acc as [m|].
    - destruct (lt a m); injection Hs as ->; [right; left|by left].
    - injection Hs as ->. right; left. }
  intros H. by destruct (Hgen None H).
Qed.

Lemma first_by_None (lt : A → A → bool) (l : list A) :
  first_by lt l = None → l = [].
Proof.
  unfold first_by. destruct l as [|a l]; [done|]. simpl.
  intros H. exfalso. revert H. generalize a. clear a.
  induction l as [|b l IH]; simpl; intros m; [done|].
  destruct (lt b m); apply IH.
Qed.

End ListFacts.

Lemma insert_by_hour_Permutation t l : insert_by_hour t l ≡ₚ t :: l.
Proof.
  induction l as [|x r IH]; simpl; [done|].
  destruct (hour t <=? hour x)%Z; [done|]. rewrite IH. apply Permutation_swap.
Qed.

Lemma order_by_hour_Permutation l : order_by_hour l ≡ₚ l.
Proof.
  induction l as [|x r IH]; simpl; [done|].
  rewrite insert_by_hour_Permutation. by rewrite IH.
Qed.

Lemma insert_by_hour_sorted (t : TimeSlot) (l : list TimeSlot) :
  StronglySorted by_hour l → StronglySorted by_hour (insert_by_hour t l).
Proof.
  induction 1 as [|x r Hr IH Hx]; simpl; [repeat constructor|].
  destruct (Z.leb_spec (hour t) (hour x)) as [Hle|Hgt].
  - constructor; [by constructor|]. constructor; [done|].
    eapply Forall_impl; [exact Hx|]. intros y Hy. unfold by_hour in *. lia.
  - constructor; [done|]. rewrite insert_by_hour_Permutation.
    constructor; [unfold by_hour; lia|done].
Qed.

Lemma order_by_hour_sorted (l : list TimeSlot) : StronglySorted by_hour (order_by_hour l).
Proof.
  induction l as [|x r IH]; simpl; [constructor|]. by apply insert_by_hour_sorted.
Qed.

Lemma sorted_lookup (l : list TimeSlot) i j x y :
  StronglySorted by_hour l → l !! i = Some x → l !! j = Some y → i < j → by_hour x y.
Proof.
  intros Hs. revert i j. induction Hs as [|a r Hr IH Ha]; intros i j Hi Hj Hlt.
  - done.
  - destruct i as [|i], j as [|j]; simpl in *; try lia.
    + injection Hi as ->. rewrite Forall_forall in Ha. apply Ha.
      by eapply list_elem_of_lookup_2.
    + apply (IH i j); [done|done|lia].
Qed.

(** [order_by('hour')] gives the table in hour order. *)
Lemma order_by_hour_hour_order (l : list TimeSlot) : hour_order l (order_by_hour l).
Proof.
  split; [apply order_by_hour_Permutation|].
  intros k k' x y Hx Hy Hlt.
  exact (sorted_lookup _ k k' x y (order_by_hour_sorted l) Hx Hy Hlt).
Qed.

(** ** Seeding the time slots *)

Section Seeding.

Implicit Types (db : DB) (h : Z) (hs : list Z).

Lemma new_rows_hours n hs : hour <$> new_rows n hs = hs.
Proof. revert n. induction hs as [|h r IH]; intros n; simpl; [done|]. by rewrite IH. Qed.

Lemma set_time_slots_id db : set_time_slots (time_slots db) (next_id db) db = db.
Proof. by destruct db. Qed.

Lemma get_or_create_present db h :
  NoDup (hour <$> time_slots db) → h ∈ hour <$> time_slots db →
  ∃ t, TimeSlot_get_or_create h db = (db, inr (t, false)).
Proof.
  intros Hnd Hin.
  destruct (filter_key_present hour (time_slots db) h Hnd Hin) as (t & _ & _ & Hf).
  exists t. unfold TimeSlot_get_or_create, try_except, TimeSlot_get, bind, query, lift.
  by rewrite Hf.
Qed.

Lemma get_or_create_absent db h :
  h ∉ hour <$> time_slots db →
  TimeSlot_get_or_create h db
  = (set_time_slots (time_slots db ++ [mkTimeSlot (next_id db) h]) (next_id db + 1)%N db,
     inr (mkTimeSlot (next_id db) h, true)).
Proof.
  intros Hin.
  unfold TimeSlot_get_or_create, try_except, TimeSlot_get, bind, query, lift.
  rewrite (filter_key_absent hour _ h Hin); simpl.
  unfold TimeSlot_create. by rewrite bool_decide_eq_false_2.
Qed.

Lemma missing_snoc hs present h :
  h ∉ hs → missing hs (present ++ [h]) = missing hs present.
Proof.
  unfold missing. induction hs as [|x hs IH]; intros Hh; [done|].
  apply not_elem_of_cons in Hh as [Hne Hh]. rewrite !filter_cons, IH by done.
  destruct (decide (x ∉ present)) as [Hx|Hx].
  - rewrite decide_True; [done|].
    rewrite not_elem_of_app, not_elem_of_cons. repeat split; [done|done|].
    apply not_elem_of_nil.
  - rewrite decide_False; [done|]. rewrite not_elem_of_app. by intros [? _].
Qed.

Lemma seed_run hs db :
  NoDup hs → NoDup (hour <$> time_slots db) →
  for_each hs (λ h, TimeSlot_get_or_create h >> ret tt) db
  = (set_time_slots
       (time_slots db ++ new_rows (next_id db) (missing hs (hour <$> time_slots db)))
       (next_id db + N.of_nat (length (missing hs (hour <$> time_slots db))))%N db,
     inr tt).
Proof.
  revert db. induction hs as [|h hs IH]; intros db Hhs Hnd.
  - simpl. unfold ret. rewrite app_nil_r, N.add_0_r. by rewrite set_time_slots_id.
  - apply NoDup_cons in Hhs as [Hh Hhs].
    unfold for_each in *. cbn [foldr]. unfold bind at 1. unfold bind at 1.
    unfold missing. rewrite filter_cons.
    destruct (decide (h ∈ hour <$> time_slots db)) as [Hin|Hin].
    + destruct (get_or_create_present db h Hnd Hin) as (t & ->).
      rewrite decide_False by (intros Hn; by apply Hn).
      unfold ret at 1. by apply IH.
    + rewrite get_or_create_absent by done.
      rewrite decide_True by done. unfold ret at 1.
      rewrite IH; [|done|].
      * destruct db as [sp ts cs bs n]; unfold set_time_slots; simpl.
        rewrite fmap_app; simpl. fold (missing hs (hour <$> ts)).
        fold (missing hs ((hour <$> ts) ++ [h])).
        rewrite missing_snoc by done. rewrite <- app_assoc. simpl.
        do 2 f_equal. lia.
      * destruct db as [sp ts cs bs n]; simpl. rewrite fmap_app.
        apply NoDup_app. split; [done|]. simpl. split.
        -- intros x Hx Hx'. apply list_elem_of_singleton in Hx'. by subst.
        -- apply NoDup_singleton.
Qed.

Lemma range_NoDup lo n : NoDup (range lo n).
Proof.
  assert (∀ n lo x, x ∈ range lo n → (lo ≤ x)%Z) as Hlo.
  { clear. induction n as [|n IH]; intros lo x; simpl; [by intros ?%elem_of_nil|].
    intros [->|Hx%IH]%elem_of_cons; lia. }
  revert lo. induction n as [|n IH]; intros lo; simpl; [apply NoDup_nil_2|].
  apply NoDup_cons. split; [|apply IH]. intros Hx%Hlo. lia.
Qed.

(** On an empty collection the seeding creates the sixteen rows of the
    hours 7..22, in that order. *)
Lemma create_default_slots_empty db :
  time_slots db = [] →
  create_default_slots db
  = (set_time_slots (new_rows (next_id db) (range 7 16)) (next_id db + 16)%N db, inr tt).
Proof.
  intros He. unfold create_default_slots.
  rewrite seed_run; [|apply range_NoDup|rewrite He; apply NoDup_nil_2].
  rewrite He. reflexivity.
Qed.

Lemma ensure_time_slots_run db :
  ensure_time_slots db
  = (if decide (time_slots db = [])
     then set_time_slots (new_rows (next_id db) (range 7 16)) (next_id db + 16)%N db
     else db, inr tt).
Proof.
  unfold ensure_time_slots. destruct (decide (time_slots db = [])); [|done].
  by apply create_default_slots_empty.
Qed.

Lemma ensure_time_slots_frame db db' r :
  ensure_time_slots db = (db', r) →
  sports db' = sports db ∧ courts db' = courts db ∧ bookings db' = bookings db
  ∧ (next_id db ≤ next_id db')%N ∧ r = inr tt
  ∧ (time_slots db ≠ [] → db' = db).
Proof.
  rewrite ensure_time_slots_run. intros [= <- <-].
  destruct (decide (time_slots db = [])); simpl; repeat split; try done; lia.
Qed.

End Seeding.

(** ** The status grid *)

Section Grid.

Implicit Types (db : DB) (slots : list TimeSlot) (bs : list Booking)
  (c : Court) (grid : status_grid).

(** What a successful [court_status_api] did. *)
Lemma court_status_api_Ok now request db db' grid :
  court_status_api now request db = (db', Ok grid) →
  ∃ d,
    g_date grid = default (isoformat (dt_date now)) (q_date request)
    ∧ fromisoformat (g_date grid) = Some d
    ∧ default_sport (q_sport request) db = Some (g_selectedSport grid)
    ∧ ensure_time_slots db = (db', inr tt)
    ∧ g_timeSlots grid
      = (λ p, (p.1, formatted_slot p.2)) <$> enumerate 1 (order_by_hour (time_slots db'))
    ∧ g_courts grid
      = build_court_info (order_by_hour (time_slots db'))
          (bookings_of_sport (g_selectedSport grid) d db')
        <$> courts_of_sport (g_selectedSport grid) db'.
Proof.
  unfold court_status_api.
  destruct (fromisoformat _) as [d|] eqn:Hd; [|done].
  destruct (default_sport _ _) as [sid|] eqn:Hs; [|done].
  destruct (ensure_time_slots db) as [db1 [e|[]]] eqn:Hseed; [done|].
  intros [= <- <-]; simpl. exists d. by repeat split.
Qed.

(** The entry of slot [i] in the map of a court: its [id] and [time] come
    from the slot, its status is ['available'] or that of a booking of
    this court on this slot. *)
Lemma build_court_info_entry slots bs c i slot :
  slots !! i = Some slot →
  ∃ e, ci_slots (build_court_info slots bs c) !! str_nat (S i) = Some e
       ∧ s_id e = str_nat (S i) ∧ s_time e = formatted_slot slot
       ∧ (s_status e = "available"
          ∨ ∃ b, b ∈ bs ∧ court b = c_id c ∧ time_slot b = ts_id slot
                 ∧ s_status e = status b).
Proof.
  intros Hi. unfold build_court_info; simpl.
  destruct (marks_Some slots (filter (λ b, court b = c_id c) bs) _ _ _
              (init_slots_at slots i slot Hi))
    as (e & He & Hid & Htime & Hst).
  exists e. repeat split; try done.
  destruct Hst as [[Hs _]|(b & Hb & Hhit & Hs)]; [by left|right].
  apply list_elem_of_filter in Hb as [Hc Hb].
  exists b. repeat split; try done.
  unfold hit in Hhit.
  destruct (find_slot _ _) as [n|] eqn:Hf; [|done].
  injection Hhit as Hn%str_nat_inj. subst n.
  apply find_slot_Some in Hf as (j & t & Hj & Hl & Ht).
  assert (j = i) as -> by lia. congruence.
Qed.

(** With distinct slot keys, a booking of this court on slot [i] leaves
    the status of such a booking in the entry. *)
Lemma build_court_info_booked slots bs c i slot b :
  NoDup (ts_id <$> slots) → slots !! i = Some slot →
  b ∈ bs → court b = c_id c → time_slot b = ts_id slot →
  ∃ e b', ci_slots (build_court_info slots bs c) !! str_nat (S i) = Some e
          ∧ b' ∈ bs ∧ court b' = c_id c ∧ time_slot b' = ts_id slot
          ∧ s_status e = status b'.
Proof.
  intros Hnd Hi Hb Hc Ht. unfold build_court_info; simpl.
  destruct (marks_Some slots (filter (λ b, court b = c_id c) bs) _ _ _
              (init_slots_at slots i slot Hi))
    as (e & He & Hid & Htime & Hst).
  assert (∀ x, time_slot x = ts_id slot → hit slots x = Some (str_nat (S i))) as Hhit.
  { intros x Hx. unfold hit.
    by rewrite (find_slot_NoDup (time_slot x) slots 1 i slot). }
  destruct Hst as [[_ Hno]|(b' & Hb' & Hh & Hs)].
  - exfalso. apply (Hno b); [|by apply Hhit].
    by apply list_elem_of_filter.
  - apply list_elem_of_filter in Hb' as [Hc' Hb'].
    exists e, b'. repeat split; try done.
    unfold hit in Hh. destruct (find_slot _ _) as [n|] eqn:Hf; [|done].
    injection Hh as Hn%str_nat_inj. subst n.
    apply find_slot_Some in Hf as (j & t & Hj & Hl & Htt).
    assert (j = i) as -> by lia. congruence.
Qed.

Lemma build_court_info_keys slots bs c k e :
  ci_slots (build_court_info slots bs c) !! k = Some e →
  ∃ i, i < length slots ∧ k = str_nat (S i).
Proof.
  unfold build_court_info; simpl. intros Hk.
  destruct (init_slots slots !! k) as [e0|] eqn:H0.
  - by eapply init_slots_inv.
  - by rewrite marks_None in Hk.
Qed.

Lemma build_court_info_size slots bs c :
  size (ci_slots (build_court_info slots bs c)) = length slots.
Proof.
  unfold build_court_info; simpl.
  by rewrite <- size_dom, marks_dom, size_dom, init_slots_size.
Qed.

(** C10: every court object of the grid has a slot map with exactly the
    keys [str(1)] .. [str(N)], N the number of time slots; the entry at
    [str(i)] has that string as [id] and the [formatted_slot] of the i-th
    slot in hour order as [time], whatever the bookings are.  The
    positions are those of the table sorted by hour: the same rows, the
    hours ascending. *)
Theorem grid_slot_map_shape now request db db' grid :
  court_status_api now request db = (db', Ok grid) →
  hour_order (time_slots db') (order_by_hour (time_slots db'))
  ∧ ∀ ci, ci ∈ g_courts grid →
      (∀ i slot, order_by_hour (time_slots db') !! i = Some slot →
         ∃ e, ci_slots ci !! str_nat (S i) = Some e
              ∧ s_id e = str_nat (S i) ∧ s_time e = formatted_slot slot)
      ∧ (∀ k e, ci_slots ci !! k = Some e →
           ∃ i, i < length (time_slots db') ∧ k = str_nat (S i))
      ∧ size (ci_slots ci) = length (time_slots db').
Proof.
  intros (d & _ & _ & _ & _ & _ & Hcourts)%court_status_api_Ok.
  split; [apply order_by_hour_hour_order|]. intros ci Hci.
  rewrite Hcourts in Hci. apply list_elem_of_fmap in Hci as (c & -> & Hc).
  assert (length (order_by_hour (time_slots db')) = length (time_slots db')) as Hlen.
  { apply Permutation_length, order_by_hour_Permutation. }
  repeat split.
  - intros i slot Hi.
    destruct (build_court_info_entry _ (bookings_of_sport (g_selectedSport grid) d db')
                c i slot Hi) as (e & He & Hid & Htime & _).
    by exists e.
  - intros k e Hk. rewrite <- Hlen. by eapply build_court_info_keys.
  - by rewrite build_court_info_size.
Qed.

(** C1: for a court of the resolved sport and a slot index in range, the
    entry at [str(i)] reads "available" when no booking row has the
    (court, slot, date) of it, and the status of that row otherwise; the
    slot of index [i] is the one at position [i - 1] of the table sorted
    by hour (the same rows, the hours ascending). *)
Theorem grid_entry_status now request db db' grid d :
  court_status_api now request db = (db', Ok grid) →
  fromisoformat (g_date grid) = Some d →
  NoDup (ts_id <$> time_slots db') →
  NoDup (triple <$> bookings db') →
  hour_order (time_slots db') (order_by_hour (time_slots db'))
  ∧ ∀ n c i slot,
      courts_of_sport (g_selectedSport grid) db' !! n = Some c →
      order_by_hour (time_slots db') !! i = Some slot →
      ∃ ci e,
        g_courts grid !! n = Some ci
        ∧ ci_id ci = str_oid (c_id c)
        ∧ ci_slots ci !! str_nat (S i) = Some e
        ∧ ((∀ b, b ∈ bookings db' → triple b ≠ (c_id c, ts_id slot, Some d)) →
           s_status e = "available")
        ∧ (∀ b, b ∈ bookings db' → triple b = (c_id c, ts_id slot, Some d) →
           s_status e = status b).
Proof.
  intros (d' & _ & Hd' & _ & _ & _ & Hcourts)%court_status_api_Ok Hd Hids Huniq.
  split; [apply order_by_hour_hour_order|]. intros n c i slot Hn Hi.
  assert (d' = d) as -> by congruence.
  set (slots := order_by_hour (time_slots db')) in *.
  set (bs := bookings_of_sport (g_selectedSport grid) d db') in *.
  exists (build_court_info slots bs c).
  assert (∀ b, b ∈ bs → court b = c_id c → time_slot b = ts_id slot →
               b ∈ bookings db' ∧ triple b = (c_id c, ts_id slot, Some d)) as Hback.
  { intros b Hb Hc Ht. apply list_elem_of_filter in Hb as [(_ & Hdate & _) Hb].
    split; [done|]. unfold triple. by rewrite Hc, Ht, Hdate. }
  destruct (build_court_info_entry slots bs c i slot Hi) as (e & He & _ & _ & Hst).
  exists e. repeat split; try done.
  - rewrite Hcourts, list_lookup_fmap, Hn. done.
  - intros Hnone. destruct Hst as [Hs|(b & Hb & Hc & Ht & _)]; [done|].
    destruct (Hback b Hb Hc Ht) as [Hin Htr]. by destruct (Hnone b Hin).
  - intros b Hb Htr. injection Htr as Hc Ht Hdate.
    assert (b ∈ bs) as Hbs.
    { apply list_elem_of_filter. split; [|done]. repeat split; [|done|].
      - apply Exists_exists. exists c. split; [|split; [done|]].
        + apply list_elem_of_lookup_2 in Hn. by apply list_elem_of_filter in Hn as [_ ?].
        + apply list_elem_of_lookup_2 in Hn. by apply list_elem_of_filter in Hn as [? _].
      - apply Exists_exists. exists slot. split; [|done].
        apply list_elem_of_lookup_2 in Hi. unfold slots in Hi.
        by rewrite order_by_hour_Permutation in Hi. }
    assert (NoDup (ts_id <$> slots)) as Hids'.
    { unfold slots. by rewrite order_by_hour_Permutation. }
    destruct (build_court_info_booked slots bs c i slot b Hids' Hi Hbs Hc Ht)
      as (e' & b' & He' & Hb' & Hc' & Ht' & Hs').
    assert (e' = e) as -> by congruence.
    destruct (Hback b' Hb' Hc' Ht') as [Hin' Htr'].
    rewrite Hs'. f_equal.
    apply (NoDup_fmap_eq triple (bookings db')); try done.
    rewrite Htr'. unfold triple. by rewrite Hc, Ht, Hdate.
Qed.

End Grid.

(** ** The sport of a request *)

Section SportResolution.

Implicit Types (db : DB).

(** C9: a request that names a sport no row of the catalog has is
    answered with a grid, not with NotFound: its court list is empty and
    [selectedSport] is the name given; the 404 "No sports available" is
    the answer exactly when no sport is named (none, or the empty string)
    and the catalog is empty.  The request is taken with a date that
    parses, and every court with a sport of the catalog. *)
Theorem unknown_sport_gives_empty_grid now request db :
  is_Some (fromisoformat (default (isoformat (dt_date now)) (q_date request))) →
  (∀ c, c ∈ courts db → ∃ s, s ∈ sports db ∧ sp_id s = c_sport c) →
  (∀ sid, q_sport request = Some sid → sid ≠ "" →
          (∀ s, s ∈ sports db → sp_id s ≠ sid) →
          ∃ db' grid, court_status_api now request db = (db', Ok grid)
                      ∧ g_courts grid = [] ∧ g_selectedSport grid = sid)
  ∧ ((∃ e, (court_status_api now request db).2 = Err 404 e)
     ↔ falsy (q_sport request) = true ∧ sports db = []).
Proof.
  intros [d Hd] Hfk. split.
  - intros sid Hsid Hne Hnone. unfold court_status_api. rewrite Hd.
    unfold default_sport. rewrite Hsid; simpl.
    rewrite bool_decide_eq_false_2 by done.
    destruct (ensure_time_slots db) as [db1 r] eqn:Hseed.
    apply ensure_time_slots_frame in Hseed as (_ & Hcourts & _ & _ & -> & _).
    eexists _, _. split; [reflexivity|]. simpl. split; [|done].
    unfold courts_of_sport. rewrite Hcourts.
    assert (∀ l : list Court, (∀ c, c ∈ l → c_sport c ≠ sid) →
                              filter (λ c, c_sport c = sid) l = []) as Hnil.
    { induction l as [|c l IH]; intros Hall; [done|]. rewrite filter_cons.
      rewrite decide_False by (apply Hall; left). apply IH. intros c' Hc'.
      apply Hall. by right. }
    rewrite Hnil; [done|].
    intros c Hc Heq. destruct (Hfk c Hc) as (s & Hs & Hss).
    apply (Hnone s Hs). congruence.
  - unfold court_status_api. rewrite Hd. unfold default_sport.
    destruct (falsy (q_sport request)) eqn:Hf.
    + destruct (first_by _ (sports db)) as [s|] eqn:Hfirst; simpl.
      * rewrite ensure_time_slots_run; simpl. split; [by intros [e ?]|].
        intros [_ Hnil]. by rewrite Hnil in Hfirst.
      * split; [|by eauto]. intros _. split; [done|]. by eapply first_by_None.
    + destruct (q_sport request) as [sid|]; [|done].
      rewrite ensure_time_slots_run; simpl. split; [by intros [e ?]|by intros [? _]].
Qed.

Lemma unknown_sport_gives_empty_grid_witness :
  ∃ db' grid,
    court_status_api Demo.now (mkGet (Some "golf") (Some "2024-01-01")) Demo.booked_db
    = (db', Ok grid)
    ∧ g_courts grid = [] ∧ g_selectedSport grid = "golf".
Proof.
  refine (proj1 (unknown_sport_gives_empty_grid Demo.now
                   (mkGet (Some "golf") (Some "2024-01-01")) Demo.booked_db _ _)
            "golf" _ _ _).
  - by eexists.
  - intros c Hc. exists (mkSport "badminton" "Badminton"). split; [left|].
    apply elem_of_cons in Hc as [->|Hc]; [done|].
    apply elem_of_cons in Hc as [->|Hc]; [done|]. by apply elem_of_nil in Hc.
  - reflexivity.
  - done.
  - intros s Hs. apply elem_of_cons in Hs as [->|Hs]; [done|].
    by apply elem_of_nil in Hs.
Defined.

End SportResolution.

Section GridExamples.

Lemma demo_grid_run :
  court_status_api Demo.now Demo.get_2024_01_01 Demo.booked_db
  = (Demo.booked_db, Ok Demo.grid).
Proof. vm_compute. reflexivity. Qed.

Lemma grid_slot_map_shape_witness :
  ∃ ci e,
    g_courts Demo.shuffled_grid !! 1 = Some ci
    ∧ size (ci_slots ci) = 3
    ∧ ci_slots ci !! "1" = Some e ∧ s_id e = "1" ∧ s_time e = "7:00 AM".
Proof.
  exists (build_court_info (order_by_hour (time_slots Demo.shuffled_db))
            (bookings_of_sport "badminton" (Date 2024 1 1) Demo.shuffled_db)
            (mkCourt 18 "badminton" "Court 2")).
  destruct (proj2 (grid_slot_map_shape Demo.now Demo.get_2024_01_01 Demo.shuffled_db
                     Demo.shuffled_db Demo.shuffled_grid ltac:(vm_compute; reflexivity))
              (build_court_info (order_by_hour (time_slots Demo.shuffled_db))
                 (bookings_of_sport "badminton" (Date 2024 1 1) Demo.shuffled_db)
                 (mkCourt 18 "badminton" "Court 2"))
              ltac:(right; left))
    as (Hentry & _ & Hsize).
  destruct (Hentry 0 (mkTimeSlot 2 7) ltac:(vm_compute; reflexivity))
    as (e & He & Hid & Htime).
  exists e. repeat split; done.
Defined.

Lemma grid_entry_status_witness :
  ∃ ci e,
    g_courts Demo.shuffled_grid !! 0 = Some ci
    ∧ ci_slots ci !! "3" = Some e
    ∧ s_status e = "reserved".
Proof.
  destruct (proj2 (grid_entry_status Demo.now Demo.get_2024_01_01 Demo.shuffled_db
                     Demo.shuffled_db Demo.shuffled_grid (Date 2024 1 1)
                     ltac:(vm_compute; reflexivity) ltac:(vm_compute; reflexivity)
                     ltac:(apply (bool_decide_unpack _); vm_compute; exact I)
                     ltac:(apply (bool_decide_unpack _); vm_compute; exact I))
              0 (mkCourt 17 "badminton" "Court 1") 2 (mkTimeSlot 1 22)
              ltac:(vm_compute; reflexivity) ltac:(vm_compute; reflexivity))
    as (ci & e & Hci & _ & He & _ & Hst).
  exists ci, e. repeat split; [done|done|].
  apply (Hst (Demo.booking 4 17 1 "reserved")); [|reflexivity].
  left.
Defined.

End GridExamples.

(** ** When the views seed the time slots *)

Section SeedingClaims.

Implicit Types (db : DB).

Lemma filter_none {A} (P : A → Prop) `{∀ x, Decision (P x)} (l : list A) :
  (∀ x, x ∈ l → ¬ P x) → filter P l = [].
Proof.
  induction l as [|a l IH]; intros Hall; [done|]. rewrite filter_cons.
  rewrite decide_False by (apply Hall; left). apply IH. intros x Hx.
  apply Hall. by right.
Qed.

(** Seeding twice is seeding once: the second pass finds every hour. *)
Lemma create_default_slots_twice db :
  NoDup (hour <$> time_slots db) →
  ∃ db1, create_default_slots db = (db1, inr tt)
         ∧ create_default_slots db1 = (db1, inr tt)
         ∧ NoDup (hour <$> time_slots db1)
         ∧ (∀ h, h ∈ range 7 16 → h ∈ hour <$> time_slots db1)
         ∧ (∀ t, t ∈ time_slots db → t ∈ time_slots db1).
Proof.
  intros Hnd. unfold create_default_slots.
  rewrite (seed_run (range 7 16) db (range_NoDup _ _) Hnd).
  set (hs := missing (range 7 16) (hour <$> time_slots db)).
  set (db1 := set_time_slots (time_slots db ++ new_rows (next_id db) hs)
                (next_id db + N.of_nat (length hs))%N db).
  assert (hour <$> time_slots db1 = (hour <$> time_slots db) ++ hs) as Hhours.
  { unfold db1; simpl. by rewrite fmap_app, new_rows_hours. }
  assert (NoDup (hour <$> time_slots db1)) as Hnd1.
  { rewrite Hhours. apply NoDup_app. repeat split; [done| |].
    - intros x Hx Hx'. unfold hs, missing in Hx'.
      by apply list_elem_of_filter in Hx' as [Hno _].
    - apply NoDup_filter, range_NoDup. }
  assert (∀ h, h ∈ range 7 16 → h ∈ hour <$> time_slots db1) as Hall.
  { intros h Hh. rewrite Hhours. apply elem_of_app.
    destruct (decide (h ∈ hour <$> time_slots db)) as [Hin|Hout]; [by left|right].
    unfold hs, missing. by apply list_elem_of_filter. }
  exists db1. repeat split; try done.
  - rewrite (seed_run (range 7 16) db1 (range_NoDup _ _) Hnd1).
    assert (missing (range 7 16) (hour <$> time_slots db1) = []) as ->.
    { apply filter_none. intros h Hh Hno. by apply Hno, Hall. }
    change (new_rows (next_id db1) []) with (@nil TimeSlot).
    change (N.of_nat (length (@nil Z))) with 0%N.
    by rewrite app_nil_r, N.add_0_r, set_time_slots_id.
  - intros t Ht. unfold db1; simpl. apply elem_of_app. by left.
Qed.

(** The claim C7 as it stands fails on a request that is turned away
    before line 34: the date does not parse, the answer is the 400 and the
    collection is as empty as before. *)
Lemma seeding_skipped_on_bad_date :
  time_slots Demo.empty_db = []
  ∧ court_status_api Demo.now (mkGet (Some "badminton") (Some "01/02/2024"))
      Demo.empty_db
    = (Demo.empty_db, Err 400 InvalidDateFormat).
Proof. split; reflexivity. Qed.

(** C7, amended: with an empty collection, [time_slots_api] always, and
    [court_status_api] once the date has parsed and a sport is resolved,
    create one slot for each hour 7..22 (sixteen) before they answer; a
    [court_status_api] that answers with an error leaves the store as it
    was; with a collection that is not empty neither changes the store;
    and seeding is get-or-create on the hour, so a second seeding adds
    nothing.  The hours of the stored slots are taken distinct
    ([unique=True]). *)
Theorem seeding_when_empty now request db :
  NoDup (hour <$> time_slots db) →
  (time_slots db = [] →
     hour <$> time_slots (time_slots_api db).1
     = [7; 8; 9; 10; 11; 12; 13; 14; 15; 16; 17; 18; 19; 20; 21; 22]%Z
     ∧ (∃ views, (time_slots_api db).2 = Ok views ∧ length views = 16)
     ∧ (is_Some (fromisoformat (default (isoformat (dt_date now)) (q_date request))) →
        is_Some (default_sport (q_sport request) db) →
        hour <$> time_slots (court_status_api now request db).1
        = [7; 8; 9; 10; 11; 12; 13; 14; 15; 16; 17; 18; 19; 20; 21; 22]%Z
        ∧ ∃ grid, (court_status_api now request db).2 = Ok grid
                  ∧ length (g_timeSlots grid) = 16))
  ∧ (time_slots db ≠ [] →
     (time_slots_api db).1 = db ∧ (court_status_api now request db).1 = db)
  ∧ (∀ code e, (court_status_api now request db).2 = Err code e →
               (court_status_api now request db).1 = db)
  ∧ (∃ db1, create_default_slots db = (db1, inr tt)
            ∧ create_default_slots db1 = (db1, inr tt)
            ∧ NoDup (hour <$> time_slots db1)
            ∧ (∀ h, h ∈ range 7 16 → h ∈ hour <$> time_slots db1)
            ∧ (∀ t, t ∈ time_slots db → t ∈ time_slots db1)).
Proof.
  intros Hnd. split; [|split; [|split]].
  - intros Hempty.
    assert (ensure_time_slots db
            = (set_time_slots (new_rows (next_id db) (range 7 16))
                 (next_id db + 16)%N db, inr tt)) as Hrun.
    { rewrite ensure_time_slots_run. by rewrite decide_True. }
    split; [|split].
    + unfold time_slots_api. rewrite Hrun. cbn [fst]. unfold set_time_slots.
      cbn [time_slots]. by rewrite new_rows_hours.
    + unfold time_slots_api. rewrite Hrun. eexists. split; [reflexivity|].
      rewrite length_fmap.
      rewrite (Permutation_length (order_by_hour_Permutation _)). reflexivity.
    + intros [d Hd] [sid Hsid]. unfold court_status_api.
      rewrite Hd, Hsid, Hrun. split.
      * cbn [fst]. unfold set_time_slots. cbn [time_slots]. by rewrite new_rows_hours.
      * eexists. split; [reflexivity|]. cbn [g_timeSlots].
        rewrite length_fmap, enumerate_length.
        rewrite (Permutation_length (order_by_hour_Permutation _)). reflexivity.
  - intros Hne.
    assert (ensure_time_slots db = (db, inr tt)) as Hrun.
    { rewrite ensure_time_slots_run. by rewrite decide_False. }
    split.
    + unfold time_slots_api. by rewrite Hrun.
    + unfold court_status_api.
      destruct (fromisoformat _); [|done].
      destruct (default_sport _ _); [|done]. by rewrite Hrun.
  - intros code e. unfold court_status_api.
    destruct (fromisoformat _); [|done].
    destruct (default_sport _ _); [|done].
    rewrite ensure_time_slots_run. done.
  - by apply create_default_slots_twice.
Qed.

Lemma seeding_when_empty_witness :
  hour <$> time_slots (time_slots_api Demo.empty_db).1
  = [7; 8; 9; 10; 11; 12; 13; 14; 15; 16; 17; 18; 19; 20; 21; 22]%Z
  ∧ hour <$> time_slots (court_status_api Demo.now Demo.get_2024_01_01 Demo.empty_db).1
    = [7; 8; 9; 10; 11; 12; 13; 14; 15; 16; 17; 18; 19; 20; 21; 22]%Z.
Proof.
  destruct (seeding_when_empty Demo.now Demo.get_2024_01_01 Demo.empty_db
              ltac:(apply NoDup_nil_2)) as (Hempty & _ & _ & _).
  destruct (Hempty eq_refl) as (Hlist & _ & Hgrid).
  split; [exact Hlist|].
  apply Hgrid; by eexists.
Defined.

End SeedingClaims.

(** ** Reasoning about store computations *)

Section Hoare.

Context {A : Type}.

Lemma hoare_ret (P : DB → Prop) (a : A) Q E :
  (∀ db, P db → Q a db) → hoare P (ret a) Q E.
Proof. intros H db HP. by apply H. Qed.

Lemma hoare_raise (P : DB → Prop) e (Q : A → DB → Prop) E :
  (∀ db, P db → E e db) → hoare P (raise e) Q E.
Proof. intros H db HP. by apply H. Qed.

Lemma hoare_lift (P : DB → Prop) (r : exn + A) Q E :
  (∀ db, P db → match r with inr a => Q a db | inl e => E e db end) →
  hoare P (lift r) Q E.
Proof. intros H db HP. unfold lift. specialize (H db HP). by destruct r. Qed.

Lemma hoare_query (P : DB → Prop) (f : DB → A) Q E :
  (∀ db, P db → Q (f db) db) → hoare P (query f) Q E.
Proof. intros H db HP. by apply H. Qed.

Lemma hoare_try (P : DB → Prop) (m : M A) (h : exn → M A) Q E E' :
  hoare P m Q E' → (∀ e, hoare (E' e) (h e) Q E) → hoare P (try_except m h) Q E.
Proof.
  intros Hm Hh db HP. unfold try_except. specialize (Hm db HP).
  destruct (m db) as [db' [e|a]]; [|done]. by apply Hh.
Qed.

Lemma hoare_weaken (P P' : DB → Prop) (m : M A) (Q Q' : A → DB → Prop)
    (E E' : exn → DB → Prop) :
  hoare P' m Q' E' → (∀ db, P db → P' db) → (∀ a db, Q' a db → Q a db) →
  (∀ e db, E' e db → E e db) → hoare P m Q E.
Proof.
  intros Hm HP HQ HE db Hdb. specialize (Hm db (HP db Hdb)).
  destruct (m db) as [db' [e|a]]; auto.
Qed.

End Hoare.

Lemma hoare_bind {A B} (P : DB → Prop) (m : M A) (k : A → M B) R Q E :
  hoare P m R E → (∀ a, hoare (R a) (k a) Q E) → hoare P (bind m k) Q E.
Proof.
  intros Hm Hk db HP. unfold bind. specialize (Hm db HP).
  destruct (m db) as [db' [e|a]]; [done|]. by apply Hk.
Qed.

Section StoreInvariant.

Implicit Types (db : DB) (r x : Booking) (bs : list Booking).

Lemma replace_row_unique bs r r' :
  booking_id r' = booking_id r → triple r' = triple r →
  NoDup (booking_id <$> bs) → NoDup (triple <$> bs) → ¬ breaks_unique r bs →
  booking_id <$> ((λ x, if decide (booking_id x = booking_id r) then r' else x) <$> bs)
  = booking_id <$> bs
  ∧ NoDup (triple <$> ((λ x, if decide (booking_id x = booking_id r) then r' else x)
                         <$> bs)).
Proof.
  intros Hid Htr. unfold breaks_unique.
  induction bs as [|a l IH]; intros Hk Hu Hb; [split; [done|apply NoDup_nil_2]|].
  rewrite !fmap_cons in *.
  apply NoDup_cons in Hk as [Hka Hk]. apply NoDup_cons in Hu as [Hua Hu].
  rewrite Exists_cons in Hb.
  destruct (IH Hk Hu) as [IHk IHu]; [tauto|].
  split.
  - rewrite IHk. f_equal. destruct (decide (booking_id a = booking_id r)); congruence.
  - apply NoDup_cons. split; [|done].
    intros Hin. apply list_elem_of_fmap in Hin as (y & Hy & Hin).
    apply list_elem_of_fmap in Hin as (x & -> & Hx).
    destruct (decide (booking_id a = booking_id r)) as [Ha|Ha];
      destruct (decide (booking_id x = booking_id r)) as [Hxr|Hxr].
    + apply Hka. rewrite Ha, <- Hxr. apply list_elem_of_fmap. by exists x.
    + apply Hb. right. apply Exists_exists. exists x. split; [done|].
      split; [congruence|done].
    + apply Hb. left. split; [congruence|done].
    + apply Hua. rewrite Hy. apply list_elem_of_fmap. by exists x.
Qed.

Lemma append_row_unique bs r' r :
  booking_id r' = booking_id r → triple r' = triple r →
  NoDup (booking_id <$> bs) → NoDup (triple <$> bs) → ¬ breaks_unique r bs →
  booking_id r ∉ booking_id <$> bs →
  NoDup (booking_id <$> bs ++ [r']) ∧ NoDup (triple <$> bs ++ [r']).
Proof.
  intros Hid Htr Hk Hu Hb Hfresh. rewrite !fmap_app. split.
  - apply NoDup_app. repeat split; [done| |apply NoDup_singleton].
    intros k Hin Hk'. apply list_elem_of_singleton in Hk'. simpl in Hk'. congruence.
  - apply NoDup_app. repeat split; [done| |apply NoDup_singleton].
    intros k Hin Hk'. apply list_elem_of_singleton in Hk'. simpl in Hk'. subst k.
    apply list_elem_of_fmap in Hin as (x & Hx & Hin).
    apply Hb, Exists_exists. exists x. split; [done|]. split; [congruence|].
    intros Heq. apply Hfresh. rewrite <- Heq. apply list_elem_of_fmap. by exists x.
Qed.

Lemma Model_save_ok now r :
  hoare (λ db, store_ok db ∧ (booking_id r < next_id db)%N) (Model_save now r)
    (λ _, store_ok) (λ _, store_ok).
Proof.
  intros db [[Hk Hi Hu] Hr]. unfold Model_save.
  destruct (decide (breaks_unique r (bookings db))) as [Hb|Hb]; [done|].
  destruct (decide (booking_id r ∈ booking_id <$> bookings db)) as [Hin|Hout].
  - destruct (replace_row_unique (bookings db) r (touch now r)) as [Hids Htri];
      try done.
    split; simpl.
    + by rewrite Hids.
    + intros b Hb'. apply list_elem_of_fmap in Hb' as (x & -> & Hx).
      destruct (decide (booking_id x = booking_id r)); [done|by apply Hi].
    + done.
  - destruct (append_row_unique (bookings db)
                (mkBooking (booking_id r) (court r) (time_slot r) (on_date r)
                   (user r) (status r) now now) r) as [Hids Htri]; try done.
    split; simpl; [done| |done].
    intros b [Hb'|Hb']%elem_of_app; [by apply Hi|].
    apply list_elem_of_singleton in Hb'. by subst b.
Qed.

Lemma Model_insert_ok now c t i :
  hoare store_ok (Model_insert now c t i) (λ _, store_ok) (λ _, store_ok).
Proof.
  intros db [Hk Hi Hu]. unfold Model_insert. cbv zeta.
  set (r := mkBooking (next_id db) c t (n_date i) (n_user i) (n_status i) now now).
  destruct (decide (breaks_unique r (bookings db))) as [Hb|Hb]; [done|].
  assert (booking_id r ∉ booking_id <$> bookings db) as Hfresh.
  { intros Hin. apply list_elem_of_fmap in Hin as (x & Hx & Hin).
    apply Hi in Hin. simpl in Hx. lia. }
  destruct (append_row_unique (bookings db) r r) as [Hids Htri]; try done.
  split; simpl; [done| |done].
  intros b [Hb'|Hb']%elem_of_app; [apply Hi in Hb'; lia|].
  apply list_elem_of_singleton in Hb'. subst b. simpl. lia.
Qed.

Lemma Booking_save_ok now self :
  hoare (λ db, store_ok db ∧ issued self db) (Booking_save now self)
    (λ _, store_ok) (λ _, store_ok).
Proof.
  destruct self as [i|r]; simpl.
  - unfold related.
    intros db [Hok _]. unfold bind.
    destruct (n_court i) as [c|]; [|done]. destruct (n_time_slot i) as [t|]; [|done].
    unfold ret, query.
    destruct (first_by _ _) as [existing|] eqn:Hfirst.
    + destruct (n_user i) as [u|]; [|done].
      apply first_by_elem, list_elem_of_filter in Hfirst as [_ Hin].
      apply (Model_save_ok now _ db). split; [done|]. simpl.
      by apply (ok_issued db Hok).
    + by apply Model_insert_ok.
  - apply Model_save_ok.
Qed.

Lemma Booking_delete_ok kw :
  hoare store_ok (Booking_delete kw) (λ _, store_ok) (λ _, store_ok).
Proof.
  intros db [Hk Hi Hu]. unfold Booking_delete. split; simpl.
  - eapply sublist_NoDup; [exact Hk|]. apply fmap_sublist, sublist_filter.
  - intros b Hb. apply list_elem_of_filter in Hb as [_ Hb]. by apply Hi.
  - eapply sublist_NoDup; [exact Hu|]. apply fmap_sublist, sublist_filter.
Qed.

Lemma setattr_row_keeps r (defaults : kwargs) :
  booking_id (foldl setattr_row r defaults) = booking_id r
  ∧ triple (foldl setattr_row r defaults) = triple r.
Proof.
  revert r. induction defaults as [|p l IH]; intros r; [done|].
  cbn [foldl]. destruct (IH (setattr_row r p)) as [-> ->].
  unfold setattr_row. destruct (p.2); repeat case_decide; done.
Qed.

(** [Booking.save] of a new booking that has its court, time slot, date
    and user is never refused in a well-formed store: it leaves a row of
    that triple with the status given, the one that was there or a new
    one. *)
Lemma Booking_save_new now cid t d u st db :
  store_ok db →
  ∃ db' r, Booking_save now (New (mkNew (Some cid) (Some t) (Some d) (Some u) st)) db
           = (db', inr r)
           ∧ r ∈ bookings db' ∧ triple r = (cid, t, Some d) ∧ status r = st
           ∧ (Forall (λ x, triple x ≠ (cid, t, Some d)) (bookings db) →
              bookings db' = bookings db ++ [r]).
Proof.
  intros [Hk Hi Hu]. unfold Booking_save, related, bind, ret, query. cbn [n_court n_time_slot n_date n_user n_status].
  destruct (first_by _ _) as [existing|] eqn:Hfirst.
  - apply first_by_elem, list_elem_of_filter in Hfirst as [(Hc & Ht & Hd) Hin].
    unfold Model_save. cbn [booking_id].
    rewrite decide_False.
    + rewrite decide_True by (apply list_elem_of_fmap; by exists existing).
      eexists _, _. split; [reflexivity|]. cbn [bookings set_bookings].
      repeat split.
      * apply list_elem_of_fmap. exists existing. by rewrite decide_True.
      * unfold triple; simpl. by rewrite Hc, Ht, Hd.
      * intros Hall. rewrite Forall_forall in Hall. destruct (Hall existing Hin).
        unfold triple. by rewrite Hc, Ht, Hd.
    + unfold breaks_unique. intros (x & Hx & Htx & Hne)%Exists_exists.
      apply Hne. cbn [booking_id]. f_equal.
      by apply (NoDup_fmap_eq triple (bookings db)).
  - apply first_by_None in Hfirst. unfold Model_insert.
    cbn [n_court n_time_slot n_date n_user n_status].
    rewrite decide_False.
    + eexists _, _. split; [reflexivity|]. cbn [bookings set_bookings].
      repeat split. apply elem_of_app. right. left.
    + unfold breaks_unique. intros (x & Hx & Htx & _)%Exists_exists.
      assert (x ∈ filter (λ b, court b = cid ∧ time_slot b = t ∧ on_date b = Some d)
                     (bookings db)) as Hxf.
      { apply list_elem_of_filter. split; [|done]. cbn in Htx.
        injection Htx as -> -> ->. done. }
      rewrite Hfirst in Hxf. by apply elem_of_nil in Hxf.
Qed.

End StoreInvariant.

Section WritePathInvariant.

Implicit Types (db : DB) (kw defaults : kwargs).

Lemma get_elem {A} (sel : list A) x : get sel = inr x → sel = [x].
Proof. destruct sel as [|a [|b l]]; simpl; congruence. Qed.

Lemma find_ok kw :
  hoare store_ok
    (let! rows := query bookings in lift (get (filter (Booking_matches kw) rows)))
    (λ obj db, store_ok db ∧ obj ∈ bookings db) (λ _, store_ok).
Proof.
  intros db Hok. unfold bind, query, lift.
  destruct (get _) as [e|obj] eqn:Hget; [done|].
  split; [done|]. apply get_elem in Hget.
  assert (obj ∈ filter (Booking_matches kw) (bookings db)) as Hin
    by (rewrite Hget; left).
  by apply list_elem_of_filter in Hin as [_ ?].
Qed.

Lemma Booking_update_or_create_ok now defaults kw :
  hoare store_ok (Booking_update_or_create now defaults kw)
    (λ _, store_ok) (λ _, store_ok).
Proof.
  unfold Booking_update_or_create.
  apply hoare_bind
    with (R := λ found db, store_ok db ∧ (found.2 = false → found.1 ∈ bookings db)).
  - apply hoare_try with (E' := λ _, store_ok).
    + eapply hoare_bind; [apply find_ok|]. intros obj. apply hoare_ret.
      intros db [Hok Hin]. by split.
    + intros e. destruct e; try by apply hoare_raise.
      apply hoare_try with (E' := λ _, store_ok).
      * eapply hoare_bind.
        -- eapply hoare_weaken; [apply (Booking_save_ok now (New _))| |done|done].
           by intros db Hok.
        -- intros obj. apply hoare_ret. by intros db Hok.
      * intros e'. destruct e'; try by apply hoare_raise.
        apply hoare_try with (E' := λ _, store_ok).
        -- eapply hoare_bind; [apply find_ok|]. intros obj. apply hoare_ret.
           intros db [Hok Hin]. by split.
        -- intros e''. destruct e''; by apply hoare_raise.
  - intros [obj created]. simpl. destruct created.
    + apply hoare_ret. by intros db [Hok _].
    + apply hoare_bind with (R := λ _, store_ok); [|intros r; by apply hoare_ret].
      eapply hoare_weaken;
        [apply (Booking_save_ok now (Loaded (foldl setattr_row obj defaults)))
        | |done|done].
      intros db [Hok Hin]. split; [done|]. simpl.
      destruct (setattr_row_keeps obj defaults) as [-> _].
      apply (ok_issued db Hok). by apply Hin.
Qed.

Lemma resolve_pure court_id time_slot_id db : (resolve court_id time_slot_id db).1 = db.
Proof.
  unfold resolve, bind, lift, query, ret.
  destruct (int _); [done|]. destruct (index _ _); [done|].
  destruct (ObjectId_of _); [done|]. by destruct (get _).
Qed.

Lemma reconcile_ok now u new_status d slot cid c :
  hoare store_ok (reconcile now u new_status d slot cid c)
    (λ _, store_ok) (λ _, store_ok).
Proof.
  unfold reconcile. destruct (decide (new_status = "available")).
  - eapply hoare_bind; [apply Booking_delete_ok|]. intros n. by apply hoare_ret.
  - eapply hoare_bind; [apply Booking_update_or_create_ok|]. intros res.
    by apply hoare_ret.
Qed.

(** What [update_booking_api] does once the request is through the
    checks of lines 106-132. *)
Lemma update_booking_api_run now request db u st ds d slot cid c :
  p_user request = Some u →
  truthy (p_courtId request) = true → truthy (p_timeSlotId request) = true →
  p_status request = JStr st → st ∈ valid_statuses →
  default (JStr (isoformat (dt_date now))) (p_date request) = JStr ds →
  fromisoformat ds = Some d →
  resolve (p_courtId request) (p_timeSlotId request) db = (db, inr (slot, cid, c)) →
  update_booking_api now request db
  = match reconcile now u st d slot cid c db with
    | (db', inl e) => (db', Err 500 (FailedToUpdateBooking e))
    | (db', inr summary) => (db', Ok summary)
    end.
Proof.
  intros Hu Hc Ht Hs Hst Hds Hd Hres. unfold update_booking_api.
  rewrite Hu, Hc, Ht, Hs, Hds, Hd, Hres. simpl.
  assert (negb (bool_decide (st = "")) = true) as ->.
  { apply negb_true_iff, bool_decide_eq_false_2. intros ->.
    by repeat (apply elem_of_cons in Hst as [?|Hst]; [done|]);
      apply elem_of_nil in Hst. }
  simpl. by rewrite decide_True.
Qed.

Lemma update_booking_api_ok now request db :
  store_ok db → store_ok (update_booking_api now request db).1.
Proof.
  intros Hok. unfold update_booking_api.
  destruct (p_user request) as [u|]; [|done].
  destruct (negb _); [done|].
  destruct (p_status request) as [| | |st]; try done.
  destruct (decide (st ∈ valid_statuses)) as [Hst|]; [|done].
  destruct (default _ _) as [| | |ds]; try done.
  destruct (fromisoformat ds) as [d|]; [|done].
  pose proof (resolve_pure (p_courtId request) (p_timeSlotId request) db) as Hpure.
  destruct (resolve _ _ db) as [db1 [e|[[slot cid] c]]]; simpl in Hpure; subst db1;
    [done|].
  pose proof (reconcile_ok now u st d slot cid c db Hok) as Hrec.
  by destruct (reconcile _ _ _ _ _ _ _ db) as [db2 [e|s]].
Qed.

Lemma read_paths_ok now request db :
  store_ok db →
  store_ok (court_status_api now request db).1 ∧ store_ok (time_slots_api db).1.
Proof.
  intros [Hk Hi Hu].
  assert (∀ db', (∃ r, ensure_time_slots db = (db', r)) → store_ok db') as Hseed.
  { intros db' [r (_ & _ & Hb & Hn & _)%ensure_time_slots_frame].
    split; rewrite Hb; try done. intros b Hin. apply Hi in Hin. lia. }
  split.
  - unfold court_status_api. destruct (fromisoformat _); [|done].
    destruct (default_sport _ _); [|done].
    destruct (ensure_time_slots db) as [db' [e|[]]] eqn:Hrun; simpl;
      apply Hseed; by eexists.
  - unfold time_slots_api.
    destruct (ensure_time_slots db) as [db' [e|[]]] eqn:Hrun; simpl;
      apply Hseed; by eexists.
Qed.

Lemma reachable_store_ok db : reachable db → store_ok db.
Proof.
  induction 1 as [db Hnil|now request db _ IH|db _ IH|now request db _ IH
                 |now self db _ IH Hiss].
  - split; rewrite Hnil; try apply NoDup_nil_2. intros b Hb. by apply elem_of_nil in Hb.
  - by apply read_paths_ok.
  - by apply (read_paths_ok (DateTime (Date 1 1 1) 0 0 0) (mkGet None None)).
  - by apply update_booking_api_ok.
  - pose proof (Booking_save_ok now self db (conj IH Hiss)) as Hs.
    by destruct (Booking_save now self db) as [db' [e|r]].
Qed.

End WritePathInvariant.

(** ** The reconciler, case by case *)

Section Reconciler.

Implicit Types (db : DB) (b : Booking) (c : Court) (slot : TimeSlot).

Lemma Booking_matches_triple cid t d b :
  Booking_matches (triple_lookup cid t d) b ↔ triple b = (cid, t, Some d).
Proof.
  unfold Booking_matches, triple_lookup, triple.
  change (forallb (λ p, field_lookup p.1 p.2 b)
            [("court___id", AOid cid); ("time_slot___id", AOid t); ("date", ADate d)])
    with (bool_decide (court b = cid)
          && (bool_decide (time_slot b = t) && (bool_decide (on_date b = Some d) && true))).
  rewrite !andb_true_iff, !bool_decide_eq_true. split.
  - intros (-> & -> & -> & _). done.
  - intros [= -> -> ->]. done.
Qed.

Lemma filter_matches cid t d (l : list Booking) :
  filter (Booking_matches (triple_lookup cid t d)) l
  = filter (λ b, triple b = (cid, t, Some d)) l
  ∧ filter (λ b, ¬ Booking_matches (triple_lookup cid t d) b) l
    = filter (λ b, triple b ≠ (cid, t, Some d)) l.
Proof.
  split; apply list_filter_iff; intros b; by rewrite Booking_matches_triple.
Qed.

Lemma filter_length_pos {A} (P : A → Prop) `{∀ x, Decision (P x)} (l : list A) :
  (0 <? length (filter P l))%nat = (if decide (Exists P l) then true else false).
Proof.
  destruct (decide (Exists P l)) as [Hex|Hno].
  - apply Exists_exists in Hex as (x & Hx & HP).
    assert (x ∈ filter P l) as Hin by (by apply list_elem_of_filter).
    destruct (filter P l); [by apply elem_of_nil in Hin|done].
  - rewrite filter_none; [done|]. intros x Hx HP. apply Hno, Exists_exists. eauto.
Qed.

(** Lines 135-150: every row of the triple goes. *)
Lemma reconcile_available now u d slot cid c db :
  reconcile now u "available" d slot cid c db
  = (set_bookings (filter (λ b, triple b ≠ (cid, ts_id slot, Some d)) (bookings db))
       (next_id db) db,
     inr (mkSummary None (c_name c) (formatted_slot slot) (isoformat d) "available"
            (username u)
            (if decide (Exists (λ b, triple b = (cid, ts_id slot, Some d)) (bookings db))
             then "deleted" else "no_change"))).
Proof.
  unfold reconcile. rewrite decide_True by done.
  unfold bind, Booking_delete, ret.
  destruct (filter_matches cid (ts_id slot) d (bookings db)) as [-> ->].
  rewrite filter_length_pos. by destruct (decide (Exists _ _)).
Qed.

(** Lines 151-171 when exactly one row has the triple: it is updated in
    place. *)
Lemma reconcile_update now u st d slot cid c db b :
  st ≠ "available" →
  filter (λ x, triple x = (cid, ts_id slot, Some d)) (bookings db) = [b] →
  reconcile now u st d slot cid c db
  = (set_bookings
       ((λ x, if decide (booking_id x = booking_id b) then updated_row now u st b else x)
          <$> bookings db) (next_id db) db,
     inr (mkSummary (Some (str_oid (booking_id b))) (c_name c) (formatted_slot slot)
            (isoformat d) st (username u) "updated")).
Proof.
  intros Hst Hf. unfold reconcile. rewrite decide_False by done.
  unfold Booking_update_or_create, bind, try_except, query, lift, ret.
  destruct (filter_matches cid (ts_id slot) d (bookings db)) as [-> _].
  rewrite Hf. cbn [get fst snd].
  assert (b ∈ bookings db ∧ triple b = (cid, ts_id slot, Some d)) as [Hin Htr].
  { assert (b ∈ filter (λ x, triple x = (cid, ts_id slot, Some d)) (bookings db)) as Hb
      by (rewrite Hf; left).
    apply list_elem_of_filter in Hb as [? ?]. done. }
  change (foldl setattr_row b [("status", AStr st); ("user", AUser u)])
    with (mkBooking (booking_id b) (court b) (time_slot b) (on_date b)
            (Some (user_pk u)) st (created_at b) (updated_at b)).
  unfold Booking_save, Model_save. cbn [booking_id].
  rewrite decide_False.
  - rewrite decide_True; [done|]. apply list_elem_of_fmap. by exists b.
  - unfold breaks_unique. intros (x & Hx & Htx & Hne)%Exists_exists.
    apply Hne. cbn in Htx.
    assert (x ∈ filter (λ x, triple x = (cid, ts_id slot, Some d)) (bookings db)) as Hxf.
    { apply list_elem_of_filter. split; [|done]. rewrite Htx. exact Htr. }
    rewrite Hf in Hxf. apply list_elem_of_singleton in Hxf. by subst x.
Qed.

(** Lines 151-171 when no row has the triple: the row to create is built
    from the keywords without [__], so without court and time slot, and
    [Booking.save] stops at [self.court]. *)
Lemma reconcile_create now u st d slot cid c db :
  st ≠ "available" →
  filter (λ x, triple x = (cid, ts_id slot, Some d)) (bookings db) = [] →
  reconcile now u st d slot cid c db = (db, inl RelatedObjectDoesNotExist).
Proof.
  intros Hst Hf. unfold reconcile. rewrite decide_False by done.
  unfold Booking_update_or_create, bind, try_except, query, lift, ret.
  destruct (filter_matches cid (ts_id slot) d (bookings db)) as [-> _].
  rewrite Hf. reflexivity.
Qed.

Lemma reconcile_many now u st d slot cid c db b b' l :
  st ≠ "available" →
  filter (λ x, triple x = (cid, ts_id slot, Some d)) (bookings db) = b :: b' :: l →
  reconcile now u st d slot cid c db = (db, inl MultipleObjectsReturned).
Proof.
  intros Hst Hf. unfold reconcile. rewrite decide_False by done.
  unfold Booking_update_or_create, bind, try_except, query, lift, ret.
  destruct (filter_matches cid (ts_id slot) d (bookings db)) as [-> _].
  rewrite Hf. reflexivity.
Qed.

(** What the first [try] found, when it found something. *)
Lemma resolve_inv court_id time_slot_id db db' slot cid c :
  resolve court_id time_slot_id db = (db', inr (slot, cid, c)) →
  db' = db
  ∧ (∃ k, int time_slot_id = inr k
          ∧ index (order_by_hour (time_slots db)) (k - 1) = inr slot)
  ∧ ObjectId_of court_id = inr cid
  ∧ c ∈ courts db ∧ c_id c = cid.
Proof.
  unfold resolve, bind, lift, query, ret.
  destruct (int _) as [|k] eqn:Hk; [done|].
  destruct (index _ _) as [|slot'] eqn:Hslot; [done|].
  destruct (ObjectId_of _) as [|cid'] eqn:Hcid; [done|].
  destruct (get _) as [|c'] eqn:Hget; [done|].
  intros [= <- <- <- <-]. apply get_elem in Hget.
  assert (c' ∈ filter (λ c, c_id c = cid') (courts db)) as Hin by (rewrite Hget; left).
  apply list_elem_of_filter in Hin as [? ?]. repeat split; try done. by exists k.
Qed.


(** What a successful [update_booking_api] did. *)
Lemma update_booking_api_Ok now request db db' s :
  update_booking_api now request db = (db', Ok s) →
  ∃ u st ds d slot cid c,
    p_user request = Some u
    ∧ p_status request = JStr st ∧ st ∈ valid_statuses
    ∧ default (JStr (isoformat (dt_date now))) (p_date request) = JStr ds
    ∧ fromisoformat ds = Some d
    ∧ resolve (p_courtId request) (p_timeSlotId request) db = (db, inr (slot, cid, c))
    ∧ reconcile now u st d slot cid c db = (db', inr s).
Proof.
  unfold update_booking_api.
  destruct (p_user request) as [u|]; [|done].
  destruct (negb _); [done|].
  destruct (p_status request) as [| | |st]; try done.
  destruct (decide (st ∈ valid_statuses)) as [Hst|]; [|done].
  destruct (default _ _) as [| | |ds]; try done.
  destruct (fromisoformat ds) as [d|] eqn:Hd; [|done].
  pose proof (resolve_pure (p_courtId request) (p_timeSlotId request) db) as Hpure.
  destruct (resolve _ _ db) as [db1 [e|[[slot cid] c]]]; simpl in Hpure; subst db1;
    [done|].
  destruct (reconcile _ _ _ _ _ _ _ db) as [db2 [e|s']] eqn:Hrec; [done|].
  intros [= <- <-]. exists u, st, ds, d, slot, cid, c. by repeat split.
Qed.

End Reconciler.

(** ** Properties of the write path *)

Section WritePath.

Implicit Types (db : DB) (b : Booking) (c : Court) (slot : TimeSlot).

Lemma filter_all {A} (P : A → Prop) `{∀ x, Decision (P x)} (l : list A) :
  Forall P l → filter P l = l.
Proof.
  induction 1 as [|a l Ha _ IH]; [done|].
  by rewrite filter_cons, decide_True, IH.
Qed.




(** The claim C3 as it stands fails in its last clause: "available" is
    not always the absence of a row.  [Booking.save] of a booking whose
    status is "available" (one of [BookingStatus.choices]) stores the row,
    in a state the operations lead to. *)
Lemma available_row_is_reachable :
  reachable
    (Booking_save Demo.now
       (New (mkNew (Some 17%N) (Some 100%N) (Some (Date 2024 1 1)) (Some 5%Z)
               "available")) Demo.seeded_db).1
  ∧ bookings
      (Booking_save Demo.now
         (New (mkNew (Some 17%N) (Some 100%N) (Some (Date 2024 1 1)) (Some 5%Z)
                 "available")) Demo.seeded_db).1
    = [Demo.booking 116 17 100 "available"].
Proof.
  split; [|vm_compute; reflexivity].
  apply reach_save; [by apply reach_init|exact I].
Qed.

(** C3, amended: in every state the operations lead to, no two booking
    rows share their (court, time_slot, date); a call of the reconciler
    and a call of [Booking.save] keep it so.  It is the reconciler that
    encodes "available" as the absence of a row: after a call that
    succeeds, on the court and slot it resolved and the date of the
    request, the triple has no row when the status of the request is
    "available" and a row with that status otherwise, and every row with
    status "available" in the new store was in the old one. *)
Theorem one_booking_per_triple db :
  reachable db →
  NoDup (triple <$> bookings db)
  ∧ (∀ now request, NoDup (triple <$> bookings (update_booking_api now request db).1))
  ∧ (∀ now self, issued self db →
       NoDup (triple <$> bookings (Booking_save now self db).1))
  ∧ (∀ now request db' s,
       update_booking_api now request db = (db', Ok s) →
       ∃ ds d slot cid c,
         default (JStr (isoformat (dt_date now))) (p_date request) = JStr ds
         ∧ fromisoformat ds = Some d
         ∧ p_status request = JStr (r_status s)
         ∧ resolve (p_courtId request) (p_timeSlotId request) db = (db, inr (slot, cid, c))
         ∧ (r_status s = "available" →
            ∀ b, b ∈ bookings db' → triple b ≠ (cid, ts_id slot, Some d))
         ∧ (r_status s ≠ "available" →
            ∃ b, b ∈ bookings db' ∧ triple b = (cid, ts_id slot, Some d)
                 ∧ status b = r_status s)
         ∧ (∀ b, b ∈ bookings db' → status b = "available" → b ∈ bookings db)).
Proof.
  intros Hreach. pose proof (reachable_store_ok db Hreach) as Hok.
  split; [apply Hok|]. split; [|split].
  - intros now request. apply (update_booking_api_ok now request db Hok).
  - intros now self Hiss.
    pose proof (Booking_save_ok now self db (conj Hok Hiss)) as Hs.
    destruct (Booking_save now self db) as [db' [e|r]]; apply Hs.
  - intros now request db' s
      (u & st & ds & d & slot & cid & c & _ & Hst' & _ & Hds & Hd & Hres & Hrec)%update_booking_api_Ok.
    exists ds, d, slot, cid, c. split; [done|]. split; [done|].
    destruct (decide (st = "available")) as [->|Hst].
    + rewrite reconcile_available in Hrec. injection Hrec as <- <-. simpl.
      split; [done|]. split; [done|]. split_and!.
      * intros _ b Hb. by apply list_elem_of_filter in Hb as [? _].
      * done.
      * intros b Hb _. by apply list_elem_of_filter in Hb as [_ ?].
    + destruct (filter (λ x, triple x = (cid, ts_id slot, Some d)) (bookings db))
        as [|b0 [|b1 l]] eqn:Hf.
      * by rewrite reconcile_create in Hrec.
      * rewrite (reconcile_update now u st d slot cid c db b0) in Hrec by done.
        injection Hrec as <- <-. simpl.
        split; [done|]. split; [done|]. split_and!.
        -- done.
        -- intros _.
           assert (b0 ∈ bookings db ∧ triple b0 = (cid, ts_id slot, Some d))
             as [Hin Htr].
           { assert (b0 ∈ filter (λ x, triple x = (cid, ts_id slot, Some d))
                            (bookings db))
               as Hb by (rewrite Hf; left).
             by apply list_elem_of_filter in Hb as [? ?]. }
           exists (updated_row now u st b0). split; [|done].
           apply list_elem_of_fmap. exists b0. by rewrite decide_True.
        -- intros b (x & -> & Hx)%list_elem_of_fmap.
           destruct (decide (booking_id x = booking_id b0)); [|done].
           simpl. intros Hav. by destruct Hst.
      * by rewrite (reconcile_many now u st d slot cid c db b0 b1 l) in Hrec.
Qed.

Lemma demo_reachable : reachable Demo.booked_db.
Proof.
  pose proof (reach_init Demo.seeded_db eq_refl) as H0.
  pose proof (reach_save Demo.now
                (New (mkNew (Some 17%N) (Some 100%N) (Some (Date 2024 1 1))
                        (Some 5%Z) "booked")) _ H0 I) as H1.
  pose proof (reach_save Demo.now
                (New (mkNew (Some 17%N) (Some 115%N) (Some (Date 2024 1 1))
                        (Some 5%Z) "reserved")) _ H1 I) as H2.
  exact H2.
Qed.

Lemma one_booking_per_triple_witness :
  NoDup (triple <$> bookings Demo.booked_db)
  ∧ NoDup (triple <$> bookings
             (update_booking_api Demo.now (Demo.post (JStr "16") "booked")
                Demo.booked_db).1)
  ∧ filter (λ b, triple b = (17%N, 115%N, Some (Date 2024 1 1)))
      (bookings (update_booking_api Demo.now (Demo.post (JStr "16") "available")
                   Demo.booked_db).1)
    = []
  ∧ filter (λ b, triple b = (17%N, 115%N, Some (Date 2024 1 1)))
      (bookings Demo.booked_db)
    = [Demo.booking 117 17 115 "reserved"].
Proof.
  destruct (one_booking_per_triple Demo.booked_db demo_reachable) as (H1 & H2 & _ & H4).
  split; [exact H1|]. split; [apply H2|]. split; [|vm_compute; reflexivity].
  destruct (update_booking_api Demo.now (Demo.post (JStr "16") "available")
              Demo.booked_db) as [db' resp] eqn:Hrun.
  assert (∃ s, resp = Ok s ∧ r_status s = "available") as (s & -> & Hs).
  { vm_compute in Hrun. injection Hrun as _ <-. by eexists. }
  destruct (H4 Demo.now (Demo.post (JStr "16") "available") db' s Hrun)
    as (ds & d & slot & cid & c & Hds & Hd & _ & Hres & Hav & _).
  injection Hds as <-.
  assert (d = Date 2024 1 1) as -> by (vm_compute in Hd; congruence).
  assert (slot = mkTimeSlot 115 22 ∧ cid = 17%N) as [-> ->]
    by (vm_compute in Hres; split; congruence).
  apply filter_none. intros b Hb. by apply (Hav Hs).
Defined.

End WritePath.

(** ** Where the write path leaves its description *)

Section Divergences.

Implicit Types (db : DB) (b : Booking) (c : Court) (slot : TimeSlot).

(** A request that is through the checks of lines 106-121 and fails in
    the first [try] gets the 400 of line 132 and leaves the store alone. *)
Lemma update_booking_api_rejects now request db u st ds d e :
  p_user request = Some u →
  truthy (p_courtId request) = true → truthy (p_timeSlotId request) = true →
  p_status request = JStr st → st ∈ valid_statuses →
  default (JStr (isoformat (dt_date now))) (p_date request) = JStr ds →
  fromisoformat ds = Some d →
  (resolve (p_courtId request) (p_timeSlotId request) db).2 = inl e →
  update_booking_api now request db = (db, Err 400 (InvalidCourtOrTimeSlot e)).
Proof.
  intros Hu Hc Ht Hs Hst Hds Hd Hres. unfold update_booking_api.
  rewrite Hu, Hc, Ht, Hs, Hds, Hd. simpl.
  assert (negb (bool_decide (st = "")) = true) as ->.
  { apply negb_true_iff, bool_decide_eq_false_2. intros ->.
    by repeat (apply elem_of_cons in Hst as [?|Hst]; [done|]);
      apply elem_of_nil in Hst. }
  simpl. rewrite decide_True by done.
  pose proof (resolve_pure (p_courtId request) (p_timeSlotId request) db) as Hp.
  destruct (resolve _ _ db) as [db1 r]; simpl in *. by subst.
Qed.

(** A slot id that [int] refuses stops the first [try]. *)
Lemma resolve_not_an_integer court_id time_slot_id db e :
  int time_slot_id = inl e → (resolve court_id time_slot_id db).2 = inl e.
Proof. intros H. unfold resolve, bind, lift. by rewrite H. Qed.

Lemma index_out_of_range {A} (l : list A) (k : Z) :
  (Z.of_nat (length l) ≤ k ∨ k < - Z.of_nat (length l))%Z →
  index l k = inl IndexError.
Proof.
  intros Hk. unfold index. cbv zeta.
  destruct (Z.leb_spec 0 k) as [Hpos|Hneg].
  - rewrite (proj2 (Z.leb_le 0 k)) by done.
    rewrite lookup_ge_None_2; [done|]. lia.
  - rewrite (proj2 (Z.leb_gt 0 _)); [done|]. lia.
Qed.

(** So does an index above the number of slots, or at most its opposite. *)
Lemma resolve_out_of_range court_id time_slot_id db k :
  int time_slot_id = inr k →
  (Z.of_nat (length (time_slots db)) < k ∨ k ≤ - Z.of_nat (length (time_slots db)))%Z →
  (resolve court_id time_slot_id db).2 = inl IndexError.
Proof.
  intros H Hk. unfold resolve, bind, lift, query. rewrite H.
  assert (length (order_by_hour (time_slots db)) = length (time_slots db)) as Hlen
    by apply Permutation_length, order_by_hour_Permutation.
  rewrite index_out_of_range; [done|]. rewrite Hlen. lia.
Qed.

(** An index [k] in [1 - N .. 0] is not refused: line 127 reads
    [list(time_slots)[k - 1]] from the end of the list. *)
Lemma index_from_the_end {A} (l : list A) (k : Z) :
  (- Z.of_nat (length l) < k ≤ 0)%Z →
  ∃ x, l !! Z.to_nat (Z.of_nat (length l) + (k - 1)) = Some x
       ∧ index l (k - 1) = inr x.
Proof.
  intros Hk.
  destruct (lookup_lt_is_Some_2 l (Z.to_nat (Z.of_nat (length l) + (k - 1))))
    as [x Hx]; [lia|].
  exists x. split; [done|]. unfold index. cbv zeta.
  rewrite (proj2 (Z.leb_gt 0 (k - 1))) by lia.
  rewrite (proj2 (Z.leb_le 0 _)) by lia.
  by rewrite Hx.
Qed.

(** C2, at the input where the code leaves the claim: the slot id "0"
    passes [int], line 127 reads [list(time_slots)[-1]], and the request
    is carried out on the last slot (10:00 PM) instead of being refused:
    the booking there is deleted. *)
Theorem slot_index_zero_is_last_slot :
  update_booking_api Demo.now (Demo.post (JStr "0") "available") Demo.booked_db
  = (set_bookings [Demo.booking 116 17 100 "booked"] 118 Demo.seeded_db,
     Ok (mkSummary None "Court 1" "10:00 PM" "2024-01-01" "available" "alice"
           "deleted")).
Proof. vm_compute. reflexivity. Qed.

(** The number 0, in place of the string, does not reach line 125: [all]
    takes it for a missing field. *)
Lemma slot_index_number_zero_is_missing :
  update_booking_api Demo.now (Demo.post (JInt 0) "available") Demo.booked_db
  = (Demo.booked_db, Err 400 MissingRequiredFields).
Proof. reflexivity. Qed.

(** C4, at the input where the code leaves the claim: a valid request for
    a triple without a row.  [update_or_create] builds the row from the
    keywords without [__] ([date]) and the defaults ([status], [user]),
    [Booking.save] reads [self.court] of it, and the view answers 500;
    nothing is created. *)
Theorem upsert_without_row_fails :
  update_booking_api Demo.now (Demo.post (JStr "1") "booked") Demo.seeded_db
  = (Demo.seeded_db, Err 500 (FailedToUpdateBooking RelatedObjectDoesNotExist)).
Proof. vm_compute. reflexivity. Qed.

(** The same for every valid request on a triple without a row. *)
Lemma upsert_create_path now request db u st ds d slot cid c :
  p_user request = Some u →
  truthy (p_courtId request) = true → truthy (p_timeSlotId request) = true →
  p_status request = JStr st → st ∈ valid_statuses → st ≠ "available" →
  default (JStr (isoformat (dt_date now))) (p_date request) = JStr ds →
  fromisoformat ds = Some d →
  resolve (p_courtId request) (p_timeSlotId request) db = (db, inr (slot, cid, c)) →
  (∀ b, b ∈ bookings db → triple b ≠ (cid, ts_id slot, Some d)) →
  update_booking_api now request db
  = (db, Err 500 (FailedToUpdateBooking RelatedObjectDoesNotExist)).
Proof.
  intros Hu Hc Ht Hs Hst Hna Hds Hd Hres Hnone.
  rewrite (update_booking_api_run now request db u st ds d slot cid c) by done.
  rewrite reconcile_create; [done|done|]. by apply filter_none.
Qed.

(** The other half of the upsert holds: the one row of the triple keeps
    its key, court, time slot, date and [created_at], takes the status and
    the user of the request and the time of the call as [updated_at], and
    the action is "updated". *)
Lemma upsert_update_path now request db u st ds d slot cid c b :
  p_user request = Some u →
  truthy (p_courtId request) = true → truthy (p_timeSlotId request) = true →
  p_status request = JStr st → st ∈ valid_statuses → st ≠ "available" →
  default (JStr (isoformat (dt_date now))) (p_date request) = JStr ds →
  fromisoformat ds = Some d →
  resolve (p_courtId request) (p_timeSlotId request) db = (db, inr (slot, cid, c)) →
  filter (λ x, triple x = (cid, ts_id slot, Some d)) (bookings db) = [b] →
  update_booking_api now request db
  = (set_bookings
       ((λ x, if decide (booking_id x = booking_id b) then updated_row now u st b else x)
          <$> bookings db) (next_id db) db,
     Ok (mkSummary (Some (str_oid (booking_id b))) (c_name c) (formatted_slot slot)
           (isoformat d) st (username u) "updated")).
Proof.
  intros Hu Hc Ht Hs Hst Hna Hds Hd Hres Hone.
  rewrite (update_booking_api_run now request db u st ds d slot cid c) by done.
  by rewrite (reconcile_update now u st d slot cid c db b).
Qed.

End Divergences.

(** ** More of the write path: what a refused request leaves behind *)

Section Refusals.

Implicit Types (db : DB) (b : Booking) (c : Court) (slot : TimeSlot).

Lemma Model_save_refused now r db db' e :
  Model_save now r db = (db', inl e) → db' = db.
Proof.
  unfold Model_save. destruct (decide (breaks_unique _ _)); [congruence|].
  destruct (decide (_ ∈ _)); congruence.
Qed.

Lemma Model_insert_refused now (cid t : ObjectId) i db db' e :
  Model_insert now cid t i db = (db', inl e) → db' = db.
Proof.
  unfold Model_insert. cbv zeta.
  destruct (decide (breaks_unique _ _)); congruence.
Qed.

Lemma Booking_save_refused now self db db' e :
  Booking_save now self db = (db', inl e) → db' = db.
Proof.
  destruct self as [i|r]; simpl; [|apply Model_save_refused].
  unfold related, bind, ret, raise, query.
  destruct (n_court i); [|congruence]. destruct (n_time_slot i); [|congruence].
  destruct (first_by _ _).
  - destruct (n_user i); [apply Model_save_refused|congruence].
  - apply Model_insert_refused.
Qed.

Lemma Booking_save_hoare_refused now self db0 :
  hoare (λ db, db = db0) (Booking_save now self) (λ _ _, True) (λ _ db, db = db0).
Proof.
  intros db ->. destruct (Booking_save now self db0) as [db' [e|r]] eqn:Hs; [|done].
  by eapply Booking_save_refused.
Qed.

Lemma Booking_update_or_create_refused now defaults kw db db' e :
  Booking_update_or_create now defaults kw db = (db', inl e) → db' = db.
Proof.
  intros Hrun.
  assert (hoare (λ x, x = db) (Booking_update_or_create now defaults kw)
            (λ _ _, True) (λ _ x, x = db)) as Hh.
  { unfold Booking_update_or_create.
    apply hoare_bind with (R := λ found x, found.2 = false → x = db).
    - apply hoare_try with (E' := λ _ x, x = db).
      + apply hoare_bind with (R := λ _ x, x = db).
        * apply hoare_bind with (R := λ _ x, x = db); [by apply hoare_query|].
          intros rows. apply hoare_lift. intros x ->. by destruct (get _).
        * intros obj. by apply hoare_ret.
      + intros e0. destruct e0; try by apply hoare_raise.
        apply hoare_try with (E' := λ _ x, x = db).
        * apply hoare_bind with (R := λ _ _, True).
          -- apply Booking_save_hoare_refused.
          -- intros obj. by apply hoare_ret.
        * intros e1. destruct e1; try by apply hoare_raise.
          apply hoare_try with (E' := λ _ x, x = db).
          -- apply hoare_bind with (R := λ _ x, x = db).
             ++ apply hoare_bind with (R := λ _ x, x = db); [by apply hoare_query|].
                intros rows. apply hoare_lift. intros x ->. by destruct (get _).
             ++ intros obj. by apply hoare_ret.
          -- intros e2. destruct e2; by apply hoare_raise.
    - intros [obj created]. simpl. destruct created; [by apply hoare_ret|].
      apply hoare_bind with (R := λ _ _, True); [|intros r; by apply hoare_ret].
      eapply hoare_weaken;
        [apply (Booking_save_hoare_refused now
                  (Loaded (foldl setattr_row obj defaults)) db)| |done|done].
      intros x Hx. by apply Hx. }
  specialize (Hh db eq_refl). by rewrite Hrun in Hh.
Qed.

Lemma reconcile_refused now u st d slot cid c db db' e :
  reconcile now u st d slot cid c db = (db', inl e) → db' = db.
Proof.
  unfold reconcile, bind, ret. destruct (decide (st = "available")).
  - unfold Booking_delete. congruence.
  - destruct (Booking_update_or_create _ _ _ db) as [db1 [e1|res]] eqn:Hrun;
      [|congruence].
    intros [= <- _]. by eapply Booking_update_or_create_refused.
Qed.

(** X1: [update_booking_api] writes only when it answers with success:
    whatever the request, an answer that is not the 200 leaves the whole
    store as it was. *)
Theorem update_booking_api_writes_only_on_success now request db :
  match (update_booking_api now request db).2 with
  | Ok _ => True
  | _ => (update_booking_api now request db).1 = db
  end.
Proof.
  unfold update_booking_api.
  destruct (p_user request) as [u|]; [|done].
  destruct (negb _); [done|].
  destruct (p_status request) as [| | |st]; try done.
  destruct (decide (st ∈ valid_statuses)) as [Hst|]; [|done].
  destruct (default _ _) as [| | |ds]; try done.
  destruct (fromisoformat ds) as [d|]; [|done].
  pose proof (resolve_pure (p_courtId request) (p_timeSlotId request) db) as Hpure.
  destruct (resolve _ _ db) as [db1 [e|[[slot cid] c]]]; simpl in Hpure; subst db1;
    [done|].
  destruct (reconcile _ _ _ _ _ _ _ db) as [db2 [e|s]] eqn:Hrec; [|done].
  simpl. by eapply reconcile_refused.
Qed.

(** X2: the checks of [update_booking_api] come in a fixed order, each
    before anything later is looked at: a missing (or falsy) courtId,
    timeSlotId or status is "Missing required fields" whatever the rest
    is; then a status outside the four choices is "Invalid status"
    whatever date, slot and court are; then a date that does not parse is
    "Invalid date format" whatever slot and court are. *)
Theorem update_booking_api_check_order now request db u :
  p_user request = Some u →
  (truthy (p_courtId request) && truthy (p_timeSlotId request)
     && truthy (p_status request) = false →
   update_booking_api now request db = (db, Err 400 MissingRequiredFields))
  ∧ (truthy (p_courtId request) && truthy (p_timeSlotId request)
       && truthy (p_status request) = true →
     (∀ st, p_status request = JStr st → st ∉ valid_statuses) →
     update_booking_api now request db = (db, Err 400 InvalidStatus))
  ∧ (truthy (p_courtId request) && truthy (p_timeSlotId request)
       && truthy (p_status request) = true →
     ∀ st ds, p_status request = JStr st → st ∈ valid_statuses →
              default (JStr (isoformat (dt_date now))) (p_date request) = JStr ds →
              fromisoformat ds = None →
              update_booking_api now request db = (db, Err 400 InvalidDateFormat)).
Proof.
  intros Hu. unfold update_booking_api. rewrite Hu. repeat split.
  - intros ->. done.
  - intros -> Hbad. simpl. destruct (p_status request) as [| | |st]; try done.
    rewrite decide_False; [done|]. by apply Hbad.
  - intros -> st ds -> Hst -> Hd. simpl. rewrite decide_True by done. by rewrite Hd.
Qed.

Lemma update_booking_api_check_order_witness :
  update_booking_api Demo.now
    (mkPost (Some Demo.alice) (JStr "no such court") (JStr "99") (JStr "not_a_status")
       (Some (JStr "tomorrow"))) Demo.booked_db
  = (Demo.booked_db, Err 400 InvalidStatus).
Proof.
  refine (proj1 (proj2 (update_booking_api_check_order Demo.now
                          (mkPost (Some Demo.alice) (JStr "no such court") (JStr "99")
                             (JStr "not_a_status") (Some (JStr "tomorrow")))
                          Demo.booked_db Demo.alice eq_refl)) eq_refl _).
  intros st [= <-]. vm_compute. intros H.
  repeat (apply elem_of_cons in H as [H|H]; [discriminate H|]).
  by apply elem_of_nil in H.
Defined.

(** X3: which slot index resolves, and to what.  With N time slots and a
    timeSlotId that [int] reads as [k]: 1..N is the slot at position
    k - 1 of the hour order; 1-N..0 is read from the end of the list, the
    slot at position N + k - 1; every other [k] stops the first [try] with
    [IndexError].  The hour order is the table sorted by hour: the same
    rows, the hours ascending. *)
Theorem slot_index_resolution court_id time_slot_id db k :
  int time_slot_id = inr k →
  hour_order (time_slots db) (order_by_hour (time_slots db))
  ∧ (∀ cid c,
     ObjectId_of court_id = inr cid →
     filter (λ x, c_id x = cid) (courts db) = [c] →
     ((1 ≤ k ≤ Z.of_nat (length (time_slots db)))%Z →
      ∃ slot, order_by_hour (time_slots db) !! Z.to_nat (k - 1) = Some slot
              ∧ resolve court_id time_slot_id db = (db, inr (slot, cid, c)))
     ∧ ((- Z.of_nat (length (time_slots db)) < k ≤ 0)%Z →
        ∃ slot, order_by_hour (time_slots db)
                  !! Z.to_nat (Z.of_nat (length (time_slots db)) + (k - 1)) = Some slot
                ∧ resolve court_id time_slot_id db = (db, inr (slot, cid, c))))
  ∧ ((Z.of_nat (length (time_slots db)) < k ∨ k ≤ - Z.of_nat (length (time_slots db)))%Z →
     resolve court_id time_slot_id db = (db, inl IndexError)).
Proof.
  intros Hk.
  assert (length (order_by_hour (time_slots db)) = length (time_slots db)) as Hlen
    by apply Permutation_length, order_by_hour_Permutation.
  split; [apply order_by_hour_hour_order|]. split.
  - intros cid c Hcid Hc. split.
    + intros Hr.
      destruct (lookup_lt_is_Some_2 (order_by_hour (time_slots db)) (Z.to_nat (k - 1)))
        as [slot Hslot]; [lia|].
      exists slot. split; [done|].
      unfold resolve, bind, lift, query, ret. rewrite Hk.
      unfold index. cbv zeta. rewrite (proj2 (Z.leb_le 0 (k - 1))) by lia.
      rewrite (proj2 (Z.leb_le 0 (k - 1))) by lia.
      by rewrite Hslot, Hcid, Hc.
    + intros Hr. rewrite <- Hlen in Hr.
      destruct (index_from_the_end (order_by_hour (time_slots db)) k Hr)
        as (slot & Hslot & Hidx).
      rewrite Hlen in Hslot. exists slot. split; [done|].
      unfold resolve, bind, lift, query, ret. by rewrite Hk, Hidx, Hcid, Hc.
  - intros Hout.
    pose proof (resolve_pure court_id time_slot_id db) as Hp.
    pose proof (resolve_out_of_range court_id time_slot_id db k Hk Hout) as Hr.
    destruct (resolve _ _ db) as [x y]; simpl in *. by subst.
Qed.

Lemma slot_index_resolution_witness :
  resolve (JStr Demo.court1) (JStr "16") Demo.booked_db
  = (Demo.booked_db, inr (mkTimeSlot 115 22, 17%N, mkCourt 17 "badminton" "Court 1"))
  ∧ resolve (JStr Demo.court1) (JStr "17") Demo.booked_db
    = (Demo.booked_db, inl IndexError).
Proof.
  destruct (slot_index_resolution (JStr Demo.court1) (JStr "16") Demo.booked_db 16
              eq_refl) as (_ & Hin & _).
  destruct (Hin 17%N (mkCourt 17 "badminton" "Court 1") eq_refl eq_refl) as [H1 _].
  destruct (H1 ltac:(vm_compute; split; discriminate)) as (slot & Hslot & Hres).
  destruct (slot_index_resolution (JStr Demo.court1) (JStr "17") Demo.booked_db 17
              eq_refl) as (_ & _ & Hout).
  split; [|apply Hout; left; vm_compute; reflexivity].
  vm_compute in Hslot. injection Hslot as <-. exact Hres.
Defined.

End Refusals.

(** ** What the grid hands out is what the write path takes back *)

Section RoundTrips.

Implicit Types (db : DB) (c : Court) (slot : TimeSlot).

Lemma hex_of_hex_char d : (d < 16)%N → hex_of (hex_char d) = Some d.
Proof.
  intros Hd.
  assert (d ∈ [0; 1; 2; 3; 4; 5; 6; 7; 8; 9; 10; 11; 12; 13; 14; 15]%N) as Hin.
  { assert (d = N.of_nat (N.to_nat d)) as -> by lia.
    assert (N.to_nat d < 16) as Hlt by lia. revert Hlt. generalize (N.to_nat d).
    intros n Hn. do 16 (destruct n as [|n]; [set_solver|]). lia. }
  repeat (apply elem_of_cons in Hin as [->|Hin]; [reflexivity|]).
  by apply elem_of_nil in Hin.
Qed.

Lemma hex_digits_length n x acc :
  String.length (hex_digits n x acc) = n + String.length acc.
Proof.
  revert x acc. induction n as [|n IH]; intros x acc; simpl; [done|].
  rewrite IH. simpl. lia.
Qed.

Lemma hex_val_hex_digits n x acc a :
  hex_val a (hex_digits n x acc) = hex_val (a * 16 ^ N.of_nat n + x mod 16 ^ N.of_nat n) acc.
Proof.
  revert x acc a. induction n as [|n IH]; intros x acc a.
  - simpl. rewrite N.mod_1_r. f_equal. lia.
  - cbn [hex_digits]. rewrite IH. cbn [hex_val].
    rewrite hex_of_hex_char by (apply N.mod_lt; lia). f_equal.
    rewrite Nat2N.inj_succ, N.pow_succ_r'.
    rewrite (N.Div0.mod_mul_r x 16 (16 ^ N.of_nat n)). lia.
Qed.

(** The text of an object id reads back as that id: for a key of 96
    bits, [ObjectId(str(oid))] is [oid]. *)
Lemma ObjectId_of_str_oid (x : ObjectId) :
  (x < 2 ^ 96)%N → ObjectId_of (JStr (str_oid x)) = inr x.
Proof.
  intros Hx. unfold ObjectId_of, str_oid.
  rewrite bool_decide_eq_true_2 by (by rewrite hex_digits_length).
  rewrite hex_val_hex_digits. cbn [hex_val].
  rewrite N.mul_0_l, N.add_0_l, N.mod_small; [done|].
  change (16 ^ N.of_nat 24)%N with (2 ^ 96)%N. done.
Qed.

Lemma digit_of_pretty_N_char m :
  (m < 10)%N →
  digit_of (pretty_N_char m) = Some (Z.of_N m)
  ∧ bool_decide (pretty_N_char m = "_"%char) = false.
Proof.
  intros Hm.
  assert (m ∈ [0; 1; 2; 3; 4; 5; 6; 7; 8; 9]%N) as Hin.
  { assert (m = N.of_nat (N.to_nat m)) as -> by lia.
    assert (N.to_nat m < 10) as Hlt by lia. revert Hlt. generalize (N.to_nat m).
    intros n Hn. do 10 (destruct n as [|n]; [set_solver|]). lia. }
  repeat (apply elem_of_cons in Hin as [->|Hin]; [by split|]).
  by apply elem_of_nil in Hin.
Qed.

Lemma pretty_N_go_digits x s : all_digits s = true → all_digits (pretty_N_go x s) = true.
Proof.
  revert s. induction (N.lt_wf_0 x) as [x _ IH]; intros s Hs.
  destruct (decide (x = 0)%N) as [->|Hx]; [by rewrite pretty_N_go_0|].
  rewrite pretty_N_go_step by lia. apply IH.
  - apply N.div_lt; lia.
  - simpl. destruct (digit_of_pretty_N_char (x mod 10)) as [-> _]; [|done].
    apply N.mod_lt. lia.
Qed.

Lemma digits_val_pretty_N_go x s b :
  (0 < x)%N → digits_val 0 b (pretty_N_go x s) = digits_val (Z.of_N x) true s.
Proof.
  revert s b. induction (N.lt_wf_0 x) as [x _ IH]; intros s b Hx.
  rewrite pretty_N_go_step by done.
  destruct (digit_of_pretty_N_char (x mod 10)) as [Hd Hu]; [apply N.mod_lt; lia|].
  assert (Z.of_N x = 10 * Z.of_N (x `div` 10) + Z.of_N (x `mod` 10))%Z as Hsplit.
  { change 10%Z with (Z.of_N 10). rewrite <- N2Z.inj_mul, <- N2Z.inj_add.
    f_equal. by apply N.div_mod. }
  destruct (decide (x `div` 10 = 0)%N) as [Hz|Hnz].
  - rewrite Hz, pretty_N_go_0. cbn [digits_val]. rewrite Hu, Hd. f_equal.
    rewrite Hsplit, Hz. reflexivity.
  - rewrite IH; [|apply N.div_lt; lia|by apply N.neq_0_lt_0].
    cbn [digits_val]. rewrite Hu, Hd. f_equal.
    rewrite Hsplit. reflexivity.
Qed.

Lemma rev_app_rev_app s1 s2 s3 :
  String.rev_app (String.rev_app s1 s2) s3 = String.rev_app s2 (s1 +:+ s3).
Proof.
  revert s2. induction s1 as [|a s1 IH]; intros s2; [done|].
  change (String.rev_app (String.rev_app s1 (String a s2)) s3
          = String.rev_app s2 (String a (s1 +:+ s3))).
  by rewrite IH.
Qed.

Lemma string_app_nil_r s : s +:+ "" = s.
Proof.
  induction s as [|a s IH]; [done|].
  change (String a (s +:+ "") = String a s). by rewrite IH.
Qed.

Lemma rev_rev s : String.rev (String.rev s) = s.
Proof. unfold String.rev. by rewrite rev_app_rev_app, string_app_nil_r. Qed.

Lemma rev_app_digits s1 s2 :
  all_digits s1 = true → all_digits s2 = true → all_digits (String.rev_app s1 s2) = true.
Proof.
  revert s2. induction s1 as [|a s1 IH]; intros s2 H1 H2; simpl in *; [done|].
  destruct (digit_of a) eqn:Ha; [|done]. apply IH; [done|]. simpl. by rewrite Ha.
Qed.

Lemma digit_not_space a z : digit_of a = Some z → is_space a = false.
Proof.
  unfold digit_of, is_space. destruct (_ && _) eqn:Hd; [|done]. intros _.
  apply andb_true_iff in Hd as [H1%Nat.leb_le H2%Nat.leb_le].
  apply orb_false_iff. split.
  - apply andb_false_iff. right. apply Nat.leb_gt. lia.
  - apply Nat.eqb_neq. lia.
Qed.

Lemma digits_ascii s : all_digits s = true → is_ascii_text s = true.
Proof.
  induction s as [|a s IH]; simpl; [done|].
  destruct (digit_of a) eqn:Ha; [|done]. intros Hs. rewrite (IH Hs), andb_true_r.
  unfold digit_of in Ha. destruct (_ && _) eqn:Hd; [|done].
  apply andb_true_iff in Hd as [_ H2%Nat.leb_le].
  apply N.ltb_lt. unfold nat_of_ascii in H2. lia.
Qed.

Lemma lstrip_digits s : all_digits s = true → lstrip s = s.
Proof.
  destruct s as [|a s]; simpl; [done|].
  destruct (digit_of a) eqn:Ha; [|done]. intros _.
  by rewrite (digit_not_space a z).
Qed.

Lemma strip_digits s : all_digits s = true → strip s = s.
Proof.
  intros Hs. unfold strip. rewrite (lstrip_digits s Hs).
  rewrite lstrip_digits; [apply rev_rev|]. by apply rev_app_digits.
Qed.

Lemma int_of_str_digits s :
  all_digits s = true → int_of_str s = digits_val 0 false s.
Proof.
  intros Hs. unfold int_of_str, long_from_string.
  rewrite (digits_ascii s Hs), (strip_digits s Hs).
  destruct s as [|a s]; [done|]. simpl in Hs.
  destruct (digit_of a) eqn:Ha; [|done].
  destruct a as [[] [] [] [] [] [] [] []]; try done.
Qed.

(** [int(str(i))] is [i]: the decimal text of a natural number, as the
    keys of the slot maps are written, reads back as that number. *)
Lemma int_of_str_nat (i : nat) : int (JStr (str_nat i)) = inr (Z.of_nat i).
Proof.
  unfold int, str_nat, pretty, pretty_nat, pretty, pretty_N.
  destruct (decide (N.of_nat i = 0)%N) as [Hz|Hnz].
  - assert (i = 0) as -> by lia. reflexivity.
  - rewrite int_of_str_digits by (by apply pretty_N_go_digits).
    rewrite digits_val_pretty_N_go by lia. cbn [digits_val]. f_equal. lia.
Qed.

(** X4: the ids of a grid are valid arguments of [update_booking_api], and
    mean what the grid shows: for a court of the grid and the entry of
    slot index [i], the court id and the entry id, sent back as courtId
    and timeSlotId, pass the first [try] and resolve to that court and to
    the slot whose time the entry carries.  The keys of the courts are
    taken distinct and of 96 bits. *)
Theorem grid_ids_resolve now request db db' grid :
  court_status_api now request db = (db', Ok grid) →
  NoDup (c_id <$> courts db') →
  (∀ c, c ∈ courts db' → (c_id c < 2 ^ 96)%N) →
  ∀ n c i slot,
    courts_of_sport (g_selectedSport grid) db' !! n = Some c →
    order_by_hour (time_slots db') !! i = Some slot →
    ∃ ci e,
      g_courts grid !! n = Some ci
      ∧ ci_slots ci !! str_nat (S i) = Some e
      ∧ s_time e = formatted_slot slot
      ∧ resolve (JStr (ci_id ci)) (JStr (s_id e)) db' = (db', inr (slot, c_id c, c)).
Proof.
  intros (d & _ & _ & _ & _ & _ & Hcourts)%court_status_api_Ok Hnd Hbits n c i slot Hn Hi.
  destruct (build_court_info_entry (order_by_hour (time_slots db'))
              (bookings_of_sport (g_selectedSport grid) d db') c i slot Hi)
    as (e & He & Hid & Htime & _).
  eexists _, e. split; [by rewrite Hcourts, list_lookup_fmap, Hn|].
  split; [done|]. split; [done|].
  assert (c ∈ courts db') as Hc.
  { apply list_elem_of_lookup_2 in Hn. by apply list_elem_of_filter in Hn as [_ ?]. }
  unfold resolve, bind, lift, query, ret. cbn [ci_id build_court_info].
  rewrite Hid, int_of_str_nat.
  assert (index (order_by_hour (time_slots db')) (Z.of_nat (S i) - 1) = inr slot) as ->.
  { unfold index. cbv zeta. rewrite (proj2 (Z.leb_le 0 (Z.of_nat (S i) - 1))) by lia.
    rewrite (proj2 (Z.leb_le 0 (Z.of_nat (S i) - 1))) by lia.
    replace (Z.to_nat (Z.of_nat (S i) - 1)) with i by lia. by rewrite Hi. }
  rewrite ObjectId_of_str_oid by (by apply Hbits).
  destruct (filter_key_present c_id (courts db') (c_id c) Hnd) as (c' & Hc' & Hk & ->).
  { apply list_elem_of_fmap. by exists c. }
  cbn [get]. do 3 f_equal. by apply (NoDup_fmap_eq c_id (courts db')).
Qed.

End RoundTrips.

Section RoundTripExamples.

Lemma grid_ids_resolve_witness :
  ∃ ci e,
    g_courts Demo.grid !! 0 = Some ci
    ∧ ci_slots ci !! "16" = Some e
    ∧ s_time e = "10:00 PM"
    ∧ resolve (JStr (ci_id ci)) (JStr (s_id e)) Demo.booked_db
      = (Demo.booked_db,
         inr (mkTimeSlot 115 22, 17%N, mkCourt 17 "badminton" "Court 1")).
Proof.
  apply (grid_ids_resolve Demo.now Demo.get_2024_01_01 Demo.booked_db Demo.booked_db
           Demo.grid ltac:(vm_compute; reflexivity)
           ltac:(apply (bool_decide_unpack _); vm_compute; exact I)
           ltac:(intros c Hc;
                 repeat (apply elem_of_cons in Hc as [->|Hc]; [reflexivity|]);
                 by apply elem_of_nil in Hc)
           0 (mkCourt 17 "badminton" "Court 1") 15 (mkTimeSlot 115 22)
           ltac:(vm_compute; reflexivity) ltac:(vm_compute; reflexivity)).
Defined.

End RoundTripExamples.

(** ** From a write to the next read *)

Section WriteThenRead.

Implicit Types (db : DB) (b : Booking) (c : Court) (slot : TimeSlot).

(** A row of the selected sport's court [c] on slot [i] and on the date of
    the grid shows its status in the grid, when keys and triples are
    distinct. *)
Lemma grid_shows_row now q db db' grid d n c i slot b :
  court_status_api now q db = (db', Ok grid) →
  fromisoformat (g_date grid) = Some d →
  NoDup (ts_id <$> time_slots db') →
  NoDup (triple <$> bookings db') →
  courts_of_sport (g_selectedSport grid) db' !! n = Some c →
  order_by_hour (time_slots db') !! i = Some slot →
  b ∈ bookings db' → triple b = (c_id c, ts_id slot, Some d) →
  ∃ ci e, g_courts grid !! n = Some ci
          ∧ ci_slots ci !! str_nat (S i) = Some e
          ∧ s_status e = status b.
Proof.
  intros (d' & _ & Hd' & _ & _ & _ & Hcourts)%court_status_api_Ok Hd Hids Huniq
    Hn Hi Hb Htr.
  assert (d' = d) as -> by congruence.
  set (slots := order_by_hour (time_slots db')) in *.
  set (bs := bookings_of_sport (g_selectedSport grid) d db') in *.
  injection Htr as Hc Ht Hdate.
  assert (b ∈ bs) as Hbs.
  { apply list_elem_of_filter. split; [|done]. repeat split; [|done|].
    - apply Exists_exists. exists c. split; [|split; [done|]].
      + apply list_elem_of_lookup_2 in Hn. by apply list_elem_of_filter in Hn as [_ ?].
      + apply list_elem_of_lookup_2 in Hn. by apply list_elem_of_filter in Hn as [? _].
    - apply Exists_exists. exists slot. split; [|done].
      apply list_elem_of_lookup_2 in Hi. unfold slots in Hi.
      by rewrite order_by_hour_Permutation in Hi. }
  assert (NoDup (ts_id <$> slots)) as Hids'.
  { unfold slots. by rewrite order_by_hour_Permutation. }
  destruct (build_court_info_booked slots bs c i slot b Hids' Hi Hbs Hc Ht)
    as (e & b' & He & Hb' & Hc' & Ht' & Hs').
  eexists _, e. split; [by rewrite Hcourts, list_lookup_fmap, Hn|]. split; [done|].
  rewrite Hs'. f_equal.
  apply list_elem_of_filter in Hb' as [(_ & Hdate' & _) Hb'].
  apply (NoDup_fmap_eq triple (bookings db')); try done.
  unfold triple. congruence.
Qed.

Lemma resolve_needs_slots court_id time_slot_id db db' slot cid c :
  resolve court_id time_slot_id db = (db', inr (slot, cid, c)) → time_slots db ≠ [].
Proof.
  intros (_ & (k & _ & Hidx) & _)%resolve_inv Hnil.
  rewrite Hnil, index_out_of_range in Hidx; [done|]. simpl. lia.
Qed.

(** X5: a status set through [update_booking_api] on a triple that has
    its row is what the next [court_status_api] shows: after the
    successful call with a status other than "available", the grid of the
    court's sport for that date has that status at the slot of that
    court. *)
Theorem update_then_grid now request db u st ds d slot cid c b :
  store_ok db →
  NoDup (ts_id <$> time_slots db) →
  p_user request = Some u →
  truthy (p_courtId request) = true → truthy (p_timeSlotId request) = true →
  p_status request = JStr st → st ∈ valid_statuses → st ≠ "available" →
  p_date request = Some (JStr ds) → fromisoformat ds = Some d →
  resolve (p_courtId request) (p_timeSlotId request) db = (db, inr (slot, cid, c)) →
  filter (λ x, triple x = (cid, ts_id slot, Some d)) (bookings db) = [b] →
  ∃ db1 s,
    update_booking_api now request db = (db1, Ok s)
    ∧ r_action s = "updated"
    ∧ ∀ now' q db2 grid n i,
        court_status_api now' q db1 = (db2, Ok grid) →
        g_date grid = ds → g_selectedSport grid = c_sport c →
        courts_of_sport (c_sport c) db2 !! n = Some c →
        order_by_hour (time_slots db2) !! i = Some slot →
        ∃ ci e, g_courts grid !! n = Some ci
                ∧ ci_slots ci !! str_nat (S i) = Some e
                ∧ s_status e = st.
Proof.
  intros Hok Hids Hu Hc Ht Hs Hst Hna Hdate Hd Hres Hone.
  pose proof (update_booking_api_ok now request db Hok) as Hok1.
  rewrite (upsert_update_path now request db u st ds d slot cid c b) in *;
    try done; [|by rewrite Hdate|by rewrite Hdate].
  eexists _, _. split; [reflexivity|]. split; [done|].
  intros now' q db2 grid n i Hrun Hgd Hsel Hn Hi.
  pose proof Hrun as Hrun'.
  apply court_status_api_Ok in Hrun' as (_ & _ & _ & _ & Hseed & _).
  apply ensure_time_slots_frame in Hseed as (_ & _ & Hbs & _ & _ & Hsame).
  assert (db2 = set_bookings
                  ((λ x, if decide (booking_id x = booking_id b)
                         then updated_row now u st b else x) <$> bookings db)
                  (next_id db) db) as ->.
  { apply Hsame. simpl. by eapply resolve_needs_slots. }
  assert (b ∈ bookings db ∧ triple b = (cid, ts_id slot, Some d)) as [Hin Htr].
  { assert (b ∈ filter (λ x, triple x = (cid, ts_id slot, Some d)) (bookings db)) as Hb
      by (rewrite Hone; left).
    by apply list_elem_of_filter in Hb as [? ?]. }
  apply resolve_inv in Hres as (_ & _ & _ & _ & Hcid).
  rewrite <- Hsel in Hn.
  destruct (grid_shows_row now' q _ _ grid d n c i slot (updated_row now u st b) Hrun)
    as (ci & e & Hci & He & Hstat); try done.
  - congruence.
  - apply Hok1.
  - simpl. apply list_elem_of_fmap. exists b. by rewrite decide_True.
  - unfold triple in *. simpl. by rewrite Hcid.
  - by exists ci, e.
Qed.

End WriteThenRead.

Section WriteThenReadExamples.

Lemma update_then_grid_witness :
  ∃ db1 s,
    update_booking_api Demo.now (Demo.post (JStr "16") "maintenance") Demo.booked_db
    = (db1, Ok s)
    ∧ r_action s = "updated"
    ∧ ∃ db2 grid ci e,
        court_status_api Demo.now Demo.get_2024_01_01 db1 = (db2, Ok grid)
        ∧ g_courts grid !! 0 = Some ci
        ∧ ci_slots ci !! "16" = Some e
        ∧ s_status e = "maintenance".
Proof.
  destruct (update_then_grid Demo.now (Demo.post (JStr "16") "maintenance")
              Demo.booked_db Demo.alice "maintenance" "2024-01-01" (Date 2024 1 1)
              (mkTimeSlot 115 22) 17 (mkCourt 17 "badminton" "Court 1")
              (Demo.booking 117 17 115 "reserved")
              (reachable_store_ok _ demo_reachable)
              ltac:(apply (bool_decide_unpack _); vm_compute; exact I)
              eq_refl eq_refl eq_refl eq_refl
              ltac:(right; right; left) ltac:(discriminate)
              eq_refl eq_refl ltac:(vm_compute; reflexivity)
              ltac:(vm_compute; reflexivity))
    as (db1 & s & Hrun & Hact & Hgrid).
  exists db1, s. split; [exact Hrun|]. split; [exact Hact|].
  destruct (court_status_api Demo.now Demo.get_2024_01_01 db1) as [db2 resp] eqn:Hread.
  assert (∃ grid, resp = Ok grid ∧ g_date grid = "2024-01-01"
                  ∧ g_selectedSport grid = "badminton"
                  ∧ courts_of_sport "badminton" db2 !! 0
                    = Some (mkCourt 17 "badminton" "Court 1")
                  ∧ order_by_hour (time_slots db2) !! 15 = Some (mkTimeSlot 115 22))
    as (grid & -> & Hd & Hsel & Hn & Hi).
  { vm_compute in Hrun. injection Hrun as <- _.
    vm_compute in Hread. injection Hread as <- <-.
    eexists. split; [reflexivity|]. by repeat split. }
  destruct (Hgrid Demo.now Demo.get_2024_01_01 db2 grid 0 15 Hread Hd Hsel Hn Hi)
    as (ci & e & Hci & He & Hst).
  by exists db2, grid, ci, e.
Defined.

End WriteThenReadExamples.

(** ** Booking.save as an upsert *)

Section SaveUpsert.

Implicit Types (db : DB) (b r : Booking).

Lemma unique_row (l : list Booking) r :
  NoDup (triple <$> l) → r ∈ l → filter (λ x, triple x = triple r) l = [r].
Proof.
  intros Hnd Hr.
  destruct (filter_key_present triple l (triple r) Hnd) as (x & Hx & Hk & ->).
  { apply list_elem_of_fmap. by exists r. }
  f_equal. by apply (NoDup_fmap_eq triple l).
Qed.

(** X6: [Booking.save] of a new booking with court, time slot, date and
    user is an upsert on the triple, in a well-formed store: it is never
    refused; afterwards exactly one row has the triple, with the status
    and user given and the time of the call as [updated_at]; that row
    keeps the key and [created_at] of the row that was there, or is a new
    last row under the next key of the store when there was none; and no
    other row changes. *)
Theorem Booking_save_upsert now cid t d u st db :
  store_ok db →
  ∃ db' r,
    Booking_save now (New (mkNew (Some cid) (Some t) (Some d) (Some u) st)) db
    = (db', inr r)
    ∧ store_ok db'
    ∧ filter (λ x, triple x = (cid, t, Some d)) (bookings db') = [r]
    ∧ status r = st ∧ user r = Some u ∧ updated_at r = now
    ∧ (∀ old, old ∈ bookings db → triple old = (cid, t, Some d) →
         booking_id r = booking_id old ∧ created_at r = created_at old
         ∧ length (bookings db') = length (bookings db)
         ∧ next_id db' = next_id db)
    ∧ ((∀ x, x ∈ bookings db → triple x ≠ (cid, t, Some d)) →
       bookings db' = bookings db ++ [r]
       ∧ booking_id r = next_id db ∧ created_at r = now)
    ∧ (∀ x, x ∈ bookings db → triple x ≠ (cid, t, Some d) → x ∈ bookings db').
Proof.
  intros Hok.
  pose proof (Booking_save_ok now (New (mkNew (Some cid) (Some t) (Some d) (Some u) st))
                db (conj Hok I)) as Hok'.
  destruct Hok as [Hk Hi Hu].
  revert Hok'.
  unfold Booking_save, related, bind, ret, query.
  cbn [n_court n_time_slot n_date n_user n_status].
  destruct (first_by _ _) as [existing|] eqn:Hfirst.
  - apply first_by_elem, list_elem_of_filter in Hfirst as [(Hc & Ht & Hd) Hin].
    assert (triple existing = (cid, t, Some d)) as Htr by (unfold triple; congruence).
    set (r := mkBooking (booking_id existing) (court existing) (time_slot existing)
                (on_date existing) (Some u) st (created_at existing) now).
    unfold Model_save. cbn [booking_id].
    rewrite decide_False; last first.
    { unfold breaks_unique. intros (x & Hx & Htx & Hne)%Exists_exists.
      apply Hne. change (booking_id x = booking_id existing). f_equal.
      apply (NoDup_fmap_eq triple (bookings db)); [done|done|done|exact Htx]. }
    rewrite decide_True by (apply list_elem_of_fmap; by exists existing).
    intros Hok'. eexists _, _. split; [reflexivity|].
    assert (touch now r ∈ bookings
              (set_bookings
                 ((λ x, if decide (booking_id x = booking_id existing)
                        then touch now r else x) <$> bookings db) (next_id db) db))
      as Hr.
    { simpl. apply list_elem_of_fmap. exists existing. by rewrite decide_True. }
    split; [exact Hok'|]. split.
    { rewrite <- Htr.
      change (triple existing) with (triple (touch now r)).
      apply unique_row; [apply Hok'|exact Hr]. }
    split_and!; try done.
    + intros old Hold Hto.
      assert (old = existing) as ->
        by (apply (NoDup_fmap_eq triple (bookings db)); congruence).
      split_and!; try done. simpl. by rewrite length_fmap.
    + intros Hnone. by destruct (Hnone existing Hin).
    + intros x Hx Hne. simpl. apply list_elem_of_fmap. exists x. split; [|done].
      rewrite decide_False; [done|]. intros Heq. apply Hne.
      assert (x = existing) as -> by (by apply (NoDup_fmap_eq booking_id (bookings db))).
      done.
  - apply first_by_None in Hfirst.
    assert (∀ x, x ∈ bookings db → triple x ≠ (cid, t, Some d)) as Hnone.
    { intros x Hx Htx.
      assert (x ∈ filter (λ b, court b = cid ∧ time_slot b = t ∧ on_date b = Some d)
                     (bookings db)) as Hxf.
      { apply list_elem_of_filter. split; [|done]. injection Htx as -> -> ->. done. }
      rewrite Hfirst in Hxf. by apply elem_of_nil in Hxf. }
    unfold Model_insert. cbn [n_court n_time_slot n_date n_user n_status].
    rewrite decide_False; last first.
    { unfold breaks_unique. intros (x & Hx & Htx & _)%Exists_exists.
      by apply (Hnone x Hx). }
    intros Hok'. eexists _, _. split; [reflexivity|].
    split; [exact Hok'|]. split.
    { change (cid, t, Some d)
        with (triple (mkBooking (next_id db) cid t (Some d) (Some u) st now now)).
      apply unique_row; [apply Hok'|]. simpl. apply elem_of_app. right. left. }
    split_and!; try done.
    + intros old Hold Hto. by destruct (Hnone old Hold).
    + intros x Hx _. simpl. apply elem_of_app. by left.
Qed.

Lemma Booking_save_upsert_witness :
  ∃ db' r,
    Booking_save Demo.now
      (New (mkNew (Some 17%N) (Some 115%N) (Some (Date 2024 1 1)) (Some 9%Z) "booked"))
      Demo.booked_db = (db', inr r)
    ∧ filter (λ x, triple x = (17%N, 115%N, Some (Date 2024 1 1))) (bookings db') = [r]
    ∧ status r = "booked" ∧ user r = Some 9%Z.
Proof.
  destruct (Booking_save_upsert Demo.now 17 115 (Date 2024 1 1) 9 "booked"
              Demo.booked_db (reachable_store_ok _ demo_reachable))
    as (db' & r & H1 & _ & H2 & H3 & H4 & _).
  by exists db', r.
Defined.

End SaveUpsert.

(** ** The slot list of the grid *)

Section SlotList.

Implicit Types (db : DB) (l : list TimeSlot) (t : TimeSlot).

(** X7: the [timeSlots] list of a grid and the slot maps of its courts
    tell the same story: the list has one pair per time slot, numbered
    1, 2, ... in ascending order of the hour, each with the
    [formatted_slot] of its slot, and every court has under [str(i)] the
    entry with that id and that time. *)
Theorem grid_slot_list_agrees now request db db' grid :
  court_status_api now request db = (db', Ok grid) →
  length (g_timeSlots grid) = length (time_slots db')
  ∧ (∀ k i time,
       g_timeSlots grid !! k = Some (i, time) →
       i = S k
       ∧ (∃ slot, order_by_hour (time_slots db') !! k = Some slot
                  ∧ slot ∈ time_slots db' ∧ time = formatted_slot slot)
       ∧ ∀ ci, ci ∈ g_courts grid →
           ∃ e, ci_slots ci !! str_nat i = Some e
                ∧ s_id e = str_nat i ∧ s_time e = time)
  ∧ (∀ k k' x y,
       order_by_hour (time_slots db') !! k = Some x →
       order_by_hour (time_slots db') !! k' = Some y →
       k < k' → (hour x ≤ hour y)%Z).
Proof.
  intros (d & _ & _ & _ & _ & Hslots & Hcourts)%court_status_api_Ok.
  split_and!.
  - rewrite Hslots, length_fmap, enumerate_length.
    apply Permutation_length, order_by_hour_Permutation.
  - intros k i time Hk. rewrite Hslots, list_lookup_fmap, enumerate_lookup in Hk.
    destruct (order_by_hour (time_slots db') !! k) as [slot|] eqn:Hslot; [|done].
    simpl in Hk. injection Hk as <- <-. split_and!.
    + done.
    + exists slot. split_and!; [done| |done].
      apply list_elem_of_lookup_2 in Hslot.
      by rewrite order_by_hour_Permutation in Hslot.
    + intros ci Hci. rewrite Hcourts in Hci.
      apply list_elem_of_fmap in Hci as (c & -> & Hc).
      destruct (build_court_info_entry _
                  (bookings_of_sport (g_selectedSport grid) d db') c k slot Hslot)
        as (e & He & Hid & Htime & _).
      by exists e.
  - intros k k' x y Hx Hy Hlt.
    by apply (sorted_lookup (order_by_hour (time_slots db')) k k' x y
                (order_by_hour_sorted _)).
Qed.

Lemma grid_slot_list_agrees_witness :
  length (g_timeSlots Demo.grid) = length (time_slots Demo.booked_db)
  ∧ g_timeSlots Demo.grid !! 15 = Some (16, "10:00 PM").
Proof.
  destruct (grid_slot_list_agrees Demo.now Demo.get_2024_01_01 Demo.booked_db
              Demo.booked_db Demo.grid ltac:(vm_compute; reflexivity)) as (Hlen & _).
  split; [exact Hlen|vm_compute; reflexivity].
Defined.

(** X8: the read views never end in an exception, and
    [court_status_api] has three answers: the 400 exactly when the date
    does not parse, whatever the sport is; the 404 exactly when the date
    parses, no sport is named and there is none; the grid otherwise. *)
Theorem read_views_answers now request db :
  (∃ views, (time_slots_api db).2 = Ok views)
  ∧ (∀ e, (court_status_api now request db).2 ≠ Unhandled e)
  ∧ ((court_status_api now request db).2 = Err 400 InvalidDateFormat
     ↔ fromisoformat (default (isoformat (dt_date now)) (q_date request)) = None)
  ∧ ((court_status_api now request db).2 = Err 404 NoSportsAvailable
     ↔ is_Some (fromisoformat (default (isoformat (dt_date now)) (q_date request)))
       ∧ falsy (q_sport request) = true ∧ sports db = [])
  ∧ ((∃ grid, (court_status_api now request db).2 = Ok grid)
     ↔ is_Some (fromisoformat (default (isoformat (dt_date now)) (q_date request)))
       ∧ (falsy (q_sport request) = false ∨ sports db ≠ [])).
Proof.
  split_and!.
  - unfold time_slots_api. rewrite ensure_time_slots_run. by eexists.
  - intros e. unfold court_status_api.
    destruct (fromisoformat _); [|done].
    destruct (default_sport _ _); [|done]. by rewrite ensure_time_slots_run.
  - unfold court_status_api.
    destruct (fromisoformat _); [|done].
    destruct (default_sport _ _); [|done]. by rewrite ensure_time_slots_run.
  - unfold court_status_api, default_sport.
    destruct (fromisoformat _) as [d|].
    + destruct (falsy (q_sport request)) eqn:Hf.
      * destruct (first_by _ (sports db)) as [s|] eqn:Hfirst; simpl.
        -- rewrite ensure_time_slots_run. simpl. split; [done|].
           intros (_ & _ & Hnil). by rewrite Hnil in Hfirst.
        -- split; [|done]. intros _. split_and!; [by eexists|done|].
           by eapply first_by_None.
      * destruct (q_sport request) as [sid|]; [|done].
        rewrite ensure_time_slots_run. simpl. split; [done|]. by intros (_ & ? & _).
    + split; [done|]. intros ([? ?] & _). done.
  - unfold court_status_api, default_sport.
    destruct (fromisoformat _) as [d|].
    + destruct (falsy (q_sport request)) eqn:Hf.
      * destruct (first_by _ (sports db)) as [s|] eqn:Hfirst; simpl.
        -- rewrite ensure_time_slots_run. simpl. split; [|by eexists].
           intros _. split; [by eexists|]. right. intros Hnil. by rewrite Hnil in Hfirst.
        -- apply first_by_None in Hfirst. split; [by intros [? ?]|].
           intros (_ & [?|?]); done.
      * destruct (q_sport request) as [sid|]; [|done].
        rewrite ensure_time_slots_run. simpl. split; [|by eexists].
        intros _. split; [by eexists|by left].
    + split; [by intros [? ?]|]. intros ([? ?] & _). done.
Qed.

End SlotList.

(** ** Dates *)

Section Dates.

Import Py.

Lemma fixed_digits_app n acc s v r rest :
  fixed_digits n acc s = Some (v, r) →
  fixed_digits n acc (s +:+ rest) = Some (v, r +:+ rest).
Proof.
  revert acc s. induction n as [|n IH]; intros acc s H.
  - simpl in *. by injection H as -> ->.
  - destruct s as [|a s]; [done|].
    change (String a s +:+ rest) with (String a (s +:+ rest)).
    simpl in *. destruct (digit_of a); [|done]. by apply IH.
Qed.

Lemma zfill_parses_upto w lo n y :
  forallb (zfill_parses w) (seqZ lo n) = true →
  (lo ≤ y < lo + n)%Z →
  ∀ rest, fixed_digits w 0 (zfill w y +:+ rest) = Some (y, rest).
Proof.
  intros Hall Hy rest. rewrite forallb_forall in Hall.
  assert (zfill_parses w y = true) as H.
  { apply Hall, list_elem_of_In, elem_of_seqZ. lia. }
  apply bool_decide_eq_true_1 in H.
  by apply (fixed_digits_app _ _ _ _ _ rest) in H.
Qed.

Lemma zfill_parses_year : forallb (zfill_parses 4) (seqZ 1 9999) = true.
Proof. by vm_compute. Qed.

Lemma zfill_parses_month_day : forallb (zfill_parses 2) (seqZ 1 31) = true.
Proof. by vm_compute. Qed.

(** A date of the calendar prints in the form that [fromisoformat]
    reads back. *)
Lemma fromisoformat_isoformat d :
  valid_date (year d) (month d) (day d) = true →
  fromisoformat (isoformat d) = Some d.
Proof.
  destruct d as [y m d]. cbn [year month day]. intros Hv.
  assert (1 ≤ y < 1 + 9999 ∧ 1 ≤ m < 1 + 31 ∧ 1 ≤ d < 1 + 31)%Z as (Hy & Hm & Hd).
  { unfold valid_date in Hv. repeat (apply andb_true_iff in Hv as [Hv ?]).
    assert (days_in_month y m ≤ 31)%Z.
    { unfold days_in_month. repeat case_match; lia. }
    lia. }
  unfold fromisoformat, isoformat. cbn [year month day].
  rewrite (zfill_parses_upto 4 1 9999 y zfill_parses_year Hy).
  change ("-" +:+ ?s) with (String "-" s).
  cbv iota beta.
  rewrite (zfill_parses_upto 2 1 31 m zfill_parses_month_day Hm).
  change ("-" +:+ ?s) with (String "-" s). cbv iota beta.
  rewrite <- (string_app_nil_r (zfill 2 d)).
  rewrite (zfill_parses_upto 2 1 31 d zfill_parses_month_day Hd).
  cbv iota beta. by rewrite Hv.
Qed.

Lemma reconcile_date now u st d slot cid c db db' s :
  reconcile now u st d slot cid c db = (db', inr s) → r_date s = isoformat d.
Proof.
  unfold reconcile, bind, ret.
  destruct (decide (st = "available")) as [Hav|Hav].
  - destruct (Booking_delete _ db) as [db1 [e|k]]; [done|]. by intros [= _ <-].
  - destruct (Booking_update_or_create _ _ _ db) as [db1 [e|res]]; [done|].
    by intros [= _ <-].
Qed.

(** X13: a request without a date is a request for the day of the
    clock: the printed date of today always parses, so neither view
    answers "Invalid date format"; the grid carries today's date and the
    bookings of today, and the update works on the triple of today. *)
Theorem request_without_date_is_for_today now :
  valid_date (year (dt_date now)) (month (dt_date now)) (day (dt_date now)) = true →
  (∀ q db, q_date q = None →
     (court_status_api now q db).2 ≠ Err 400 InvalidDateFormat
     ∧ ∀ grid, (court_status_api now q db).2 = Ok grid →
         g_date grid = isoformat (dt_date now)
         ∧ g_courts grid
           = build_court_info
               (order_by_hour (time_slots (court_status_api now q db).1))
               (bookings_of_sport (g_selectedSport grid) (dt_date now)
                  (court_status_api now q db).1)
             <$> courts_of_sport (g_selectedSport grid) (court_status_api now q db).1)
  ∧ (∀ request db, p_date request = None →
       (update_booking_api now request db).2 ≠ Err 400 InvalidDateFormat
       ∧ ∀ s, (update_booking_api now request db).2 = Ok s →
           r_date s = isoformat (dt_date now)
           ∧ ∃ u st slot cid c,
               reconcile now u st (dt_date now) slot cid c db
               = ((update_booking_api now request db).1, inr s)).
Proof.
  intros Hv. pose proof (fromisoformat_isoformat _ Hv) as Hparse. split.
  - intros q db Hq. split.
    + unfold court_status_api. rewrite Hq. simpl. rewrite Hparse.
      destruct (default_sport _ _); [|done].
      by destruct (ensure_time_slots db) as [db1 [e|[]]].
    + intros grid Hrun.
      destruct (court_status_api now q db) as [db' r] eqn:Hcall. simpl in Hrun. subst r.
      apply court_status_api_Ok in Hcall as (d & Hd & Hp & _ & _ & _ & Hcs).
      rewrite Hq in Hd. simpl in Hd. rewrite Hd, Hparse in Hp.
      injection Hp as <-. by split.
  - intros request db Hq. split.
    + unfold update_booking_api. rewrite Hq. simpl. rewrite Hparse.
      destruct (p_user request); [|done].
      destruct (negb _); [done|].
      destruct (p_status request) as [| | |st]; try done.
      destruct (decide _) as [Hst|Hst]; [|done].
      destruct (resolve _ _ db) as [db1 [e|[[slot cid] c]]]; [done|].
      by destruct (reconcile _ _ _ _ _ _ _ db1) as [db2 [e|s']].
    + intros s Hrun.
      destruct (update_booking_api now request db) as [db' r] eqn:Hcall.
      simpl in Hrun. subst r.
      apply update_booking_api_Ok in Hcall
        as (u & st & ds & d & slot & cid & c & _ & _ & _ & Hds & Hd & _ & Hrec).
      rewrite Hq in Hds. simpl in Hds. injection Hds as <-.
      rewrite Hparse in Hd. injection Hd as <-.
      split; [by eapply reconcile_date|]. by exists u, st, slot, cid, c.
Qed.

Lemma request_without_date_is_for_today_witness :
  ∃ grid,
    court_status_api Demo.now (mkGet (Some "badminton") None) Demo.booked_db
    = (Demo.booked_db, Ok grid)
    ∧ g_date grid = "2024-01-01"
    ∧ g_courts grid
      = build_court_info (order_by_hour (time_slots Demo.booked_db))
          (bookings_of_sport "badminton" (Date 2024 1 1) Demo.booked_db)
        <$> courts_of_sport "badminton" Demo.booked_db.
Proof.
  destruct (request_without_date_is_for_today Demo.now eq_refl) as [Hget _].
  destruct (Hget (mkGet (Some "badminton") None) Demo.booked_db eq_refl) as [_ Hgrid].
  assert (∃ grid, court_status_api Demo.now (mkGet (Some "badminton") None)
                    Demo.booked_db = (Demo.booked_db, Ok grid)
                  ∧ g_selectedSport grid = "badminton") as (grid & Hrun & Hsel).
  { eexists. split; [vm_compute; reflexivity|reflexivity]. }
  exists grid. split; [exact Hrun|].
  rewrite Hrun in Hgrid. destruct (Hgrid grid eq_refl) as [Hd Hcs].
  rewrite Hsel in Hcs. exact (conj Hd Hcs).
Defined.

End Dates.

(** ** The admin *)

Section Admin.

Implicit Types (db : DB) (b : Booking) (sel : list ObjectId).

(** [queryset.update(status=st)] row by row. *)
Lemma Booking_queryset_update_sets st sel db :
  store_ok db →
  ∃ db',
    Booking_queryset_update sel st db
    = (db', inr (length (filter (λ b, booking_id b ∈ sel) (bookings db))))
    ∧ store_ok db'
    ∧ sports db' = sports db ∧ time_slots db' = time_slots db
    ∧ courts db' = courts db
    ∧ booking_id <$> bookings db' = booking_id <$> bookings db
    ∧ triple <$> bookings db' = triple <$> bookings db
    ∧ next_id db' = next_id db
    ∧ ∀ i b, bookings db !! i = Some b →
             ∃ b', bookings db' !! i = Some b'
                   ∧ booking_id b' = booking_id b
                   ∧ court b' = court b ∧ time_slot b' = time_slot b
                   ∧ on_date b' = on_date b ∧ user b' = user b
                   ∧ created_at b' = created_at b ∧ updated_at b' = updated_at b
                   ∧ status b' = (if decide (booking_id b ∈ sel) then st
                                  else status b).
Proof.
  intros [Hk Hi Hu]. unfold Booking_queryset_update.
  set (f := λ b, if decide (booking_id b ∈ sel)
                 then mkBooking (booking_id b) (court b) (time_slot b) (on_date b)
                        (user b) st (created_at b) (updated_at b)
                 else b).
  assert (∀ {X} (g : Booking → X),
            (∀ b, g (f b) = g b) → g <$> (f <$> bookings db) = g <$> bookings db) as Hsame.
  { intros X g Hg. rewrite <- list_fmap_compose. apply list_fmap_ext.
    intros i b _. apply Hg. }
  assert (∀ b, booking_id (f b) = booking_id b) as Hfk
    by (intros b; unfold f; by destruct (decide _)).
  assert (∀ b, triple (f b) = triple b) as Hft
    by (intros b; unfold f; by destruct (decide _)).
  eexists. split; [reflexivity|].
  cbn [bookings set_bookings sports time_slots courts next_id].
  split_and!; try done.
  - split; cbn [bookings set_bookings next_id].
    + by rewrite Hsame.
    + intros b (x & -> & Hx)%list_elem_of_fmap. rewrite Hfk. by apply Hi.
    + by rewrite Hsame.
  - by apply Hsame.
  - by apply Hsame.
  - intros i b Hb. exists (f b). split; [by rewrite list_lookup_fmap, Hb|].
    unfold f. by destruct (decide _).
Qed.

(** X9: the three admin actions on bookings set the status of the
    selected rows and nothing else.  They return nothing (the count of
    the update is dropped); sports, time slots, courts and the key
    counter stay; no row is added, removed or moved; and a row keeps its
    key, court, time slot, date, user, [created_at] and [updated_at] (the
    status is written without a [save]), and its status too unless it is
    selected; the store stays well-formed. *)
Theorem admin_actions_set_status :
  sets_status mark_as_available "available"
  ∧ sets_status mark_as_booked "booked"
  ∧ sets_status mark_as_maintenance "maintenance".
Proof.
  assert (∀ st, sets_status (λ sel, Booking_queryset_update sel st >> ret tt) st) as H.
  { intros st sel db Hok.
    destruct (Booking_queryset_update_sets st sel db Hok)
      as (db' & Hrun & Hok' & Hs & Ht & Hc & Hkeys & _ & Hn & Hrows).
    exists db'. unfold bind, ret. rewrite Hrun. split_and!; try done.
    by rewrite <- (length_fmap booking_id), Hkeys, length_fmap. }
  split_and!; apply H.
Qed.

(** X10: after [mark_as_available], "available" is a stored status: the
    selected row is still there, the grid shows its slot as "available"
    like a slot without a row, and setting the slot to "available"
    through the reconciler then finds a row to delete. *)
Theorem mark_as_available_keeps_the_row now q sel db b d n c i slot u :
  store_ok db →
  NoDup (ts_id <$> time_slots db) →
  time_slots db ≠ [] →
  b ∈ bookings db → booking_id b ∈ sel →
  court b = c_id c → time_slot b = ts_id slot → on_date b = Some d →
  courts_of_sport (c_sport c) db !! n = Some c →
  order_by_hour (time_slots db) !! i = Some slot →
  q_sport q = Some (c_sport c) → c_sport c ≠ "" →
  q_date q = Some (isoformat d) →
  valid_date (year d) (month d) (day d) = true →
  ∃ db1 grid ci e,
    (mark_as_available sel db).1 = db1
    ∧ length (bookings db1) = length (bookings db)
    ∧ (∃ b', filter (λ x, triple x = triple b) (bookings db1) = [b']
             ∧ booking_id b' = booking_id b ∧ status b' = "available")
    ∧ court_status_api now q db1 = (db1, Ok grid)
    ∧ g_courts grid !! n = Some ci
    ∧ ci_slots ci !! str_nat (S i) = Some e
    ∧ s_status e = "available"
    ∧ (reconcile now u "available" d slot (c_id c) c db1).2
      = inr (mkSummary None (c_name c) (formatted_slot slot) (isoformat d)
               "available" (username u) "deleted").
Proof.
  intros Hok Hids Hne Hb Hsel Hc Ht Hd Hn Hi Hsport Hnonempty Hdate Hparse.
  apply fromisoformat_isoformat in Hparse.
  destruct (Booking_queryset_update_sets "available" sel db Hok)
    as (db1 & Hrun & Hok1 & Hsp & Hts & Hcs & Hkeys & Htriples & _ & Hrows).
  apply list_elem_of_lookup in Hb as [j Hj].
  destruct (Hrows j b Hj) as (b' & Hj' & _ & _ & _ & _ & _ & _ & _ & Hst).
  rewrite decide_True in Hst by done.
  assert (triple b' = triple b) as Htr.
  { assert ((triple <$> bookings db1) !! j = (triple <$> bookings db) !! j) as Heq
      by (by rewrite Htriples).
    rewrite !list_lookup_fmap, Hj, Hj' in Heq. simpl in Heq. congruence. }
  assert (booking_id b' = booking_id b) as Hid.
  { assert ((booking_id <$> bookings db1) !! j = (booking_id <$> bookings db) !! j) as Heq
      by (by rewrite Hkeys).
    rewrite !list_lookup_fmap, Hj, Hj' in Heq. simpl in Heq. congruence. }
  assert (b' ∈ bookings db1) as Hb' by (by eapply list_elem_of_lookup_2).
  assert (court_status_api now q db1
          = (db1, Ok (mkGrid (isoformat d) (strftime_IMp now) (sports db1)
                        (c_sport c)
                        ((λ p, (p.1, formatted_slot p.2))
                           <$> enumerate 1 (order_by_hour (time_slots db1)))
                        (build_court_info (order_by_hour (time_slots db1))
                           (bookings_of_sport (c_sport c) d db1)
                         <$> courts_of_sport (c_sport c) db1)))) as Hgrid.
  { unfold court_status_api. rewrite Hdate. simpl. rewrite Hparse.
    unfold default_sport. rewrite Hsport. simpl.
    rewrite bool_decide_eq_false_2 by done.
    rewrite ensure_time_slots_run, decide_False; [done|]. by rewrite Hts. }
  destruct (grid_shows_row now q db1 db1 _ d n c i slot b' Hgrid)
    as (ci & e & Hci & He & Hse); try done.
  { by rewrite Hts. }
  { apply Hok1. }
  { cbn [g_selectedSport]. unfold courts_of_sport. by rewrite Hcs. }
  { by rewrite Hts. }
  { rewrite Htr. unfold triple. by rewrite Hc, Ht, Hd. }
  eexists db1, _, ci, e. split_and!; try done.
  - unfold mark_as_available, bind. by rewrite Hrun.
  - by rewrite <- (length_fmap booking_id), Hkeys, length_fmap.
  - exists b'. split_and!; [|done|done]. rewrite <- Htr.
    apply unique_row; [apply Hok1|done].
  - congruence.
  - rewrite reconcile_available. simpl. rewrite decide_True; [done|].
    apply Exists_exists. exists b'. split; [done|].
    rewrite Htr. unfold triple. by rewrite Hc, Ht, Hd.
Qed.

(** X11: a delete that [has_delete_permission] lets through for an
    object removes the rows of that object and nothing else: the check
    fails for a sport with courts, a time slot with bookings and a court
    with bookings, so the cascade on the foreign keys finds nothing, and
    a store whose references all resolve stays so. *)
Theorem permitted_delete_takes_one_row super db :
  (∀ s, SportAdmin_has_delete_permission super (Some s) db = true →
        Sport_delete s db = set_sports (filter (λ x, sp_id x ≠ sp_id s) (sports db)) db
        ∧ (refs_ok db → refs_ok (Sport_delete s db)))
  ∧ (∀ t, TimeSlotAdmin_has_delete_permission super (Some t) db = true →
          TimeSlot_delete t db
          = set_time_slots (filter (λ x, ts_id x ≠ ts_id t) (time_slots db))
              (next_id db) db
          ∧ (refs_ok db → refs_ok (TimeSlot_delete t db)))
  ∧ (∀ c, CourtAdmin_has_delete_permission super (Some c) db = true →
          Court_delete c db
          = set_courts (filter (λ x, c_id x ≠ c_id c) (courts db)) (next_id db) db
          ∧ (refs_ok db → refs_ok (Court_delete c db))).
Proof.
  assert (∀ {X} (P : X → Prop) `{∀ x, Decision (P x)} (l : list X),
            filter P l = [] → filter (λ x, ¬ P x) l = l) as Hall.
  { intros X P HP l Hnil. apply filter_all, Forall_forall. intros x Hx HPx.
    by apply (filter_nil_not_elem_of P l x Hnil). }
  split_and!.
  - intros s. unfold SportAdmin_has_delete_permission.
    destruct (decide (filter _ (courts db) = [])) as [Hnil|]; [|done]. intros _.
    assert (Sport_delete s db
            = set_sports (filter (λ x, sp_id x ≠ sp_id s) (sports db)) db) as Hdel.
    { unfold Sport_delete, set_sports. rewrite Hnil. f_equal.
      - by apply Hall.
      - apply filter_all, Forall_forall. intros b _. apply not_elem_of_nil. }
    split; [done|]. rewrite Hdel. intros [Hc Hb]. split; [|done].
    intros c Hin. cbn [courts sports set_sports] in *.
    specialize (Hc c Hin). apply list_elem_of_fmap in Hc as (x & Hx & Hxin).
    apply list_elem_of_fmap. exists x. split; [done|].
    apply list_elem_of_filter. split; [|done]. intros Heq.
    apply (filter_nil_not_elem_of _ _ c Hnil); [congruence|done].
  - intros t. unfold TimeSlotAdmin_has_delete_permission.
    destruct (decide (filter _ (bookings db) = [])) as [Hnil|]; [|done]. intros _.
    assert (TimeSlot_delete t db
            = set_time_slots (filter (λ x, ts_id x ≠ ts_id t) (time_slots db))
                (next_id db) db) as Hdel.
    { unfold TimeSlot_delete, set_time_slots. f_equal. by apply Hall. }
    split; [done|]. rewrite Hdel. intros [Hc Hb]. split; [done|].
    intros b Hin. cbn [bookings courts time_slots set_time_slots] in *.
    destruct (Hb b Hin) as [Hbc Hbt]. split; [done|].
    apply list_elem_of_fmap in Hbt as (x & Hx & Hxin).
    apply list_elem_of_fmap. exists x. split; [done|].
    apply list_elem_of_filter. split; [|done]. intros Heq.
    apply (filter_nil_not_elem_of _ _ b Hnil); [congruence|done].
  - intros c. unfold CourtAdmin_has_delete_permission.
    destruct (decide (filter _ (bookings db) = [])) as [Hnil|]; [|done]. intros _.
    assert (Court_delete c db
            = set_courts (filter (λ x, c_id x ≠ c_id c) (courts db)) (next_id db) db)
      as Hdel.
    { unfold Court_delete, set_courts. f_equal. by apply Hall. }
    split; [done|]. rewrite Hdel. intros [Hc Hb]. split.
    + intros x Hx. cbn [courts sports set_courts] in *.
      apply list_elem_of_filter in Hx as [_ Hx]. by apply Hc.
    + intros b Hin. cbn [bookings courts time_slots set_courts] in *.
      destruct (Hb b Hin) as [Hbc Hbt]. split; [|done].
      apply list_elem_of_fmap in Hbc as (x & Hx & Hxin).
      apply list_elem_of_fmap. exists x. split; [done|].
      apply list_elem_of_filter. split; [|done]. intros Heq.
      apply (filter_nil_not_elem_of _ _ b Hnil); [congruence|done].
Qed.

(** [Booking.save] of a new booking that has its court, its time slot
    and its user is never refused in a well-formed store, whether or not
    the triple has a row. *)
Lemma Booking_save_with_user now cid t d u st db :
  store_ok db →
  ∃ r, (Booking_save now (New (mkNew (Some cid) (Some t) d (Some u) st)) db).2 = inr r.
Proof.
  intros [Hk Hi Hu]. unfold Booking_save, related, bind, ret, query.
  cbn [n_court n_time_slot n_date n_user n_status].
  destruct (first_by _ _) as [existing|] eqn:Hfirst.
  - apply first_by_elem, list_elem_of_filter in Hfirst as [(Hc & Ht & Hd) Hin].
    unfold Model_save. cbn [booking_id].
    rewrite decide_False.
    + rewrite decide_True by (apply list_elem_of_fmap; by exists existing).
      by eexists.
    + unfold breaks_unique. intros (x & Hx & Htx & Hne)%Exists_exists.
      apply Hne. cbn [booking_id]. f_equal.
      by apply (NoDup_fmap_eq triple (bookings db)).
  - apply first_by_None in Hfirst. unfold Model_insert. cbv zeta.
    rewrite decide_False; [by eexists|].
    unfold breaks_unique. intros (x & Hx & Htx & _)%Exists_exists.
    assert (x ∈ filter (λ b, court b = cid ∧ time_slot b = t ∧ on_date b = d)
                   (bookings db)) as Hxf.
    { apply list_elem_of_filter. split; [|done]. cbn in Htx.
      by injection Htx as -> -> ->. }
    rewrite Hfirst in Hxf. by apply elem_of_nil in Hxf.
Qed.

(** X12: what [BookingAdmin.save_model] turns into a message, on a
    well-formed store.  Adding a booking with court, time slot and user
    never gives one, also when the triple has its row: [Booking.save]
    then writes over that row.  A booking without court or time slot
    gives [RelatedObjectDoesNotExist].  Moving a stored booking onto the
    triple of another row gives the [DatabaseError] of the unique index.
    Whenever there is a message the store is as it was, and in every
    case it stays well-formed. *)
Theorem save_model_reports_a_refused_save now db :
  store_ok db →
  (∀ obj, issued obj db →
     store_ok (BookingAdmin_save_model now obj db).1
     ∧ (is_Some (BookingAdmin_save_model now obj db).2 →
        (BookingAdmin_save_model now obj db).1 = db))
  ∧ (∀ cid t d u st,
       (BookingAdmin_save_model now (New (mkNew (Some cid) (Some t) d (Some u) st)) db).2
       = None)
  ∧ (∀ i, n_court i = None ∨ n_time_slot i = None →
          BookingAdmin_save_model now (New i) db
          = (db, Some RelatedObjectDoesNotExist))
  ∧ (∀ r x, x ∈ bookings db → triple x = triple r → booking_id x ≠ booking_id r →
            BookingAdmin_save_model now (Loaded r) db = (db, Some DatabaseError)).
Proof.
  intros Hok. split_and!.
  - intros obj Hiss. unfold BookingAdmin_save_model.
    pose proof (Booking_save_ok now obj db (conj Hok Hiss)) as Hs.
    destruct (Booking_save now obj db) as [db' [e|r]] eqn:Hrun; simpl.
    + split; [done|]. intros _. by eapply Booking_save_refused.
    + split; [done|]. by intros [? ?].
  - intros cid t d u st. unfold BookingAdmin_save_model.
    destruct (Booking_save_with_user now cid t d u st db Hok) as [r Hr].
    destruct (Booking_save now _ db) as [db' [e|r']]; [done|done].
  - intros i Hnone. unfold BookingAdmin_save_model, Booking_save, related, bind, raise.
    destruct (n_court i) as [cid|]; [|done].
    destruct Hnone as [|Hnone]; [done|]. by rewrite Hnone.
  - intros r x Hx Htr Hne. unfold BookingAdmin_save_model, Booking_save, Model_save.
    rewrite decide_True; [done|].
    apply Exists_exists. by exists x.
Qed.

End Admin.

Section AdminExamples.

Lemma mark_as_available_keeps_the_row_witness :
  ∃ db1 grid ci e,
    (mark_as_available [116%N] Demo.booked_db).1 = db1
    ∧ length (bookings db1) = 2
    ∧ court_status_api Demo.now Demo.get_2024_01_01 db1 = (db1, Ok grid)
    ∧ g_courts grid !! 0 = Some ci
    ∧ ci_slots ci !! "1" = Some e
    ∧ s_status e = "available"
    ∧ (reconcile Demo.now Demo.alice "available" (Date 2024 1 1) (mkTimeSlot 100 7) 17
         (mkCourt 17 "badminton" "Court 1") db1).2
      = inr (mkSummary None "Court 1" "7:00 AM" "2024-01-01" "available" "alice"
               "deleted").
Proof.
  destruct (mark_as_available_keeps_the_row Demo.now Demo.get_2024_01_01 [116%N]
              Demo.booked_db (Demo.booking 116 17 100 "booked")
              (Date 2024 1 1) 0
              (mkCourt 17 "badminton" "Court 1") 0 (mkTimeSlot 100 7) Demo.alice
              (reachable_store_ok _ demo_reachable)
              ltac:(apply (bool_decide_unpack _); vm_compute; exact I)
              ltac:(discriminate)
              ltac:(apply (bool_decide_unpack _); vm_compute; exact I)
              ltac:(apply (bool_decide_unpack _); vm_compute; exact I)
              eq_refl eq_refl eq_refl eq_refl eq_refl eq_refl
              ltac:(discriminate) eq_refl eq_refl)
    as (db1 & grid & ci & e & H1 & H2 & _ & H3 & H4 & H5 & H6 & H7).
  exists db1, grid, ci, e.
  exact (conj H1 (conj H2 (conj H3 (conj H4 (conj H5 (conj H6 H7)))))).
Defined.

Lemma save_model_reports_a_refused_save_witness :
  BookingAdmin_save_model Demo.now (Loaded (Demo.booking 117 17 100 "reserved"))
    Demo.booked_db
  = (Demo.booked_db, Some DatabaseError)
  ∧ (BookingAdmin_save_model Demo.now
       (New (mkNew (Some 17%N) (Some 100%N) (Some (Date 2024 1 1)) (Some 9%Z)
               "maintenance")) Demo.booked_db).2
    = None.
Proof.
  destruct (save_model_reports_a_refused_save Demo.now Demo.booked_db
              (reachable_store_ok _ demo_reachable)) as (_ & Hadd & _ & Hmove).
  split; [|apply Hadd].
  apply (Hmove _ (Demo.booking 116 17 100 "booked")); [left|reflexivity|discriminate].
Defined.

End AdminExamples.

(** ** create_sample_data *)

Section SampleData.

Implicit Types (db : DB) (s : Sport) (c : Court).

Lemma grows_refl db : grows db db.
Proof. by repeat split. Qed.

Lemma grows_trans a b d : grows a b → grows b d → grows a d.
Proof.
  intros (H1 & H2 & H3 & H4 & H5) (G1 & G2 & G3 & G4 & G5).
  split; [congruence|]. split; [by etrans|]. split; [by etrans|].
  split; [by etrans|lia].
Qed.

Lemma adds_courts_refl db : adds_courts db db.
Proof. by repeat split. Qed.

Lemma adds_courts_trans a b d : adds_courts a b → adds_courts b d → adds_courts a d.
Proof.
  intros (H1 & H2 & H3 & H4 & H5 & H6) (G1 & G2 & G3 & G4 & G5 & G6).
  split; [congruence|]. split; [congruence|]. split; [congruence|].
  split; [by etrans|]. split; [lia|auto].
Qed.

Lemma adds_courts_grows a b : adds_courts a b → grows a b.
Proof.
  intros (H1 & H2 & H3 & H4 & H5 & _). unfold grows. rewrite H1, H2.
  by repeat split.
Qed.

(** A loop whose body keeps [I], moves the store along [R] and leaves
    [Post x] behind, or stops with an exception in [E]. *)
Lemma for_each_spec {A} (I : DB → Prop) (R : DB → DB → Prop) (Post : A → DB → Prop)
    (E : exn → DB → Prop) (l : list A) (body : A → M unit) :
  (∀ db, R db db) → (∀ a b d, R a b → R b d → R a d) →
  (∀ x a b, Post x a → R a b → Post x b) →
  (∀ x db, x ∈ l → I db →
     match body x db with
     | (db', inr _) => I db' ∧ R db db' ∧ Post x db'
     | (db', inl e) => R db db' ∧ E e db'
     end) →
  ∀ db, I db →
    match for_each l body db with
    | (db', inr _) => I db' ∧ R db db' ∧ ∀ x, x ∈ l → Post x db'
    | (db', inl e) => R db db' ∧ E e db'
    end.
Proof.
  intros Hrefl Htrans Hstable Hbody.
  induction l as [|x l IH]; intros db HI.
  - simpl. split; [done|]. split; [done|]. by intros x ?%elem_of_nil.
  - unfold for_each in *. cbn [foldr]. unfold bind at 1.
    pose proof (Hbody x db ltac:(left) HI) as Hx.
    destruct (body x db) as [db1 [e|[]]]; [done|].
    destruct Hx as (HI1 & HR1 & HP1).
    assert (∀ y db, y ∈ l → I db →
              match body y db with
              | (db', inr _) => I db' ∧ R db db' ∧ Post y db'
              | (db', inl e) => R db db' ∧ E e db'
              end) as Hbody' by (intros y d Hy; apply Hbody; by right).
    specialize (IH Hbody' db1 HI1).
    cbv beta.
    destruct (foldr (λ x k, body x >> k) (ret tt) l db1) as [db2 [e|[]]].
    + destruct IH as [HR2 HE]. split; [by eapply Htrans|done].
    + destruct IH as (HI2 & HR2 & HP2). split; [done|]. split; [by eapply Htrans|].
      intros y [->|Hy]%elem_of_cons; [by eapply Hstable|by apply HP2].
Qed.

(** A loop whose every pass leaves the store as it is. *)
Lemma for_each_fixed {A} (l : list A) (body : A → M unit) db :
  (∀ x, x ∈ l → body x db = (db, inr tt)) → for_each l body db = (db, inr tt).
Proof.
  induction l as [|x l IH]; intros H; [done|].
  unfold for_each in *. cbn [foldr]. unfold bind at 1.
  rewrite H; [|left]. apply IH. intros y Hy. apply H. by right.
Qed.

(** *** Sports *)

Lemma Sport_get_present id db :
  NoDup (sp_id <$> sports db) → id ∈ sp_id <$> sports db →
  ∃ s, Sport_get id db = (db, inr s) ∧ s ∈ sports db ∧ sp_id s = id.
Proof.
  intros Hnd Hin.
  destruct (filter_key_present sp_id (sports db) id Hnd Hin) as (s & Hs & Hid & Hf).
  exists s. unfold Sport_get, bind, query, lift. by rewrite Hf.
Qed.

Lemma Sport_get_or_create_present id name db :
  NoDup (sp_id <$> sports db) → id ∈ sp_id <$> sports db →
  (get_or_create (Sport_get id) (Sport_create id name) >> ret tt) db = (db, inr tt).
Proof.
  intros Hnd Hin. destruct (Sport_get_present id db Hnd Hin) as (s & Hs & _).
  unfold get_or_create, try_except, bind at 1. unfold bind at 1. by rewrite Hs.
Qed.

Lemma Sport_get_or_create_absent id name db :
  id ∉ sp_id <$> sports db →
  (get_or_create (Sport_get id) (Sport_create id name) >> ret tt) db
  = (set_sports (sports db ++ [mkSport id name]) db, inr tt).
Proof.
  intros Hin. unfold get_or_create, try_except, bind at 1. unfold bind at 1.
  unfold Sport_get, bind at 1, query, lift.
  rewrite (filter_key_absent sp_id _ id Hin). simpl.
  unfold bind, Sport_create. by rewrite decide_False.
Qed.

(** Lines 234-238: afterwards every sample sport is there; the sports that
    were there keep their names. *)
Lemma sample_sports_run db :
  keys_ok db →
  ∃ db', for_each sports_data
           (λ sport_data,
              get_or_create (Sport_get sport_data.1)
                (Sport_create sport_data.1 sport_data.2) >> ret tt) db
         = (db', inr tt)
         ∧ keys_ok db' ∧ grows db db' ∧ courts db' = courts db
         ∧ (∀ sport_data, sport_data ∈ sports_data →
                          sport_data.1 ∈ sp_id <$> sports db')
         ∧ ((∀ sport_data, sport_data ∈ sports_data →
                           sport_data.1 ∈ sp_id <$> sports db) → db' = db).
Proof.
  intros Hk.
  pose proof (for_each_spec keys_ok
                (λ a b, grows a b ∧ courts b = courts a
                        ∧ time_slots b = time_slots a)
                (λ sd d, sd.1 ∈ sp_id <$> sports d) (λ _ _, False) sports_data
                (λ sport_data,
                   get_or_create (Sport_get sport_data.1)
                     (Sport_create sport_data.1 sport_data.2) >> ret tt)) as H.
  specialize (H (λ d, conj (grows_refl d) (conj eq_refl eq_refl))).
  assert (∀ a b d : DB,
            grows a b ∧ courts b = courts a ∧ time_slots b = time_slots a →
            grows b d ∧ courts d = courts b ∧ time_slots d = time_slots b →
            grows a d ∧ courts d = courts a ∧ time_slots d = time_slots a) as Htr.
  { intros a b d (? & ? & ?) (? & ? & ?). split; [by eapply grows_trans|].
    split; congruence. }
  specialize (H Htr). clear Htr.
  assert (∀ (x : string * string) (a b : DB),
            x.1 ∈ sp_id <$> sports a →
            grows a b ∧ courts b = courts a ∧ time_slots b = time_slots a →
            x.1 ∈ sp_id <$> sports b) as Hst.
  { intros x a b Hx ((_ & [k Hp] & _) & _). rewrite Hp, fmap_app.
    apply elem_of_app. by left. }
  specialize (H Hst). clear Hst.
  assert (∀ (x : string * string) db,
            x ∈ sports_data → keys_ok db →
            match (get_or_create (Sport_get x.1) (Sport_create x.1 x.2) >> ret tt) db with
            | (db', inr _) =>
                keys_ok db'
                ∧ (grows db db' ∧ courts db' = courts db
                   ∧ time_slots db' = time_slots db)
                ∧ x.1 ∈ sp_id <$> sports db'
            | (db', inl e) =>
                (grows db db' ∧ courts db' = courts db
                 ∧ time_slots db' = time_slots db) ∧ False
            end) as Hbody.
  { intros [id name] d _ [Hids Hhours]. cbn [fst snd].
    destruct (decide (id ∈ sp_id <$> sports d)) as [Hin|Hout].
    - rewrite Sport_get_or_create_present; [|done..].
      split; [done|]. split; [|done]. split; [apply grows_refl|done].
    - rewrite Sport_get_or_create_absent; [|done].
      split; [|split].
      + split; [|done]. cbn [sports set_sports]. rewrite fmap_app.
        apply NoDup_app. split; [done|]. split; [|apply NoDup_singleton].
        intros y Hy ->%list_elem_of_singleton. done.
      + split; [|done]. repeat split; cbn; try done. by eexists.
      + cbn [sports set_sports]. rewrite fmap_app. apply elem_of_app. right.
        by apply list_elem_of_singleton. }
  specialize (H Hbody db Hk). clear Hbody.
  destruct (for_each sports_data _ db) as [db' [e|[]]] eqn:Hrun; [by destruct H|].
  destruct H as (Hk' & (Hg & Hc & _) & Hall).
  exists db'. split; [done|]. split; [done|]. split; [done|]. split; [done|].
  split; [done|].
  intros Hpresent.
  assert (for_each sports_data
            (λ sport_data,
               get_or_create (Sport_get sport_data.1)
                 (Sport_create sport_data.1 sport_data.2) >> ret tt) db
          = (db, inr tt)) as Hfix.
  { apply for_each_fixed. intros [id name] Hx. cbn [fst snd].
    apply Sport_get_or_create_present; [apply Hk|]. by apply (Hpresent (id, name)). }
  rewrite Hfix in Hrun. by injection Hrun.
Qed.

(** *** Time slots *)

(** Line 241. *)
Lemma sample_slots_run db :
  keys_ok db →
  ∃ db', create_default_slots db = (db', inr tt)
         ∧ keys_ok db' ∧ grows db db'
         ∧ sports db' = sports db ∧ courts db' = courts db
         ∧ (∀ h, h ∈ range 7 16 → h ∈ hour <$> time_slots db')
         ∧ ((∀ h, h ∈ range 7 16 → h ∈ hour <$> time_slots db) → db' = db).
Proof.
  intros [Hids Hhours].
  destruct (create_default_slots_twice db Hhours) as (db1 & Hrun & _ & Hnd1 & Hall & _).
  exists db1. split; [done|].
  unfold create_default_slots in Hrun.
  rewrite (seed_run (range 7 16) db (range_NoDup _ _) Hhours) in Hrun.
  assert (missing (range 7 16) (hour <$> time_slots db) = []
          ↔ ∀ h, h ∈ range 7 16 → h ∈ hour <$> time_slots db) as Hnone.
  { split.
    - intros Hnil h Hh.
      destruct (decide (h ∈ hour <$> time_slots db)) as [Hin|Hout]; [done|].
      assert (h ∈ missing (range 7 16) (hour <$> time_slots db)) as Hm
        by (by apply list_elem_of_filter).
      rewrite Hnil in Hm. by apply elem_of_nil in Hm.
    - intros Hpresent. apply filter_none. intros h Hh Hno. by apply Hno, Hpresent. }
  revert Hrun Hnone. generalize (missing (range 7 16) (hour <$> time_slots db)).
  intros hs Hrun Hnone.
  assert (db1 = set_time_slots (time_slots db ++ new_rows (next_id db) hs)
                  (next_id db + N.of_nat (length hs))%N db) as Hdb1 by congruence.
  clear Hrun.
  assert (sports db1 = sports db ∧ courts db1 = courts db
          ∧ bookings db1 = bookings db
          ∧ time_slots db1 = time_slots db ++ new_rows (next_id db) hs
          ∧ next_id db1 = (next_id db + N.of_nat (length hs))%N)
    as (Hs & Hc & Hb & Ht & Hn) by (rewrite Hdb1; repeat split).
  split; [split; [by rewrite Hs|done]|].
  split.
  { split; [done|]. rewrite Hs, Hc, Ht, Hn. split; [done|].
    split; [by eexists|]. split; [done|lia]. }
  split; [done|]. split; [done|]. split; [done|].
  intros Hpresent. apply Hnone in Hpresent. subst hs.
  rewrite Hdb1.
  change (new_rows (next_id db) []) with (@nil TimeSlot).
  change (N.of_nat (length (@nil Z))) with 0%N.
  rewrite app_nil_r, N.add_0_r. by destruct db.
Qed.

(** *** Courts *)

Lemma court_filter s name (l : list Court) :
  filter (λ c, c_sport c = sp_id s ∧ c_name c = name) l
  = filter (λ c, court_pair c = (sp_id s, name)) l.
Proof.
  apply list_filter_iff. intros c. unfold court_pair. split.
  - by intros [-> ->].
  - by intros [= -> ->].
Qed.

(** Lines 248-251, one court: found, created, or refused because two
    courts of the sport carry the name. *)
Lemma Court_get_or_create_spec s name db :
  match (get_or_create (Court_get s name) (Court_create s name) >> ret tt) db with
  | (db', inr _) => adds_courts db db' ∧ (sp_id s, name) ∈ court_pair <$> courts db'
  | (db', inl e) =>
      adds_courts db db' ∧ e = MultipleObjectsReturned ∧ ¬ courts_ok db'
  end.
Proof.
  unfold get_or_create, try_except, bind at 1. unfold bind at 1.
  unfold Court_get, bind at 1, query, lift.
  destruct (filter (λ c, c_sport c = sp_id s ∧ c_name c = name) (courts db))
    as [|x [|y l]] eqn:Hf; simpl.
  - unfold bind, Court_create, ret. split.
    + split; [done|]. split; [done|]. split; [done|].
      split; [cbn; by eexists|]. split; [cbn; lia|].
      unfold courts_ok. cbn. intros Hnd. rewrite fmap_app.
      apply NoDup_app. split; [done|]. split; [|apply NoDup_singleton].
      intros p Hp ->%list_elem_of_singleton.
      apply list_elem_of_fmap in Hp as (c & Hc & Hin).
      assert (c ∈ filter (λ c, c_sport c = sp_id s ∧ c_name c = name) (courts db))
        as Hcf.
      { apply list_elem_of_filter. split; [|done]. by injection Hc as <- <-. }
      rewrite Hf in Hcf. by apply elem_of_nil in Hcf.
    + cbn. rewrite fmap_app. apply elem_of_app. right.
      by apply list_elem_of_singleton.
  - unfold ret. split; [apply adds_courts_refl|].
    assert (x ∈ filter (λ c, c_sport c = sp_id s ∧ c_name c = name) (courts db))
      as [[Hs Hn] Hx]%list_elem_of_filter by (rewrite Hf; left).
    apply list_elem_of_fmap. exists x. split; [|done].
    unfold court_pair. by rewrite Hs, Hn.
  - split; [apply adds_courts_refl|]. split; [done|].
    unfold courts_ok. intros Hnd.
    assert (NoDup (court_pair <$> filter (λ c, c_sport c = sp_id s ∧ c_name c = name)
                                    (courts db))) as Hsub.
    { eapply sublist_NoDup;
        solve [exact Hnd | apply fmap_sublist, sublist_filter]. }
    assert (∀ z, z ∈ x :: y :: l → court_pair z = (sp_id s, name)) as Hpair.
    { intros z Hz. rewrite <- Hf in Hz.
      apply list_elem_of_filter in Hz as [[Hs Hn] _]. unfold court_pair.
      by rewrite Hs, Hn. }
    rewrite Hf in Hsub. simpl in Hsub.
    rewrite (Hpair x), (Hpair y) in Hsub; [|right; left|left].
    apply NoDup_cons in Hsub as [Hno _]. apply Hno. left.
Qed.

Lemma Court_get_or_create_present s name db :
  courts_ok db → (sp_id s, name) ∈ court_pair <$> courts db →
  (get_or_create (Court_get s name) (Court_create s name) >> ret tt) db = (db, inr tt).
Proof.
  intros Hnd Hin.
  destruct (filter_key_present court_pair (courts db) _ Hnd Hin) as (c & _ & _ & Hf).
  unfold get_or_create, try_except, bind at 1. unfold bind at 1.
  unfold Court_get, bind at 1, query, lift.
  by rewrite court_filter, Hf.
Qed.

Lemma pair_stable p db db' :
  p ∈ court_pair <$> courts db → adds_courts db db' → p ∈ court_pair <$> courts db'.
Proof.
  intros Hp (_ & _ & _ & [k Hk] & _). rewrite Hk, fmap_app. apply elem_of_app. by left.
Qed.

(** Lines 247-251: the four courts of one sport. *)
Lemma sample_courts_of_sport s db :
  match for_each (range 1 4)
          (λ i, get_or_create (Court_get s (court_label s i))
                  (Court_create s (court_label s i)) >> ret tt) db with
  | (db', inr _) =>
      adds_courts db db'
      ∧ ∀ i, i ∈ range 1 4 → (sp_id s, court_label s i) ∈ court_pair <$> courts db'
  | (db', inl e) =>
      adds_courts db db' ∧ e = MultipleObjectsReturned ∧ ¬ courts_ok db'
  end.
Proof.
  pose proof (for_each_spec (λ _, True) adds_courts
                (λ i d, (sp_id s, court_label s i) ∈ court_pair <$> courts d)
                (λ e d, e = MultipleObjectsReturned ∧ ¬ courts_ok d) (range 1 4)
                (λ i, get_or_create (Court_get s (court_label s i))
                        (Court_create s (court_label s i)) >> ret tt)
                adds_courts_refl adds_courts_trans
                (λ i a b, pair_stable _ a b)) as H.
  assert (∀ (i : Z) db,
            i ∈ range 1 4 → True →
            match (get_or_create (Court_get s (court_label s i))
                     (Court_create s (court_label s i)) >> ret tt) db with
            | (db', inr _) =>
                True ∧ adds_courts db db'
                ∧ (sp_id s, court_label s i) ∈ court_pair <$> courts db'
            | (db', inl e) =>
                adds_courts db db' ∧ e = MultipleObjectsReturned ∧ ¬ courts_ok db'
            end) as Hbody.
  { intros i d _ _. pose proof (Court_get_or_create_spec s (court_label s i) d) as Hc.
    destruct ((get_or_create _ _ >> ret tt) d) as [d' [e|[]]]; [done|].
    by split. }
  specialize (H Hbody db I).
  destruct (for_each (range 1 4) _ db) as [db' [e|[]]]; [done|]. by destruct H.
Qed.

Lemma has_courts_stable sport_data db db' :
  has_courts sport_data db → adds_courts db db' → has_courts sport_data db'.
Proof.
  intros (s & Hs & Hid & Hall) Hadd. exists s.
  split; [by rewrite (proj1 Hadd)|]. split; [done|].
  intros i Hi. eapply pair_stable; [by apply Hall|done].
Qed.

(** Lines 244-253. *)
Lemma sample_courts_run db :
  NoDup (sp_id <$> sports db) →
  (∀ sport_data, sport_data ∈ sports_data → sport_data.1 ∈ sp_id <$> sports db) →
  match for_each sports_data
          (λ sport_data,
             try_except
               (let! sport := Sport_get sport_data.1 in
                for_each (range 1 4)
                  (λ i, get_or_create (Court_get sport (court_label sport i))
                          (Court_create sport (court_label sport i)) >> ret tt))
               (λ e, match e with
                     | DoesNotExist => ret tt
                     | _ => raise e
                     end)) db with
  | (db', inr _) =>
      adds_courts db db'
      ∧ ∀ sport_data, sport_data ∈ sports_data → has_courts sport_data db'
  | (db', inl e) =>
      adds_courts db db' ∧ e = MultipleObjectsReturned ∧ ¬ courts_ok db'
  end.
Proof.
  intros Hnd Hpresent.
  pose proof (for_each_spec
                (λ d, NoDup (sp_id <$> sports d)
                      ∧ ∀ sd, sd ∈ sports_data → sd.1 ∈ sp_id <$> sports d)
                adds_courts has_courts
                (λ e d, e = MultipleObjectsReturned ∧ ¬ courts_ok d) sports_data
                (λ sport_data,
                   try_except
                     (let! sport := Sport_get sport_data.1 in
                      for_each (range 1 4)
                        (λ i, get_or_create (Court_get sport (court_label sport i))
                                (Court_create sport (court_label sport i)) >> ret tt))
                     (λ e, match e with
                           | DoesNotExist => ret tt
                           | _ => raise e
                           end))
                adds_courts_refl adds_courts_trans has_courts_stable) as H.
  cbv beta in H.
  match type of H with
  | ?Body → _ => assert Body as Hbody
  end.
  { intros sd d Hsd [Hd Hall].
    destruct (Sport_get_present sd.1 d Hd (Hall sd Hsd)) as (s & Hget & Hs & Hid).
    unfold try_except, bind at 1. rewrite Hget.
    pose proof (sample_courts_of_sport s d) as Hin.
    destruct (for_each (range 1 4) _ d) as [d' [e|[]]].
    - destruct Hin as (Hadd & -> & Hno). unfold raise. by split.
    - destruct Hin as [Hadd Hin]. pose proof Hadd as (Hsp & _).
      split; [by rewrite Hsp|]. split; [done|].
      exists s. rewrite Hsp. split; [done|]. split; [done|].
      intros i Hi. rewrite Hid. rewrite <- Hid. by apply Hin. }
  specialize (H Hbody db (conj Hnd Hpresent)).
  destruct (for_each sports_data _ db) as [db' [e|[]]]; [done|]. by destruct H.
Qed.

(** *** The whole of it *)

(** Lines 224-253 on a store whose declared keys hold: the sports and
    the time slots are always written; the courts are written up to the
    first name that two courts of a sport carry. *)
Lemma sample_data_spec db :
  keys_ok db →
  keys_ok (sample_data db).1 ∧ grows db (sample_data db).1
  ∧ (courts_ok db → courts_ok (sample_data db).1)
  ∧ (∀ sport_data, sport_data ∈ sports_data →
                   sport_data.1 ∈ sp_id <$> sports (sample_data db).1)
  ∧ (∀ h, h ∈ range 7 16 → h ∈ hour <$> time_slots (sample_data db).1)
  ∧ match (sample_data db).2 with
    | inr _ => ∀ sport_data, sport_data ∈ sports_data →
                             has_courts sport_data (sample_data db).1
    | inl e => e = MultipleObjectsReturned ∧ ¬ courts_ok db
    end.
Proof.
  intros Hk.
  destruct (sample_sports_run db Hk) as (db1 & Hrun1 & Hk1 & Hg1 & Hc1 & Hall1 & _).
  destruct (sample_slots_run db1 Hk1) as (db2 & Hrun2 & Hk2 & Hg2 & Hs2 & Hc2 & Hall2 & _).
  assert (∀ sd, sd ∈ sports_data → sd.1 ∈ sp_id <$> sports db2) as Hpresent
    by (intros sd Hsd; rewrite Hs2; by apply Hall1).
  pose proof (sample_courts_run db2 (proj1 Hk2) Hpresent) as H3.
  destruct (sample_data db) as [db3 r] eqn:Hsd. cbn [fst snd].
  unfold sample_data in Hsd. unfold bind at 1 in Hsd. rewrite Hrun1 in Hsd.
  unfold bind at 1 in Hsd. rewrite Hrun2 in Hsd. cbv beta iota in Hsd.
  rewrite Hsd in H3.
  assert (adds_courts db2 db3) as Hadd by (destruct r as [e|[]]; apply H3).
  pose proof Hadd as (Hs3 & Ht3 & _ & _ & _ & Hok3).
  assert (courts_ok db → courts_ok db3) as Hcourts.
  { intros Hok. apply Hok3. unfold courts_ok. by rewrite Hc2, Hc1. }
  split; [unfold keys_ok; rewrite Hs3, Ht3; apply Hk2|].
  split.
  { eapply grows_trans; [exact Hg1|]. eapply grows_trans; [exact Hg2|].
    by apply adds_courts_grows. }
  split; [done|]. split; [by rewrite Hs3|]. split; [by rewrite Ht3|].
  destruct r as [e|[]]; [|apply H3].
  destruct H3 as (_ & -> & Hno). split; [done|]. intros Hok. by apply Hno, Hcourts.
Qed.

(** On a store that holds the sample data the loops find every row. *)
Lemma sample_data_fixed db :
  keys_ok db → courts_ok db → sample_complete db → sample_data db = (db, inr tt).
Proof.
  intros Hk Hok [Hcourts Hhours].
  assert (∀ sd, sd ∈ sports_data → sd.1 ∈ sp_id <$> sports db) as Hpresent.
  { intros sd (s & Hs & Hid & _)%Hcourts. apply list_elem_of_fmap. by exists s. }
  destruct (sample_sports_run db Hk) as (db1 & Hrun1 & _ & _ & _ & _ & Hfix1).
  rewrite (Hfix1 Hpresent) in Hrun1.
  destruct (sample_slots_run db Hk) as (db2 & Hrun2 & _ & _ & _ & _ & _ & Hfix2).
  rewrite (Hfix2 Hhours) in Hrun2.
  unfold sample_data, bind at 1. rewrite Hrun1. unfold bind at 1. rewrite Hrun2.
  apply for_each_fixed. intros sd Hsd.
  destruct (Hcourts sd Hsd) as (s & Hs & Hid & Hall).
  destruct (Sport_get_present sd.1 db (proj1 Hk) (Hpresent sd Hsd))
    as (s' & Hget & Hs' & Hid').
  assert (s' = s) as ->.
  { eapply (NoDup_fmap_eq sp_id); [apply Hk|done..|congruence]. }
  unfold try_except, bind at 1. rewrite Hget.
  rewrite for_each_fixed; [done|].
  intros i Hi. apply Court_get_or_create_present; [done|by apply Hall].
Qed.

(** X14: [create_sample_data] on a store without two courts of one sport
    under one name answers with success, removes and changes nothing,
    leaves every sample sport with its four courts and every hour from
    7 to 22, and a second call changes nothing more. *)
Theorem create_sample_data_completes u db :
  keys_ok db → courts_ok db →
  ∃ db', create_sample_data (Some u) db = (db', Ok tt)
         ∧ keys_ok db' ∧ courts_ok db' ∧ grows db db' ∧ sample_complete db'
         ∧ ∀ u', create_sample_data (Some u') db' = (db', Ok tt).
Proof.
  intros Hk Hok.
  destruct (sample_data_spec db Hk) as (Hk' & Hg & Hok' & _ & Hhours & Hres).
  unfold create_sample_data.
  destruct (sample_data db) as [db' [e|[]]] eqn:Hrun; cbn [fst snd] in *.
  { by destruct Hres as [_ Hno]. }
  exists db'. split; [done|]. split; [done|]. split; [by apply Hok'|].
  split; [done|]. split; [done|].
  intros u'. by rewrite sample_data_fixed; [|done|apply Hok'|].
Qed.

(** X15: [create_sample_data] is not all or nothing.  Whatever courts the
    store holds, the call removes nothing and writes the sample sports
    and the time slots; it then ends with success, or with an unhandled
    [MultipleObjectsReturned], and this only on a store where two courts
    of one sport carry one name. *)
Theorem create_sample_data_outcomes u db :
  keys_ok db →
  keys_ok (create_sample_data (Some u) db).1
  ∧ grows db (create_sample_data (Some u) db).1
  ∧ (∀ sport_data, sport_data ∈ sports_data →
       sport_data.1 ∈ sp_id <$> sports (create_sample_data (Some u) db).1)
  ∧ (∀ h, h ∈ range 7 16 →
          h ∈ hour <$> time_slots (create_sample_data (Some u) db).1)
  ∧ ((create_sample_data (Some u) db).2 = Ok tt
     ∨ (create_sample_data (Some u) db).2 = Unhandled MultipleObjectsReturned
       ∧ ¬ courts_ok db).
Proof.
  intros Hk.
  destruct (sample_data_spec db Hk) as (Hk' & Hg & _ & Hsports & Hhours & Hres).
  unfold create_sample_data.
  destruct (sample_data db) as [db' [e|[]]]; cbn [fst snd] in *.
  - destruct Hres as [-> Hno]. repeat split; try done; try apply Hk'; try apply Hg.
    by right.
  - repeat split; try done; try apply Hk'; try apply Hg. by left.
Qed.

End SampleData.

Section SampleDataExamples.

Lemma create_sample_data_completes_witness :
  ∃ db', create_sample_data (Some Demo.alice) Demo.empty_db = (db', Ok tt)
         ∧ length (sports db') = 6 ∧ length (time_slots db') = 16
         ∧ length (courts db') = 26
         ∧ create_sample_data (Some Demo.alice) db' = (db', Ok tt).
Proof.
  assert (keys_ok Demo.empty_db) as Hk
    by (split; apply (bool_decide_unpack _); vm_compute; exact I).
  assert (courts_ok Demo.empty_db) as Hok
    by (apply (bool_decide_unpack _); vm_compute; exact I).
  destruct (create_sample_data_completes Demo.alice Demo.empty_db Hk Hok)
    as (db' & Hrun & _ & _ & _ & _ & Hagain).
  exists db'. split; [exact Hrun|].
  assert (length (sports db') = 6 ∧ length (time_slots db') = 16
          ∧ length (courts db') = 26) as (H1 & H2 & H3).
  { vm_compute in Hrun. injection Hrun as <-. by vm_compute. }
  exact (conj H1 (conj H2 (conj H3 (Hagain Demo.alice)))).
Defined.

(** Two courts named "Squash Court 2" stop the call at the squash
    courts, after the courts of the three sports before it. *)
Lemma create_sample_data_outcomes_witness :
  (create_sample_data (Some Demo.alice)
     (mkDB [] [] [mkCourt 1 "squash" "Squash Court 2";
                  mkCourt 2 "squash" "Squash Court 2"] [] 3)).2
  = Unhandled MultipleObjectsReturned
  ∧ length (sports (create_sample_data (Some Demo.alice)
                      (mkDB [] [] [mkCourt 1 "squash" "Squash Court 2";
                                   mkCourt 2 "squash" "Squash Court 2"] [] 3)).1) = 6
  ∧ length (time_slots (create_sample_data (Some Demo.alice)
                          (mkDB [] [] [mkCourt 1 "squash" "Squash Court 2";
                                       mkCourt 2 "squash" "Squash Court 2"] [] 3)).1)
    = 16
  ∧ length (courts (create_sample_data (Some Demo.alice)
                      (mkDB [] [] [mkCourt 1 "squash" "Squash Court 2";
                                   mkCourt 2 "squash" "Squash Court 2"] [] 3)).1) = 15.
Proof.
  destruct (create_sample_data_outcomes Demo.alice
              (mkDB [] [] [mkCourt 1 "squash" "Squash Court 2";
                           mkCourt 2 "squash" "Squash Court 2"] [] 3)
              (conj (NoDup_nil_2 (A:=string)) (NoDup_nil_2 (A:=Z))))
    as (_ & _ & _ & _ & [Hok|[Hfail _]]).
  - vm_compute in Hok. discriminate Hok.
  - split; [exact Hfail|]. vm_compute. repeat split.
Defined.

End SampleDataExamples.

(** ** The catalog views *)

Section CatalogViews.

Implicit Types (db : DB).

(** X16: [debug_data_api] and [sports_list_api] only read.  The dump of
    [debug_data_api] has as many slots as it counts, in ascending order of
    the hour; on a store without time slots it is empty, where
    [time_slots_api] first creates the sixteen; after [time_slots_api]
    the dump is the list that view gave; and [sports_list_api] gives the
    sports that a grid of [court_status_api] carries. *)
Theorem catalog_views_agree now request db :
  (∃ d, debug_data_api db = (db, Ok d)
        ∧ time_slots_count d = length (dumped_slots d)
        ∧ (∀ i j x y, i < j → dumped_slots d !! i = Some x →
                      dumped_slots d !! j = Some y → (v_hour x ≤ v_hour y)%Z)
        ∧ (time_slots db = [] →
           dumped_slots d = []
           ∧ ∃ db' views, time_slots_api db = (db', Ok views) ∧ length views = 16))
  ∧ (∀ db' views, time_slots_api db = (db', Ok views) →
       ∃ d', debug_data_api db' = (db', Ok d') ∧ dumped_slots d' = views)
  ∧ (∀ db' grid, court_status_api now request db = (db', Ok grid) →
       sports_list_api db' = (db', Ok (g_sports grid))).
Proof.
  split; [|split].
  - eexists. split; [reflexivity|]. cbn [dumped_slots time_slots_count].
    split; [by rewrite length_fmap, order_by_hour_Permutation|]. split.
    + intros i j x y Hlt Hx Hy. rewrite list_lookup_fmap in Hx, Hy.
      destruct (order_by_hour (time_slots db) !! i) as [a|] eqn:Ha; [|done].
      destruct (order_by_hour (time_slots db) !! j) as [b|] eqn:Hb; [|done].
      simpl in Hx, Hy. injection Hx as <-. injection Hy as <-. cbn [v_hour].
      exact (sorted_lookup _ i j a b (order_by_hour_sorted _) Ha Hb Hlt).
    + intros Hnil. split; [by rewrite Hnil|].
      unfold time_slots_api. rewrite ensure_time_slots_run, decide_True by done.
      eexists _, _. split; [reflexivity|].
      rewrite length_fmap, order_by_hour_Permutation. cbn [time_slots set_time_slots].
      by rewrite <- (length_fmap hour), new_rows_hours.
  - intros db' views. unfold time_slots_api.
    destruct (ensure_time_slots db) as [db1 [e|[]]]; [done|].
    intros [= <- <-]. by eexists.
  - intros db' grid Hrun. unfold sports_list_api.
    unfold court_status_api in Hrun.
    destruct (fromisoformat _) as [d|]; [|done].
    destruct (default_sport _ _) as [sid|]; [|done].
    destruct (ensure_time_slots db) as [db1 [e|[]]]; [done|].
    by injection Hrun as <- <-.
Qed.

End CatalogViews.
